(** * Attendance analysis engine: a shallow embedding of
      [src/utils/attendanceAnalysis.ts] and its properties.

    Conventions of the embedding.
    - A JavaScript [number] that only ever holds a whole number of minutes,
      a count or a configured threshold is a [Z] (or a [nat] for a
      counter).  The other numbers are rationals [Q].  The hour credits of
      a day and their sums are whole numbers of half hours, which a
      [number] holds exactly.  The Saturday hours of the aggregator are
      quotients by 60 that are added up: there each operation is followed
      by the rounding of IEEE 754 double precision, [binary64].  The means
      of the classifier are exact; a mean that can be [NaN] is an
      [option Q].
    - The timestamp string ['yyyy-MM-dd HH:mm:ss'] is kept in parsed form:
      the calendar date as the number of days since 1970-01-01 and the
      three clock fields.  [fecha_de] converts a civil date to that number.
      Clock time is local time of a zone with a fixed offset, so that one
      day has 86400 seconds.
    - [Set<string>] of date keys is a [gset Z]; the objects used as
      dictionaries (grouping by name, grouping by day) are association
      lists of their own properties in the order of creation, which is
      the order [Object.entries] uses for keys that are not array
      indices.  A date key is never an array index or an inherited
      property name; an employee name can be either, and
      [Js.analyzeAttendance] is the call for arbitrary names: it throws
      for an inherited name, lists the names that are array indices first,
      and is the list of [analyzeAttendance] otherwise. *)

From Stdlib Require Import ZArith QArith Qabs Qround Qpower Lqa.
From Stdlib Require Import List Bool Ascii String Lia.
From Stdlib Require SpecFloat.
From stdpp Require Import base decidable option list sorting gmap strings.

Local Open Scope Z_scope.

(* [set_solver] clears hypotheses that are already gone. *)
Set Warnings "-clear-no-such-hyp".

(** ** Data model ([src/types.ts]) *)

Inductive TipoRegistro := TIn | TOut | TBreak.

#[global] Instance TipoRegistro_eq_dec : EqDecision TipoRegistro.
Proof. solve_decision. Defined.

(** ['Fecha/Hora'] in parsed form. *)
Record FechaHora := mkFechaHora {
  fecha : Z;      (* days since 1970-01-01: the 'yyyy-MM-dd' part *)
  horas : Z;
  minutos : Z;
  segundos : Z
}.

#[global] Instance FechaHora_eq_dec : EqDecision FechaHora.
Proof. solve_decision. Defined.

(** The fields of [AttendanceRecord] that the analysis reads; the other
    columns of the spreadsheet are carried along untouched. *)
Record AttendanceRecord := mkRecord {
  Nombre : string;
  Fecha_Hora : FechaHora;
  Tipo_de_registro : TipoRegistro;
  Operacion : option string      (* [Operacion?: string] *)
}.

#[global] Instance AttendanceRecord_eq_dec : EqDecision AttendanceRecord.
Proof. solve_decision. Defined.

(** A [Schedule] is a JavaScript object: [oid] is its identity, which is
    what [===] compares. *)
Record Schedule := mkSchedule {
  oid : nat;
  startTime : Z;
  endTime : Z;
  lunchStart : Z;
  lunchEnd : Z
}.

Record Thresholds := mkThresholds {
  fullHour : Z;
  halfHour : Z
}.

Record PreferencesConfig := mkPreferences {
  regularSchedule : Schedule;
  earlySchedule : Schedule;
  duplicateThresholdMinutes : Z;
  lunchDuration : Z;
  overtimeThresholds : Thresholds;
  lateThresholds : Thresholds;
  showAllDays : bool
}.

Definition DEFAULT_PREFERENCES : PreferencesConfig := {|
  regularSchedule := {| oid := 1; startTime := 8 * 60; endTime := 17 * 60;
                        lunchStart := 12 * 60; lunchEnd := 13 * 60 |};
  earlySchedule := {| oid := 2; startTime := 7 * 60; endTime := 16 * 60;
                      lunchStart := 12 * 60; lunchEnd := 13 * 60 |};
  duplicateThresholdMinutes := 5;
  lunchDuration := 60;
  overtimeThresholds := {| fullHour := 55; halfHour := 25 |};
  lateThresholds := {| fullHour := 35; halfHour := 5 |};
  showAllDays := true
|}.

(** [a === b] on two schedule objects. *)
Definition same_object (a b : Schedule) : bool := Nat.eqb (oid a) (oid b).

(** ** Time utilities (the functions of date-fns and [Date] in use) *)

(** Days since 1970-01-01 of the civil date [y]-[m]-[d]. *)
Definition fecha_de (y m d : Z) : Z :=
  let y' := if m <=? 2 then y - 1 else y in
  let era := y' / 400 in
  let yoe := y' - era * 400 in
  let mp := if 2 <? m then m - 3 else m + 9 in
  let doy := (153 * mp + 2) / 5 + d - 1 in
  let doe := yoe * 365 + yoe / 4 - yoe / 100 + doy in
  era * 146097 + doe - 719468.

(** [date.getTime()], in seconds. *)
Definition getTime (t : FechaHora) : Z :=
  fecha t * 86400 + horas t * 3600 + minutos t * 60 + segundos t.

Definition getHours (t : FechaHora) : Z := horas t.
Definition getMinutes (t : FechaHora) : Z := minutos t.

(** [date.getDay()]: 0 is Sunday, 6 is Saturday; day 0 was a Thursday. *)
Definition getDay (t : FechaHora) : Z := (fecha t + 4) mod 7.

Definition isWeekend (t : FechaHora) : bool :=
  (getDay t =? 0) || (getDay t =? 6).

(** [parse(date, 'yyyy-MM-dd', new Date())]: midnight of that day. *)
Definition parse_date (d : Z) : FechaHora :=
  {| fecha := d; horas := 0; minutos := 0; segundos := 0 |}.

(** [record['Fecha/Hora'].split(' ')[0]] *)
Definition date_key (r : AttendanceRecord) : Z := fecha (Fecha_Hora r).

(** [differenceInMinutes(a, b)]: whole minutes, truncated toward zero. *)
Definition differenceInMinutes (a b : FechaHora) : Z :=
  (getTime a - getTime b) ÷ 60.

(** [isWithinInterval(date, {start, end})] for [start <= end], both ends
    included; [start] and [end] are instants in seconds.  What the
    library does with an interval that ends before it starts depends on
    its version, so the statements on [analyzeAttendance] take
    [startDate <= endDate]. *)
Definition isWithinInterval (t : FechaHora) (startDate endDate : Z) : bool :=
  (startDate <=? getTime t) && (getTime t <=? endDate).

Definition minutesOfDay (t : FechaHora) : Z := getHours t * 60 + getMinutes t.

(** ** Duplicate filter *)

(** [[...records].sort((a, b) => time a - time b)]: the sort of an array
    is stable, so a record goes in front of the first one that is
    strictly later and behind those with its own timestamp. *)
Definition timeOf (r : AttendanceRecord) : Z := getTime (Fecha_Hora r).

Fixpoint insert_by_time (r : AttendanceRecord) (l : list AttendanceRecord)
  : list AttendanceRecord :=
  match l with
  | [] => [r]
  | x :: l' => if timeOf r <=? timeOf x then r :: x :: l'
               else x :: insert_by_time r l'
  end.

Definition sort_by_time (l : list AttendanceRecord) : list AttendanceRecord :=
  foldr insert_by_time [] l.

(** The test of lines 103-107: [current] is not a duplicate of [prev]. *)
Definition differs (preferences : PreferencesConfig)
    (prev current : AttendanceRecord) : bool :=
  (duplicateThresholdMinutes preferences
     <? differenceInMinutes (Fecha_Hora current) (Fecha_Hora prev))
  || negb (bool_decide (Tipo_de_registro current = Tipo_de_registro prev))
  || negb (bool_decide (Operacion current = Operacion prev)).

(** The callback of [reduce], with its [index] argument.  From index 1 on
    the accumulator is never empty (see [reduce_from_nonempty]), so the
    branch where [acc[acc.length - 1]] is undefined is not reached. *)
Definition keep_step (preferences : PreferencesConfig)
    (acc : list AttendanceRecord) (current : AttendanceRecord) (index : nat)
  : list AttendanceRecord :=
  if Nat.eqb index 0 then [current]
  else match last acc with
       | Some prevRecord =>
           if differs preferences prevRecord current
           then acc ++ [current] else acc
       | None => acc
       end.

(** [arr.reduce(f, init)] with the running index. *)
Fixpoint reduce_from {A B : Type} (f : B -> A -> nat -> B)
    (l : list A) (index : nat) (acc : B) : B :=
  match l with
  | [] => acc
  | x :: l' => reduce_from f l' (S index) (f acc x index)
  end.

Definition filterDuplicateRecords (records : list AttendanceRecord)
    (preferences : PreferencesConfig) : list AttendanceRecord :=
  let sortedRecords := sort_by_time records in
  reduce_from (keep_step preferences) sortedRecords 0%nat [].

(** The filter as the specification words it: the first record is kept;
    a later one is kept iff it differs from the last kept one. *)
Fixpoint keep_after (preferences : PreferencesConfig)
    (lastKept : AttendanceRecord) (l : list AttendanceRecord)
  : list AttendanceRecord :=
  match l with
  | [] => []
  | x :: l' => if differs preferences lastKept x
               then x :: keep_after preferences x l'
               else keep_after preferences lastKept l'
  end.

Definition keep_first_then_differing (preferences : PreferencesConfig)
    (l : list AttendanceRecord) : list AttendanceRecord :=
  match l with
  | [] => []
  | x :: l' => x :: keep_after preferences x l'
  end.

(** ** Schedule classifier *)

(** Minute of day of the records of kind [kind] on non-weekend days:
    the [filter] and [map] of lines 52-60 and 63-71. *)
Definition weekday_times (kind : TipoRegistro)
    (records : list AttendanceRecord) : list Z :=
  map (fun record => minutesOfDay (Fecha_Hora record))
      (List.filter
         (fun record => negb (isWeekend (Fecha_Hora record))
                        && bool_decide (Tipo_de_registro record = kind))
         records).

(** [times.reduce((sum, time) => sum + time, 0) / times.length]; the sum
    of whole numbers is exact, and 0 / 0 is [NaN], here [None]. *)
Definition average (times : list Z) : option Q :=
  let sum := fold_left (fun sum time => sum + time) times 0 in
  if Nat.eqb (length times) 0 then None
  else Some (inject_Z sum / inject_Z (Z.of_nat (length times)))%Q.

(** [Math.abs(avg - c)] *)
Definition abs_diff (avg : option Q) (c : Z) : option Q :=
  match avg with
  | Some a => Some (Qabs (a - inject_Z c))
  | None => None
  end.

(** [a < b] on numbers: false as soon as one side is [NaN]. *)
Definition num_lt (a b : option Q) : bool :=
  match a, b with
  | Some x, Some y => negb (Qle_bool y x)
  | _, _ => false
  end.

Definition detectSchedule (records : list AttendanceRecord)
    (preferences : PreferencesConfig) : Schedule :=
  let entryTimes := weekday_times TIn records in
  let departureTimes := weekday_times TOut records in
  let avgEntryTime := average entryTimes in
  let avgDepartureTime := average departureTimes in
  let isEarlySchedule :=
    num_lt (abs_diff avgEntryTime (startTime (earlySchedule preferences)))
           (abs_diff avgEntryTime (startTime (regularSchedule preferences)))
    && num_lt (abs_diff avgDepartureTime (endTime (earlySchedule preferences)))
              (abs_diff avgDepartureTime (endTime (regularSchedule preferences)))
  in
  if isEarlySchedule then earlySchedule preferences
  else regularSchedule preferences.



(** ** Daily evaluator *)

Module Day.
Record result := mk {
  lateMinutes : Z;
  overtimeHours : Q;
  lateHours : Q
}.
End Day.

(** [r['Tipo de registro'] === 'Break' && r.Operacion === op] *)
Definition is_break (op : string) (r : AttendanceRecord) : bool :=
  bool_decide (Tipo_de_registro r = TBreak)
  && bool_decide (Operacion r = Some op).

(** [differenceInMinutes(breakIn, breakOut)] when both records are found
    (lines 265-272 and 330-336). *)
Definition breakDuration (filteredRecords : list AttendanceRecord) : option Z :=
  match List.find (is_break "Out") filteredRecords,
        List.find (is_break "In") filteredRecords with
  | Some breakOutRecord, Some breakInRecord =>
      Some (differenceInMinutes (Fecha_Hora breakInRecord)
                                (Fecha_Hora breakOutRecord))
  | _, _ => None
  end.

(** The late-hours credit of lines 287-291, 299-303 and 342-346, added
    to the running [lateHours]. *)
Definition add_late_credit (preferences : PreferencesConfig)
    (minutesLate : Z) (lateHours : Q) : Q :=
  if (halfHour (lateThresholds preferences) <? minutesLate)
     && (minutesLate <=? fullHour (lateThresholds preferences))
  then (lateHours + (1 # 2))%Q
  else if fullHour (lateThresholds preferences) <? minutesLate
  then (lateHours + 1)%Q
  else lateHours.

(** "Check morning arrival" (lines 274-305): the early-arrival credit,
    [lateMinutes] and [lateHours] after the arrival has been looked at. *)
Definition morning (arrivalMinutes : Z) (schedule : Schedule)
    (preferences : PreferencesConfig) : Q * Z * Q :=
  if same_object schedule (regularSchedule preferences) then
    if arrivalMinutes <? startTime schedule then
      if arrivalMinutes <=? 7 * 60 + 5 then (1%Q, 0, 0%Q)
      else if arrivalMinutes <=? 7 * 60 + 30 then ((1 # 2)%Q, 0, 0%Q)
      else (0%Q, 0, 0%Q)
    else if startTime schedule <? arrivalMinutes then
      let minutesLate := arrivalMinutes - startTime schedule in
      (0%Q, 0 + minutesLate, add_late_credit preferences minutesLate 0%Q)
    else (0%Q, 0, 0%Q)
  else
    if startTime schedule <? arrivalMinutes then
      let minutesLate := arrivalMinutes - startTime schedule in
      (0%Q, 0 + minutesLate, add_late_credit preferences minutesLate 0%Q)
    else (0%Q, 0, 0%Q).

(** "Check evening departure" (lines 309-327). *)
Definition evening (totalWorkedMinutes : Z) (earlyArrivalOvertime : Q)
    (departureMinutes : Z) (schedule : Schedule)
    (preferences : PreferencesConfig) : Q :=
  if 480 <=? totalWorkedMinutes then
    let overtimeHours :=
      if negb (Qle_bool earlyArrivalOvertime 0)
      then (0 + earlyArrivalOvertime)%Q else 0%Q in
    if endTime schedule <=? departureMinutes then
      if endTime schedule + fullHour (overtimeThresholds preferences)
         <=? departureMinutes
      then (overtimeHours + 1)%Q
      else if endTime schedule + halfHour (overtimeThresholds preferences)
              <=? departureMinutes
      then (overtimeHours + (1 # 2))%Q
      else overtimeHours
    else overtimeHours
  else 0%Q.

(** "Check lunch break" (lines 329-348). *)
Definition lunch (filteredRecords : list AttendanceRecord)
    (preferences : PreferencesConfig) (lateMinutes : Z) (lateHours : Q)
  : Z * Q :=
  match breakDuration filteredRecords with
  | Some duration =>
      if lunchDuration preferences <? duration then
        let minutesLate := duration - lunchDuration preferences in
        (lateMinutes + minutesLate,
         add_late_credit preferences minutesLate lateHours)
      else (lateMinutes, lateHours)
  | None => (lateMinutes, lateHours)
  end.

Definition analyzeDayRecords (records : list AttendanceRecord)
    (schedule : Schedule) (preferences : PreferencesConfig) : Day.result :=
  let filteredRecords := filterDuplicateRecords records preferences in
  match head filteredRecords, last filteredRecords with
  | Some first, Some lastR =>
      let firstRecord := Fecha_Hora first in
      let lastRecord := Fecha_Hora lastR in
      if getDay firstRecord =? 6 then
        {| Day.lateMinutes := 0; Day.overtimeHours := 0; Day.lateHours := 0 |}
      else
        let arrivalMinutes := minutesOfDay firstRecord in
        let departureMinutes := minutesOfDay lastRecord in
        let totalWorkedMinutes :=
          match breakDuration filteredRecords with
          | Some duration =>
              differenceInMinutes lastRecord firstRecord - duration
          | None => differenceInMinutes lastRecord firstRecord
          end in
        let '(earlyArrivalOvertime, lateMinutes, lateHours) :=
          morning arrivalMinutes schedule preferences in
        let overtimeHours :=
          evening totalWorkedMinutes earlyArrivalOvertime departureMinutes
                  schedule preferences in
        let '(lateMinutes, lateHours) :=
          lunch filteredRecords preferences lateMinutes lateHours in
        {| Day.lateMinutes := lateMinutes;
           Day.overtimeHours := overtimeHours;
           Day.lateHours := lateHours |}
  | _, _ =>
      (* filteredRecords.length = 0: every block is skipped and both
         [find] calls return undefined *)
      {| Day.lateMinutes := 0; Day.overtimeHours := 0; Day.lateHours := 0 |}
  end.

(** ** Numbers in double precision

    A JavaScript [number] is an IEEE 754 binary64 value, and an
    arithmetic operation returns the exact result rounded to the nearest
    such value, a tie going to the one with the even significand.  The
    values have 53 significant bits and exponents from -1022 on; a
    magnitude beyond the largest value (about 1.8e308) would become
    [Infinity], which no number of hours between two dates reaches and
    which the embedding leaves out. *)

(** The whole number nearest to [x], a tie going to the even one. *)
Definition round_half_even (x : Q) : Z :=
  let n := Qfloor x in
  match (x - inject_Z n ?= 1 # 2)%Q with
  | Lt => n
  | Gt => n + 1
  | Eq => if Z.even n then n else n + 1
  end.

(** The [e] with [2^e <= x < 2^(e+1)], for a positive [x]. *)
Definition exponent (x : Q) : Z :=
  let e := Z.log2 (Qnum x) - Z.log2 (Zpos (Qden x)) in
  if Qle_bool (2 ^ e) x then e else e - 1.

(** The spacing of the binary64 values around [x]. *)
Definition ulp (x : Q) : Q :=
  (2 ^ (Z.max (exponent (Qabs x)) (-1022) - 52))%Q.

(** [x] rounded to binary64. *)
Definition binary64 (x : Q) : Q :=
  if Qeq_bool x 0 then 0%Q
  else
    (inject_Z (Z.sgn (Qnum x) * round_half_even (Qabs x / ulp x)) * ulp x)%Q.

(** [a + b] and [a / b] on two [number]s. *)
Definition number_add (a b : Q) : Q := binary64 (a + b).
Definition number_div (a b : Q) : Q := binary64 (a / b).

(** The value of a finite number of the Standard Library's specification
    of IEEE 754 arithmetic, against which [binary64] is checked. *)
Definition value_of (f : SpecFloat.spec_float) : option Q :=
  match f with
  | SpecFloat.S754_zero _ => Some 0%Q
  | SpecFloat.S754_finite s m e =>
      Some ((if s then -1 else 1) * inject_Z (Zpos m) * 2 ^ e)%Q
  | _ => None
  end.

(** The whole number [z] as a binary64 number of that specification. *)
Definition of_whole (z : Z) : SpecFloat.spec_float :=
  SpecFloat.binary_normalize 53 1024 z 0 false.

(** ** Period aggregator *)

(** [if (!acc[k]) acc[k] = []; acc[k].push(v)] on an object whose keys
    are listed in insertion order. *)
Fixpoint push_to {K V : Type} `{EqDecision K} (k : K) (v : V)
    (acc : list (K * list V)) : list (K * list V) :=
  match acc with
  | [] => [(k, [v])]
  | (k', vs) :: rest =>
      if decide (k = k') then (k', vs ++ [v]) :: rest
      else (k', vs) :: push_to k v rest
  end.

Definition groupByDay (records : list AttendanceRecord)
  : list (Z * list AttendanceRecord) :=
  fold_left (fun acc record => push_to (date_key record) record acc)
            records [].

(** The own properties of [userRecords] in the order of creation, once
    the [reduce] of lines 125-131 has returned; [Js.groupByName] is the
    [reduce] itself, which throws for an inherited name. *)
Definition groupByName (records : list AttendanceRecord)
  : list (string * list AttendanceRecord) :=
  fold_left (fun acc record => push_to (Nombre record) record acc)
            records [].

Definition getCompanyWorkdays (allRecords : list AttendanceRecord)
    (startDate endDate : Z) : gset Z :=
  fold_left
    (fun workdays record =>
       let date := date_key record in
       let recordDate := parse_date date in
       if negb (isWeekend recordDate)
          && isWithinInterval recordDate startDate endDate
       then workdays ∪ {[ date ]} else workdays)
    allRecords ∅.

(** The [let] counters of lines 143-148 that the loop over the days
    updates. *)
Record Totals := mkTotals {
  totalLateDays : nat;
  totalLateMinutes : Z;
  totalLateHours : Q;
  totalOvertimeHours : Q;
  totalSaturdayHours : Q
}.

Definition noTotals : Totals :=
  {| totalLateDays := 0; totalLateMinutes := 0; totalLateHours := 0;
     totalOvertimeHours := 0; totalSaturdayHours := 0 |}.

(** The body of [Object.entries(dailyRecords).forEach] (lines 150-179).
    The hours of a weekend bucket are a quotient by 60 and are added to
    the running total, both in double precision; the late and overtime
    hours are sums of whole half hours, which double precision adds
    without error ([hour_totals_exact]), and are written as exact
    sums. *)
Definition day_step (schedule : Schedule) (preferences : PreferencesConfig)
    (startDate endDate : Z) (t : Totals)
    (entry : Z * list AttendanceRecord) : Totals :=
  let '(date, dayRecords) := entry in
  let dateObj := parse_date date in
  if negb (isWithinInterval dateObj startDate endDate) then t
  else if isWeekend dateObj then
    if (2 <=? length dayRecords)%nat then
      match head dayRecords, last dayRecords with
      | Some first, Some lastR =>
          let hours :=
            number_div (inject_Z (differenceInMinutes (Fecha_Hora lastR)
                                                      (Fecha_Hora first)))
                       60 in
          {| totalLateDays := totalLateDays t;
             totalLateMinutes := totalLateMinutes t;
             totalLateHours := totalLateHours t;
             totalOvertimeHours := totalOvertimeHours t;
             totalSaturdayHours := number_add (totalSaturdayHours t) hours |}
      | _, _ => t
      end
    else t
  else
    let r := analyzeDayRecords dayRecords schedule preferences in
    let late := 0 <? Day.lateMinutes r in
    {| totalLateDays :=
         if late then S (totalLateDays t) else totalLateDays t;
       totalLateMinutes :=
         if late then totalLateMinutes t + Day.lateMinutes r
         else totalLateMinutes t;
       totalLateHours :=
         if late then (totalLateHours t + Day.lateHours r)%Q
         else totalLateHours t;
       totalOvertimeHours := (totalOvertimeHours t + Day.overtimeHours r)%Q;
       totalSaturdayHours := totalSaturdayHours t |}.

Definition dayTotals (schedule : Schedule) (preferences : PreferencesConfig)
    (startDate endDate : Z) (dailyRecords : list (Z * list AttendanceRecord))
  : Totals :=
  fold_left (day_step schedule preferences startDate endDate)
            dailyRecords noTotals.

(** Lines 182-188. *)
Definition userWorkdaysOf (dailyRecords : list (Z * list AttendanceRecord))
    (startDate endDate : Z) : gset Z :=
  fold_left
    (fun userWorkdays date =>
       let dateObj := parse_date date in
       if negb (isWeekend dateObj)
          && isWithinInterval dateObj startDate endDate
       then userWorkdays ∪ {[ date ]} else userWorkdays)
    (map fst dailyRecords) ∅.

(** Lines 191-195: one more absence for each company workday that is
    not among the user's. *)
Definition countAbsences (companyWorkdays userWorkdays : gset Z) : nat :=
  set_fold (fun date totalAbsences =>
              if decide (date ∈ userWorkdays) then totalAbsences
              else S totalAbsences)
           0%nat companyWorkdays.

(** [Math.round(x)]: the nearest whole number, a half going up. *)
Definition Math_round (x : Q) : Z := Qfloor (x + (1 # 2)).

(** [Math.round(x * 2) / 2]: doubling and halving a [number] are exact,
    and so is [Math.round]. *)
Definition round_to_half (x : Q) : Q := (inject_Z (Math_round (x * 2)) / 2)%Q.

Record AnalysisResult := mkAnalysisResult {
  name : string;
  schedule : Schedule;
  daysRegistered : nat;
  absences : nat;
  lateHours : Q;
  lateDays : nat;
  lateMinutes : Z;
  overtimeHours : Q;
  saturdayHours : Q;
  totalHours : Q;
  dailyRecords : list (Z * list AttendanceRecord)
}.

(** The callback of [Object.entries(userRecords).map] (lines 134-215). *)
Definition analyzeUser (companyWorkdays : gset Z) (startDate endDate : Z)
    (preferences : PreferencesConfig)
    (entry : string * list AttendanceRecord) : AnalysisResult :=
  let '(userName, userRecords) := entry in
  let filteredRecords := filterDuplicateRecords userRecords preferences in
  let schedule := detectSchedule filteredRecords preferences in
  let dailyRecords := groupByDay filteredRecords in
  let totals := dayTotals schedule preferences startDate endDate dailyRecords in
  let userWorkdays := userWorkdaysOf dailyRecords startDate endDate in
  let totalAbsences := countAbsences companyWorkdays userWorkdays in
  let roundedOvertimeHours := round_to_half (totalOvertimeHours totals) in
  let roundedSaturdayHours := round_to_half (totalSaturdayHours totals) in
  {| name := userName;
     schedule := schedule;
     daysRegistered :=
       length (List.filter
                 (fun date => isWithinInterval (parse_date date)
                                               startDate endDate)
                 (map fst dailyRecords));
     absences := totalAbsences;
     lateHours := totalLateHours totals;
     lateDays := totalLateDays totals;
     lateMinutes := totalLateMinutes totals;
     overtimeHours := roundedOvertimeHours;
     saturdayHours := roundedSaturdayHours;
     totalHours := (roundedOvertimeHours + roundedSaturdayHours)%Q;
     dailyRecords := dailyRecords |}.

(** The results in the order in which the names first occur.  The call
    returns them in this order when no name is inherited or an array
    index, and in the order of [Object.entries] when no name is
    inherited: [Js.analyzeAttendance]. *)
Definition analyzeAttendance (records : list AttendanceRecord)
    (startDate endDate : Z) (preferences : PreferencesConfig)
  : list AnalysisResult :=
  let companyWorkdays := getCompanyWorkdays records startDate endDate in
  let userRecords := groupByName records in
  map (analyzeUser companyWorkdays startDate endDate preferences) userRecords.

(** ** Vocabulary of the statements *)

(** The late-hours tiers as the specification words them: 0.5 if
    [halfHour < minutesLate <= fullHour], 1.0 if [minutesLate > fullHour],
    else 0. *)
Definition late_credit (preferences : PreferencesConfig) (minutesLate : Z) : Q :=
  if decide (halfHour (lateThresholds preferences) < minutesLate
             /\ minutesLate <= fullHour (lateThresholds preferences))
  then 1 # 2
  else if decide (fullHour (lateThresholds preferences) < minutesLate)
  then 1 else 0.

(** Early-arrival credit: 1.0 up to 07:05, 0.5 up to 07:30, else 0. *)
Definition early_arrival_credit (arrivalMinutes : Z) : Q :=
  if decide (arrivalMinutes <= 425) then 1
  else if decide (arrivalMinutes <= 450) then 1 # 2 else 0.

(** Overtime tiers after the scheduled end. *)
Definition evening_credit (schedule : Schedule)
    (preferences : PreferencesConfig) (departureMinutes : Z) : Q :=
  if decide (endTime schedule + fullHour (overtimeThresholds preferences)
             <= departureMinutes /\ endTime schedule <= departureMinutes)
  then 1
  else if decide (endTime schedule + halfHour (overtimeThresholds preferences)
                  <= departureMinutes /\ endTime schedule <= departureMinutes)
  then 1 # 2 else 0.

(** Worked minutes of a day's punches: last punch minus first punch,
    minus the duration of the break when both break punches are there. *)
Definition workedMinutes (first lastR : AttendanceRecord)
    (punches : list AttendanceRecord) : Z :=
  differenceInMinutes (Fecha_Hora lastR) (Fecha_Hora first)
  - default 0 (breakDuration punches).

(** Minutes by which the break exceeds the configured lunch duration. *)
Definition lunch_excess (preferences : PreferencesConfig)
    (punches : list AttendanceRecord) : Z :=
  match breakDuration punches with
  | Some duration => Z.max 0 (duration - lunchDuration preferences)
  | None => 0
  end.

(** Minutes of arrival after the scheduled start. *)
Definition arrival_late (schedule : Schedule) (first : AttendanceRecord) : Z :=
  Z.max 0 (minutesOfDay (Fecha_Hora first) - startTime schedule).

(** Late-hours credit of the arrival. *)
Definition arrival_credit (preferences : PreferencesConfig)
    (schedule : Schedule) (first : AttendanceRecord) : Q :=
  if decide (startTime schedule < minutesOfDay (Fecha_Hora first))
  then late_credit preferences
         (minutesOfDay (Fecha_Hora first) - startTime schedule)
  else 0.

(** Late-hours credit of the lunch overrun. *)
Definition lunch_credit (preferences : PreferencesConfig)
    (punches : list AttendanceRecord) : Q :=
  match breakDuration punches with
  | Some duration =>
      if decide (lunchDuration preferences < duration)
      then late_credit preferences (duration - lunchDuration preferences)
      else 0
  | None => 0
  end.

(** The provisional early-arrival credit of the day. *)
Definition early_credit (preferences : PreferencesConfig)
    (schedule : Schedule) (first : AttendanceRecord) : Q :=
  if same_object schedule (regularSchedule preferences)
     && bool_decide (minutesOfDay (Fecha_Hora first) < startTime schedule)
  then early_arrival_credit (minutesOfDay (Fecha_Hora first))
  else 0.

(** The result of a day without lateness or overtime. *)
Definition noLateness : Day.result :=
  {| Day.lateMinutes := 0; Day.overtimeHours := 0; Day.lateHours := 0 |}.

Definition by_time (a b : AttendanceRecord) : Prop := timeOf a <= timeOf b.

(** The same punch [k] days later. *)
Definition shift_days (k : Z) (r : AttendanceRecord) : AttendanceRecord :=
  {| Nombre := Nombre r;
     Fecha_Hora := {| fecha := fecha (Fecha_Hora r) + k;
                      horas := horas (Fecha_Hora r);
                      minutos := minutos (Fecha_Hora r);
                      segundos := segundos (Fecha_Hora r) |};
     Tipo_de_registro := Tipo_de_registro r;
     Operacion := Operacion r |}.

(** [acc[k]] on an object listed by its entries. *)
Fixpoint assoc {K V : Type} `{EqDecision K} (k : K) (acc : list (K * V))
  : option V :=
  match acc with
  | [] => None
  | (k', v) :: rest => if decide (k = k') then Some v else assoc k rest
  end.

(** The punches of the employee called [n], in input order. *)
Definition recordsOf (n : string) (records : list AttendanceRecord)
  : list AttendanceRecord :=
  List.filter (fun r => bool_decide (Nombre r = n)) records.

(** The dates on which the punches of [l] fall. *)
Definition datesOf (l : list AttendanceRecord) : gset Z :=
  list_to_set (map date_key l).

(** [d] is a weekday inside the period. *)
Definition workday_in (startDate endDate d : Z) : Prop :=
  isWeekend (parse_date d) = false
  /\ isWithinInterval (parse_date d) startDate endDate = true.

(** The counters of [Totals] that lateness and overtime feed. *)
Definition late_part (t : Totals) : nat * Z * Q * Q :=
  (totalLateDays t, totalLateMinutes t, totalLateHours t,
   totalOvertimeHours t).

(** The buckets whose date is not a Saturday. *)
Definition without_saturdays (buckets : list (Z * list AttendanceRecord))
  : list (Z * list AttendanceRecord) :=
  List.filter (fun entry => negb (getDay (parse_date (fst entry)) =? 6))
              buckets.

(** [q] is a whole number of half hours. *)
Definition multiple_of_half (q : Q) : Prop :=
  exists k : Z, (q == inject_Z k * (1 # 2))%Q.

(** [r] is [x] rounded to the nearest half, a tie going up. *)
Definition nearest_half_up (x r : Q) : Prop :=
  multiple_of_half r /\ (r - (1 # 4) <= x)%Q /\ (x < r + (1 # 4))%Q.

(** The hours of the weekend buckets inside the period that hold two
    punches or more: the quotients that the aggregator adds up. *)
Definition weekend_hours (startDate endDate : Z)
    (buckets : list (Z * list AttendanceRecord)) : list Q :=
  flat_map
    (fun bucket =>
       if isWithinInterval (parse_date (fst bucket)) startDate endDate
          && isWeekend (parse_date (fst bucket))
          && (2 <=? length (snd bucket))%nat
       then
         match head (snd bucket), last (snd bucket) with
         | Some first, Some lastR =>
             [number_div
                (inject_Z (differenceInMinutes (Fecha_Hora lastR)
                                               (Fecha_Hora first)))
                60]
         | _, _ => []
         end
       else [])
    buckets.

(** The evaluations of the buckets inside the period that are not in
    the weekend, in the order of the buckets. *)
Definition weekday_results (schedule : Schedule)
    (preferences : PreferencesConfig) (startDate endDate : Z)
    (buckets : list (Z * list AttendanceRecord)) : list Day.result :=
  map (fun bucket => analyzeDayRecords (snd bucket) schedule preferences)
      (List.filter
         (fun bucket =>
            isWithinInterval (parse_date (fst bucket)) startDate endDate
            && negb (isWeekend (parse_date (fst bucket))))
         buckets).

(** The overtime hours of the evaluated days, added up in their order. *)
Definition overtime_sum (results : list Day.result) : Q :=
  fold_left (fun total r => (total + Day.overtimeHours r)%Q) results 0%Q.

(** The late hours of the evaluated days with late minutes, added up in
    their order. *)
Definition late_sum (results : list Day.result) : Q :=
  fold_left (fun total r => (total + Day.lateHours r)%Q)
            (List.filter (fun r => 0 <? Day.lateMinutes r) results) 0%Q.

(** The binary64 number [f] of the Standard Library's specification has
    the value [x]. *)
Definition same_number (x : Q) (f : SpecFloat.spec_float) : Prop :=
  option_map Qred (value_of f) = Some (Qred x).

(** The punches of kind Break with the operation [op], in list order. *)
Definition break_punches (op : string) (punches : list AttendanceRecord)
  : list AttendanceRecord :=
  List.filter
    (fun r => bool_decide (Tipo_de_registro r = TBreak
                           /\ Operacion r = Some op))
    punches.

(** The matched break of a day as the specification words it: from the
    first Break-Out punch to the first Break-In punch, when the day has
    both. *)
Definition matched_break (punches : list AttendanceRecord) : option Z :=
  match break_punches "Out" punches, break_punches "In" punches with
  | breakOut :: _, breakIn :: _ =>
      Some (differenceInMinutes (Fecha_Hora breakIn) (Fecha_Hora breakOut))
  | _, _ => None
  end.

(** Total worked minutes as the specification words them: last punch
    minus first punch, minus any matched break duration. *)
Definition worked_net_of_break (first lastR : AttendanceRecord)
    (punches : list AttendanceRecord) : Z :=
  differenceInMinutes (Fecha_Hora lastR) (Fecha_Hora first)
  - match matched_break punches with
    | Some duration => duration
    | None => 0
    end.

(** The minutes by which the matched break exceeds the configured lunch
    duration; 0 without a matched break. *)
Definition lunch_overrun (preferences : PreferencesConfig)
    (punches : list AttendanceRecord) : Z :=
  match matched_break punches with
  | Some duration => Z.max 0 (duration - lunchDuration preferences)
  | None => 0
  end.

(** ** Sample data *)

Definition at_ (y m d h mi s : Z) : FechaHora :=
  {| fecha := fecha_de y m d; horas := h; minutos := mi; segundos := s |}.

Definition punch (n : string) (t : FechaHora) (k : TipoRegistro)
    (o : option string) : AttendanceRecord :=
  {| Nombre := n; Fecha_Hora := t; Tipo_de_registro := k; Operacion := o |}.

(** The period from 2024-01-01 to 2024-01-15. *)
Definition january_1 : Z := getTime (at_ 2024 1 1 0 0 0).
Definition january_15 : Z := getTime (at_ 2024 1 15 0 0 0).

(** Monday 2024-01-08: in at 08:05, out at 17:00. *)
Definition monday_0805 : list AttendanceRecord :=
  [ punch "Ana" (at_ 2024 1 8 8 5 0) TIn None;
    punch "Ana" (at_ 2024 1 8 17 0 0) TOut None ].

(** Monday 2024-01-08: in at 08:05, a lunch break of 100 minutes. *)
Definition monday_long_lunch : list AttendanceRecord :=
  [ punch "Ana" (at_ 2024 1 8 8 5 0) TIn None;
    punch "Ana" (at_ 2024 1 8 12 0 0) TBreak (Some "Out");
    punch "Ana" (at_ 2024 1 8 13 40 0) TBreak (Some "In");
    punch "Ana" (at_ 2024 1 8 17 0 0) TOut None ].

(** Monday 2024-01-08: in at 06:58, out at 17:30. *)
Definition monday_early_bird : list AttendanceRecord :=
  [ punch "Ana" (at_ 2024 1 8 6 58 0) TIn None;
    punch "Ana" (at_ 2024 1 8 17 30 0) TOut None ].

(** Monday 2024-01-08 with a break of 75 minutes. *)
Definition monday_lunch_75 : list AttendanceRecord :=
  [ punch "Ana" (at_ 2024 1 8 8 0 0) TIn None;
    punch "Ana" (at_ 2024 1 8 12 0 0) TBreak (Some "Out");
    punch "Ana" (at_ 2024 1 8 13 15 0) TBreak (Some "In");
    punch "Ana" (at_ 2024 1 8 17 0 0) TOut None ].

(** Monday 2024-01-08: in at 07:00, out at 16:00. *)
Definition monday_early_shift : list AttendanceRecord :=
  [ punch "Ana" (at_ 2024 1 8 7 0 0) TIn None;
    punch "Ana" (at_ 2024 1 8 16 0 0) TOut None ].

(** Saturday 2024-01-06 with a break of 75 minutes. *)
Definition saturday_long_lunch : list AttendanceRecord :=
  [ punch "Ana" (at_ 2024 1 6 9 0 0) TIn None;
    punch "Ana" (at_ 2024 1 6 12 0 0) TBreak (Some "Out");
    punch "Ana" (at_ 2024 1 6 13 15 0) TBreak (Some "In");
    punch "Ana" (at_ 2024 1 6 14 0 0) TOut None ].

(** Ana punches in and out on Sunday 2024-01-07. *)
Definition sunday_shift : list AttendanceRecord :=
  [ punch "Ana" (at_ 2024 1 7 9 0 0) TIn None;
    punch "Ana" (at_ 2024 1 7 13 30 0) TOut None ].

(** Sunday 2024-01-07: in at 08:10, out at 18:00. *)
Definition sunday_late_and_long : list AttendanceRecord :=
  [ punch "Ana" (at_ 2024 1 7 8 10 0) TIn None;
    punch "Ana" (at_ 2024 1 7 18 0 0) TOut None ].

(** Ana works Friday 2024-01-05 (08:10 to 18:00) and Saturday
    2024-01-06 (08:10 to 18:00). *)
Definition friday_and_saturday : list AttendanceRecord :=
  [ punch "Ana" (at_ 2024 1 5 8 10 0) TIn None;
    punch "Ana" (at_ 2024 1 5 18 0 0) TOut None;
    punch "Ana" (at_ 2024 1 6 8 10 0) TIn None;
    punch "Ana" (at_ 2024 1 6 18 0 0) TOut None ].

(** Monday 2024-01-08: in at 08:06, a lunch break of 63 minutes. *)
Definition monday_0806_lunch_63 : list AttendanceRecord :=
  [ punch "Ana" (at_ 2024 1 8 8 6 0) TIn None;
    punch "Ana" (at_ 2024 1 8 12 0 0) TBreak (Some "Out");
    punch "Ana" (at_ 2024 1 8 13 3 0) TBreak (Some "In");
    punch "Ana" (at_ 2024 1 8 17 0 0) TOut None ].

(** Monday 2024-01-08: in at 06:58, a lunch break of 60 minutes, out at
    15:30: 512 minutes between the first and the last punch, 452 of them
    worked. *)
Definition monday_early_bird_short : list AttendanceRecord :=
  [ punch "Ana" (at_ 2024 1 8 6 58 0) TIn None;
    punch "Ana" (at_ 2024 1 8 12 0 0) TBreak (Some "Out");
    punch "Ana" (at_ 2024 1 8 13 0 0) TBreak (Some "In");
    punch "Ana" (at_ 2024 1 8 15 30 0) TOut None ].

(** Monday 2024-01-08: in at 06:58, a lunch break of 60 minutes, out at
    17:30. *)
Definition monday_early_bird_lunch : list AttendanceRecord :=
  [ punch "Ana" (at_ 2024 1 8 6 58 0) TIn None;
    punch "Ana" (at_ 2024 1 8 12 0 0) TBreak (Some "Out");
    punch "Ana" (at_ 2024 1 8 13 0 0) TBreak (Some "In");
    punch "Ana" (at_ 2024 1 8 17 30 0) TOut None ].

(** Saturday 2024-01-06: in at 06:58, out at 17:30. *)
Definition saturday_early_bird : list AttendanceRecord :=
  [ punch "Ana" (at_ 2024 1 6 6 58 0) TIn None;
    punch "Ana" (at_ 2024 1 6 17 30 0) TOut None ].

(** Ana on three weekend days of the period: 1 minute on Saturday
    2024-01-06, 65 minutes on Sunday 2024-01-07 and 9 minutes on
    Saturday 2024-01-13, which is 75 minutes in all. *)
Definition three_weekend_days : list AttendanceRecord :=
  [ punch "Ana" (at_ 2024 1 6 9 0 0) TIn None;
    punch "Ana" (at_ 2024 1 6 9 1 0) TOut None;
    punch "Ana" (at_ 2024 1 7 9 0 0) TIn None;
    punch "Ana" (at_ 2024 1 7 10 5 0) TOut None;
    punch "Ana" (at_ 2024 1 13 9 0 0) TIn None;
    punch "Ana" (at_ 2024 1 13 9 9 0) TOut None ].

(** Ana on the same three days for 244, 245 and 246 minutes, which is
    12 hours and a quarter in all. *)
Definition three_long_weekend_days : list AttendanceRecord :=
  [ punch "Ana" (at_ 2024 1 6 9 0 0) TIn None;
    punch "Ana" (at_ 2024 1 6 13 4 0) TOut None;
    punch "Ana" (at_ 2024 1 7 9 0 0) TIn None;
    punch "Ana" (at_ 2024 1 7 13 5 0) TOut None;
    punch "Ana" (at_ 2024 1 13 9 0 0) TIn None;
    punch "Ana" (at_ 2024 1 13 13 6 0) TOut None ].

(** Ana punches in on Monday 2024-01-08 at 23:58 and again on Tuesday
    at 00:01. *)
Definition around_midnight : list AttendanceRecord :=
  [ punch "Ana" (at_ 2024 1 8 23 58 0) TIn None;
    punch "Ana" (at_ 2024 1 9 0 1 0) TIn None ].

(** Ana and Beto on Monday 2024-01-08, only Ana on Tuesday. *)
Definition ana_and_beto : list AttendanceRecord :=
  [ punch "Ana" (at_ 2024 1 8 8 0 0) TIn None;
    punch "Beto" (at_ 2024 1 8 8 0 0) TIn None;
    punch "Ana" (at_ 2024 1 9 8 0 0) TIn None ].

(** ** Vocabulary of the further properties *)

(** [current] would be kept after [prev]. *)
Definition differs_from (preferences : PreferencesConfig)
    (prev current : AttendanceRecord) : Prop :=
  differs preferences prev current = true.

(** [r] repeats the earlier punch [k]: same kind, same operation, and at
    most the duplicate window of whole minutes later. *)
Definition duplicate_of (preferences : PreferencesConfig)
    (k r : AttendanceRecord) : Prop :=
  Tipo_de_registro r = Tipo_de_registro k
  /\ Operacion r = Operacion k
  /\ timeOf k <= timeOf r
  /\ differenceInMinutes (Fecha_Hora r) (Fecha_Hora k)
     <= duplicateThresholdMinutes preferences.

(** Punches with the same timestamp are the same row. *)
Definition distinct_times (records : list AttendanceRecord) : Prop :=
  forall a b, In a records -> In b records -> timeOf a = timeOf b -> a = b.

(** Punches of one employee with the same timestamp are the same row. *)
Definition distinct_times_per_employee (records : list AttendanceRecord)
  : Prop :=
  forall a b, In a records -> In b records ->
    Nombre a = Nombre b -> timeOf a = timeOf b -> a = b.

(** [res] with another number of absences. *)
Definition with_absences (n : nat) (res : AnalysisResult) : AnalysisResult :=
  {| name := name res;
     schedule := schedule res;
     daysRegistered := daysRegistered res;
     absences := n;
     lateHours := lateHours res;
     lateDays := lateDays res;
     lateMinutes := lateMinutes res;
     overtimeHours := overtimeHours res;
     saturdayHours := saturdayHours res;
     totalHours := totalHours res;
     dailyRecords := dailyRecords res |}.

(** The counters stay within what the evaluated days allow. *)
Definition sound_totals (t : Totals) : Prop :=
  0 <= totalLateMinutes t
  /\ Z.of_nat (totalLateDays t) <= totalLateMinutes t
  /\ (totalLateDays t = 0%nat -> totalLateMinutes t = 0)
  /\ (0 <= totalLateHours t)%Q
  /\ (totalLateHours t <= 2 * inject_Z (Z.of_nat (totalLateDays t)))%Q
  /\ (0 <= totalOvertimeHours t)%Q
  /\ (0 <= totalSaturdayHours t)%Q.

(** The clock fields of a timestamp lie within one day. *)
Definition valid_clock (r : AttendanceRecord) : Prop :=
  0 <= horas (Fecha_Hora r) < 24
  /\ 0 <= minutos (Fecha_Hora r) < 60
  /\ 0 <= segundos (Fecha_Hora r) < 60.

Definition by_date (a b : AttendanceRecord) : Prop :=
  date_key a <= date_key b.

(** The punches that the schedule classifier reads: "In" and "Out"
    punches on days that are not in the weekend. *)
Definition classifier_input (records : list AttendanceRecord)
  : list AttendanceRecord :=
  List.filter
    (fun r => negb (isWeekend (Fecha_Hora r))
              && (bool_decide (Tipo_de_registro r = TIn)
                  || bool_decide (Tipo_de_registro r = TOut)))
    records.

(** * The helpers around the engine *)

(** A call that returns a value or throws. *)
Inductive Outcome (A : Type) : Type :=
  | Returned (a : A)
  | Thrown (message : string).
Arguments Returned {A} a.
Arguments Thrown {A} message.

(** ** The call of [analyzeAttendance] on arbitrary employee names

    [userRecords] starts as [{}], an object that inherits the properties
    of [Object.prototype], and its entries are listed by
    [Object.entries]. *)

Module Js.

(** The names of the properties that every object inherits. *)
Definition inherited : list string :=
  [ "constructor"; "hasOwnProperty"; "isPrototypeOf";
    "propertyIsEnumerable"; "toLocaleString"; "toString"; "valueOf";
    "__proto__"; "__defineGetter__"; "__defineSetter__";
    "__lookupGetter__"; "__lookupSetter__" ].

Definition digit_of (c : ascii) : option N :=
  let code := N_of_ascii c in
  if (48 <=? code)%N && (code <=? 57)%N then Some (code - 48)%N else None.

Fixpoint numeral (key : string) (acc : N) : option N :=
  match key with
  | EmptyString => Some acc
  | String c rest =>
      match digit_of c with
      | Some d => numeral rest (10 * acc + d)%N
      | None => None
      end
  end.

(** A property key is an array index when it is the decimal numeral,
    without leading zeros, of a whole number below [2^32 - 1]. *)
Definition array_index (key : string) : option N :=
  match key with
  | EmptyString => None
  | String c rest =>
      if bool_decide (c = "0"%char) && negb (bool_decide (rest = EmptyString))
      then None
      else
        match numeral key 0 with
        | Some n => if (n <? 4294967295)%N then Some n else None
        | None => None
        end
  end.

Definition is_index (key : string) : bool :=
  bool_decide (is_Some (array_index key)).

Fixpoint insert_by_index {V : Type} (x : N * V) (l : list (N * V))
  : list (N * V) :=
  match l with
  | [] => [x]
  | y :: rest =>
      if (fst x <=? fst y)%N then x :: l else y :: insert_by_index x rest
  end.

Definition sort_by_index {V : Type} (l : list (N * V)) : list (N * V) :=
  foldr insert_by_index [] l.

(** The own properties whose key is an array index, with the index. *)
Fixpoint indexed {V : Type} (own : list (string * V))
  : list (N * (string * V)) :=
  match own with
  | [] => []
  | entry :: rest =>
      match array_index (fst entry) with
      | Some i => (i, entry) :: indexed rest
      | None => indexed rest
      end
  end.

(** [Object.entries(o)] on an object given by its own properties in
    the order of creation: the array indices in ascending order, then
    the other keys in the order of creation. *)
Definition Object_entries {V : Type} (own : list (string * V))
  : list (string * V) :=
  map snd (sort_by_index (indexed own))
  ++ List.filter (fun entry => negb (is_index (fst entry))) own.

Definition not_a_function : string :=
  "TypeError: acc[name].push is not a function".

(** The callback of [records.reduce] (lines 125-131).  [acc[name]] is an
    own property, or else an inherited one, which is a function or the
    prototype object: truthy and without a [push]. *)
Definition add_record
    (acc : Outcome (list (string * list AttendanceRecord)))
    (record : AttendanceRecord)
  : Outcome (list (string * list AttendanceRecord)) :=
  match acc with
  | Thrown message => Thrown message
  | Returned own =>
      let name := Nombre record in
      match assoc name own with
      | Some _ => Returned (push_to name record own)
      | None =>
          if bool_decide (name ∈ inherited) then Thrown not_a_function
          else Returned (push_to name record own)
      end
  end.

Definition groupByName (records : list AttendanceRecord)
  : Outcome (list (string * list AttendanceRecord)) :=
  fold_left add_record records (Returned []).

Definition analyzeAttendance (records : list AttendanceRecord)
    (startDate endDate : Z) (preferences : PreferencesConfig)
  : Outcome (list AnalysisResult) :=
  let companyWorkdays := getCompanyWorkdays records startDate endDate in
  match groupByName records with
  | Thrown message => Thrown message
  | Returned userRecords =>
      Returned (map (analyzeUser companyWorkdays startDate endDate
                       preferences)
                    (Object_entries userRecords))
  end.

End Js.

(** A name that is neither inherited by every object nor an array
    index. *)
Definition ordinary_name (n : string) : Prop :=
  (n ∉ Js.inherited) /\ Js.array_index n = None.

(** [a] and [b] are results of names that are array indices, the index
    of [a] not above that of [b]. *)
Definition index_order (a b : AnalysisResult) : Prop :=
  exists i j,
    Js.array_index (name a) = Some i /\ Js.array_index (name b) = Some j
    /\ (i <= j)%N.

(** Employees called "Beto", "7", "Ana" and "10", with one punch each
    on Monday 2024-01-08. *)
Definition numbered_names : list AttendanceRecord :=
  [ punch "Beto" (at_ 2024 1 8 8 0 0) TIn None;
    punch "10" (at_ 2024 1 8 8 0 0) TIn None;
    punch "Ana" (at_ 2024 1 8 8 0 0) TIn None;
    punch "7" (at_ 2024 1 8 8 0 0) TIn None ].

(** An employee called "constructor". *)
Definition inherited_name : list AttendanceRecord :=
  [ punch "Ana" (at_ 2024 1 8 8 0 0) TIn None;
    punch "constructor" (at_ 2024 1 8 8 0 0) TIn None ].

(** ** Date cell styles ([src/utils/dateStyles.ts]) *)

Module DateStyles.
Record DateStyleProps := mkProps {
  date : option FechaHora;        (* [None]: null or undefined *)
  records : list AttendanceRecord;
  hasRecords : bool;
  hasMissingRecords : bool;
  isHoliday : option bool         (* [isHoliday?: boolean] *)
}.

Definition baseClasses : string := "p-2 rounded shadow-sm text-sm".

(** [`${baseClasses} ${statusClasses.join(' ')}`] with the one class
    that has been pushed. *)
Definition withStatus (statusClass : string) : string :=
  String.append baseClasses (String.append " " statusClass).

Definition getDateCellStyles (props : DateStyleProps) : Outcome string :=
  match date props with
  | None => Thrown "Date is required for styling"
  | Some d =>
      if getDay d =? 0 then
        Returned (String.append baseClasses " bg-gray-50 opacity-50")
      else if getDay d =? 6 then
        Returned (withStatus (if hasRecords props then "bg-blue-50"
                              else "bg-gray-100"))
      else if default false (isHoliday props) then
        Returned (withStatus "bg-orange-50")
      else if negb (hasRecords props) then
        Returned (withStatus "bg-gray-100")
      else if hasMissingRecords props then
        Returned (withStatus "bg-red-50")
      else Returned (withStatus "bg-white")
  end.
End DateStyles.

(** ** Period selection ([src/components/FortnightSelector.tsx]) *)

Module Fortnight.
(** A [Date] by its local calendar fields: year, month (0 to 11), day of
    the month and the milliseconds since midnight. *)
Record JSDate := mkDate {
  anio : Z;
  mes : Z;
  dia : Z;
  ms : Z
}.

Definition msPerDay : Z := 86400000.

Definition isLeap (y : Z) : bool :=
  (y mod 4 =? 0) && (negb (y mod 100 =? 0) || (y mod 400 =? 0)).

Definition daysInMonth (y m : Z) : Z :=
  if m =? 1 then (if isLeap y then 29 else 28)
  else if (m =? 3) || (m =? 5) || (m =? 8) || (m =? 10) then 30
  else 31.

Definition valid (d : JSDate) : Prop :=
  0 <= mes d <= 11
  /\ 1 <= dia d <= daysInMonth (anio d) (mes d)
  /\ 0 <= ms d < msPerDay.

Definition next_day (d : JSDate) : JSDate :=
  if dia d <? daysInMonth (anio d) (mes d)
  then {| anio := anio d; mes := mes d; dia := dia d + 1; ms := ms d |}
  else if mes d <? 11
  then {| anio := anio d; mes := mes d + 1; dia := 1; ms := ms d |}
  else {| anio := anio d + 1; mes := 0; dia := 1; ms := ms d |}.

Definition prev_day (d : JSDate) : JSDate :=
  if 1 <? dia d
  then {| anio := anio d; mes := mes d; dia := dia d - 1; ms := ms d |}
  else if 0 <? mes d
  then {| anio := anio d; mes := mes d - 1;
          dia := daysInMonth (anio d) (mes d - 1); ms := ms d |}
  else {| anio := anio d - 1; mes := 11; dia := 31; ms := ms d |}.

(** The date with the fields [(year, month, day)] as the setters of
    [Date] read them: a month outside 0 to 11 carries into the year, a
    day outside the month runs into the neighbouring months. *)
Definition makeDay (year month day time : Z) : JSDate :=
  let first := {| anio := year + month / 12; mes := month mod 12;
                  dia := 1; ms := time |} in
  if 1 <=? day then Nat.iter (Z.to_nat (day - 1)) next_day first
  else Nat.iter (Z.to_nat (1 - day)) prev_day first.

Definition getDate (d : JSDate) : Z := dia d.
Definition getMonth (d : JSDate) : Z := mes d.

(** [date.getTime()], in milliseconds. *)
Definition getTime_ms (d : JSDate) : Z :=
  fecha_de (anio d) (mes d + 1) (dia d) * msPerDay + ms d.

(** date-fns [setDate(date, dayOfMonth)] *)
Definition setDate (d : JSDate) (dayOfMonth : Z) : JSDate :=
  makeDay (anio d) (mes d) dayOfMonth (ms d).

(** [date.setMonth(month)] *)
Definition setMonth (d : JSDate) (month : Z) : JSDate :=
  makeDay (anio d) month (dia d) (ms d).

(** date-fns [startOfMonth]: [setDate(1)], [setHours(0, 0, 0, 0)] *)
Definition startOfMonth (d : JSDate) : JSDate :=
  makeDay (anio d) (mes d) 1 0.

(** date-fns [endOfMonth]: [setFullYear(year, month + 1, 0)],
    [setHours(23, 59, 59, 999)] *)
Definition endOfMonth (d : JSDate) : JSDate :=
  makeDay (anio d) (mes d + 1) 0 (msPerDay - 1).

Inductive Half := First | Second.      (* [fortnight: 1 | 2] *)

Definition getFortnightDates (month : JSDate) (fortnight : Half)
  : JSDate * JSDate :=
  let start := match fortnight with
               | First => setDate month 1
               | Second => setDate month 16
               end in
  let end_ := match fortnight with
              | First => setDate month 15
              | Second => endOfMonth month
              end in
  (start, end_).

(** The [value] of the selector. *)
Record Period := mkPeriod {
  month : JSDate;
  fortnight : Half
}.

(** The handlers, as functions to the value they pass to [onChange]. *)
Definition handlePrevFortnight (value : Period) : Period :=
  match fortnight value with
  | First =>
      let newMonth := setMonth (month value) (getMonth (month value) - 1) in
      {| month := newMonth; fortnight := Second |}
  | Second => {| month := month value; fortnight := First |}
  end.

Definition handleNextFortnight (value : Period) : Period :=
  match fortnight value with
  | Second =>
      let newMonth := setMonth (month value) (getMonth (month value) + 1) in
      {| month := newMonth; fortnight := First |}
  | First => {| month := month value; fortnight := Second |}
  end.

Definition handleDateSelect (d : JSDate) : Period :=
  let newMonth := startOfMonth d in
  let fortnight := if getDate d <=? 15 then First else Second in
  {| month := newMonth; fortnight := fortnight |}.

(** The interval [{start, end}] as the analysis model takes it, in whole
    seconds: a timestamp of whole seconds is at or after [start] iff it
    is at or after [start] rounded up, and at or before [end] iff it is
    at or before [end] rounded down. *)
Definition startSeconds (start : JSDate) : Z := - ((- getTime_ms start) / 1000).
Definition endSeconds (end_ : JSDate) : Z := getTime_ms end_ / 1000.

(** Midnight of day [k] of the month of [d], as a bucket date. *)
Definition dayOfMonth (d : JSDate) (k : Z) : Z :=
  fecha_de (anio d) (mes d + 1) k.
End Fortnight.

(** ** Keyboard navigation of the result table ([src/App.tsx]) *)

Module Navigation.
Inductive Key := ArrowUp | ArrowDown | ArrowLeft | ArrowRight | OtherKey.

Record State := mkState {
  selectedIndex : Z;
  expandedPerson : option string
}.

(** [results.filter(r => !markedPeople.has(r.name))] *)
Definition navigable (results : list AnalysisResult)
    (markedPeople : gset string) : list AnalysisResult :=
  List.filter (fun r => negb (bool_decide (name r ∈ markedPeople))) results.

Definition newIndex (key : Key) (prev : Z) (n : Z) : Z :=
  match key with
  | ArrowUp | ArrowLeft => if prev <=? 0 then n - 1 else prev - 1
  | ArrowDown | ArrowRight => if n - 1 <=? prev then 0 else prev + 1
  | OtherKey => prev
  end.

(** [arr[i]]: undefined outside the array. *)
Definition at_index {A} (l : list A) (i : Z) : option A :=
  if i <? 0 then None else l !! Z.to_nat i.

Definition handleKeyDown (key : Key) (results : list AnalysisResult)
    (markedPeople : gset string) (st : State) : Outcome State :=
  match results with
  | [] => Returned st
  | _ =>
      let navigableResults := navigable results markedPeople in
      match navigableResults, key with
      | [], _ => Returned st
      | _, OtherKey => Returned st
      | _, _ =>
          let i := newIndex key (selectedIndex st)
                            (Z.of_nat (length navigableResults)) in
          match at_index navigableResults i with
          | Some r => Returned {| selectedIndex := i;
                                  expandedPerson := Some (name r) |}
          | None =>
              Thrown "TypeError: navigableResults[newIndex] is undefined"
          end
      end
  end.
End Navigation.

(** ** Column visibility ([src/components/ColumnVisibilityMenu.tsx]) *)

Module Columns.
Record Column := mkColumn {
  id : string;
  label : string;
  visible : bool
}.

Definition toggleColumn (columns : list Column) (columnId : string)
  : list Column :=
  map (fun col =>
         if bool_decide (id col = columnId)
         then {| id := id col; label := label col;
                 visible := negb (visible col) |}
         else col)
      columns.
End Columns.

(** ** Time fields of the preferences dialog
       ([src/components/PreferencesDialog.tsx]) *)

Module TimeInput.
(** [value || 0]; a missing value is [None]. *)
Definition orZero (value : option Z) : Z :=
  match value with
  | Some v => v
  | None => 0
  end.

(** [Math.floor((value || 0) / 60)] *)
Definition hours (value : option Z) : Z := orZero value / 60.

(** [(value || 0) % 60]: the remainder has the sign of the value. *)
Definition minutes (value : option Z) : Z := Z.rem (orZero value) 60.

(** The two [onChange] handlers; [typed] is [parseInt(e.target.value)],
    [None] when it is [NaN]. *)
Definition changeHours (value : option Z) (typed : option Z) : Z :=
  orZero typed * 60 + minutes value.

Definition changeMinutes (value : option Z) (typed : option Z) : Z :=
  hours value * 60 + orZero typed.
End TimeInput.

(** Sample dates of the selector: 2024-02-01 and 2024-02-20, at
    midnight. *)
Definition february_1 : Fortnight.JSDate :=
  {| Fortnight.anio := 2024; Fortnight.mes := 1; Fortnight.dia := 1;
     Fortnight.ms := 0 |}.

Definition february_20 : Fortnight.JSDate :=
  {| Fortnight.anio := 2024; Fortnight.mes := 1; Fortnight.dia := 20;
     Fortnight.ms := 0 |}.

(** An arrow key that moves down the table, or up. *)
Definition moves_down (key : Navigation.Key) : Prop :=
  key = Navigation.ArrowDown \/ key = Navigation.ArrowRight.

Definition moves_up (key : Navigation.Key) : Prop :=
  key = Navigation.ArrowUp \/ key = Navigation.ArrowLeft.

(** The handler selects row [i], which exists and is not a marked
    person, and expands it. *)
Definition selects (results : list AnalysisResult)
    (markedPeople : gset string) (i : Z)
    (outcome : Outcome Navigation.State) : Prop :=
  exists r,
    Navigation.at_index (Navigation.navigable results markedPeople) i = Some r
    /\ (name r ∉ markedPeople)
    /\ outcome = Returned {| Navigation.selectedIndex := i;
                             Navigation.expandedPerson := Some (name r) |}.

Definition is_thrown {A} (outcome : Outcome A) : Prop :=
  exists message, outcome = Thrown message.

(** A weekday cell with records of which some are missing. *)
Definition monday_cell : DateStyles.DateStyleProps :=
  {| DateStyles.date := Some (at_ 2024 1 8 0 0 0);
     DateStyles.records := monday_0805;
     DateStyles.hasRecords := true;
     DateStyles.hasMissingRecords := true;
     DateStyles.isHoliday := None |}.

(** The dates of [dates] that lie inside the period. *)
Definition datesWithin (startDate endDate : Z) (dates : gset Z) : gset Z :=
  filter (fun d => isWithinInterval (parse_date d) startDate endDate = true)
         dates.

(** ** The day cells of the drill-down ([src/App.tsx])

    The computation in the callback of [allDays.map], which occurs
    twice in the file with the same text, up to the class of the cell.
    [analyzeAttendance] always sets the [schedule] of a result, which
    [AnalysisResult] therefore holds as a plain field, so
    [result.schedule || preferences.regularSchedule] is
    [schedule result]. *)

Module DayCell.
Record cell := mkCell {
  records : list AttendanceRecord;
  lateMinutes : Z;
  overtimeHours : Q;
  lateHours : Q;
  hasMissingRecords : bool;
  saturdayHours : Q;
  className : Outcome string
}.

(** [records.some(r => r['Tipo de registro'] === kind)] *)
Definition some_of (kind : TipoRegistro) (records : list AttendanceRecord)
  : bool :=
  existsb (fun r => bool_decide (Tipo_de_registro r = kind)) records.

(** [entryTime] and [exitTime]: minute of day of the first record of the
    kind, 0 without one. *)
Definition timeOfFirst (kind : TipoRegistro)
    (records : list AttendanceRecord) : Z :=
  if some_of kind records then
    match List.find (fun r => bool_decide (Tipo_de_registro r = kind))
                    records with
    | Some r => minutesOfDay (Fecha_Hora r)
    | None => 0
    end
  else 0.

Definition dayCell (dateObj : FechaHora) (result : AnalysisResult)
    (preferences : PreferencesConfig) (holidays : list Z) : option cell :=
  let date := fecha dateObj in      (* [format(dateObj, 'yyyy-MM-dd')] *)
  let records := default [] (assoc date (dailyRecords result)) in
  let isSaturday := getDay dateObj =? 6 in
  let isSunday := getDay dateObj =? 0 in
  let hasRecords := (0 <? length records)%nat in
  if isSunday then None
  else
    let r := analyzeDayRecords records (schedule result) preferences in
    let hasEntryRecord := some_of TIn records in
    let hasExitRecord := some_of TOut records in
    let scheduleStart := startTime (schedule result) in
    let scheduleEnd := endTime (schedule result) in
    let entryTime := timeOfFirst TIn records in
    let exitTime := timeOfFirst TOut records in
    let isVeryLate := scheduleStart + 60 <? entryTime in
    let isVeryEarly := hasExitRecord && (exitTime <? scheduleEnd - 60) in
    let hasMissingRecords :=
      negb isSaturday
      && (negb hasEntryRecord || negb hasExitRecord
          || isVeryLate || isVeryEarly) in
    let saturdayHours :=
      if isSaturday && (2 <=? length records)%nat then
        match head records, last records with
        | Some first, Some lastR =>
            round_to_half
              (number_div
                 (inject_Z (differenceInMinutes (Fecha_Hora lastR)
                                                (Fecha_Hora first)))
                 60)
        | _, _ => 0%Q
        end
      else 0%Q in
    Some {| records := records;
            lateMinutes := Day.lateMinutes r;
            overtimeHours := Day.overtimeHours r;
            lateHours := Day.lateHours r;
            hasMissingRecords := hasMissingRecords;
            saturdayHours := saturdayHours;
            className :=
              DateStyles.getDateCellStyles
                {| DateStyles.date := Some dateObj;
                   DateStyles.records := records;
                   DateStyles.hasRecords := hasRecords;
                   DateStyles.hasMissingRecords := hasMissingRecords;
                   DateStyles.isHoliday :=
                     Some (existsb (Z.eqb date) holidays) |} |}.
End DayCell.

(** The day's punches lack an entry or an exit, or the entry is more
    than an hour after the scheduled start, or the exit more than an
    hour before the scheduled end. *)
Definition incomplete_day (sch : Schedule) (records : list AttendanceRecord)
  : Prop :=
  (forall r, In r records -> Tipo_de_registro r <> TIn)
  \/ (forall r, In r records -> Tipo_de_registro r <> TOut)
  \/ startTime sch + 60 < DayCell.timeOfFirst TIn records
  \/ DayCell.timeOfFirst TOut records < endTime sch - 60.

(** The cell of Monday 2024-01-08 for somebody who only punched in. *)
Definition only_in_result : AnalysisResult :=
  {| name := "Ana";
     schedule := regularSchedule DEFAULT_PREFERENCES;
     daysRegistered := 1; absences := 0; lateHours := 0; lateDays := 0;
     lateMinutes := 0; overtimeHours := 0; saturdayHours := 0;
     totalHours := 0;
     dailyRecords :=
       [(fecha_de 2024 1 8, [punch "Ana" (at_ 2024 1 8 8 0 0) TIn None])] |}.

(** * Properties *)

(** ** Sorting *)

Lemma insert_by_time_perm r l : insert_by_time r l ≡ₚ r :: l.
Proof.
  induction l as [|x l IH]; simpl; [done|].
  destruct (timeOf r <=? timeOf x); [done|].
  rewrite IH. apply Permutation_swap.
Qed.

Lemma sort_by_time_perm l : sort_by_time l ≡ₚ l.
Proof.
  induction l as [|x l IH]; simpl; [done|].
  rewrite insert_by_time_perm. by rewrite IH.
Qed.

Lemma insert_by_time_sorted r l :
  StronglySorted by_time l -> StronglySorted by_time (insert_by_time r l).
Proof.
  induction 1 as [|x l Hl IH Hx]; simpl.
  - repeat constructor.
  - destruct (Z.leb_spec (timeOf r) (timeOf x)) as [Hle|Hgt].
    + constructor; [by constructor|].
      constructor; [done|].
      eapply Forall_impl; [exact Hx|]. unfold by_time. intros; lia.
    + constructor; [done|].
      rewrite insert_by_time_perm. constructor; [|done].
      unfold by_time. lia.
Qed.

Lemma sort_by_time_sorted l : StronglySorted by_time (sort_by_time l).
Proof.
  induction l; simpl; [constructor | by apply insert_by_time_sorted].
Qed.

Lemma insert_by_time_head r l :
  Forall (by_time r) l -> insert_by_time r l = r :: l.
Proof.
  destruct 1 as [|x l Hx _]; simpl; [done|].
  unfold by_time in Hx. by rewrite (proj2 (Z.leb_le _ _) Hx).
Qed.

Lemma sort_by_time_fixed l : StronglySorted by_time l -> sort_by_time l = l.
Proof.
  induction 1 as [|x l _ IH Hx]; simpl; [done|].
  rewrite IH. by apply insert_by_time_head.
Qed.

(** ** Duplicate filter *)

(** Once a record has been kept, the accumulator of [reduce] is the kept
    prefix followed by what [keep_after] selects. *)
Lemma reduce_from_keep_after preferences l : forall index pre lastKept,
  reduce_from (keep_step preferences) l (S index) (pre ++ [lastKept])
  = pre ++ lastKept :: keep_after preferences lastKept l.
Proof.
  induction l as [|x l IH]; intros index pre lastKept; simpl; [done|].
  unfold keep_step at 2. simpl. rewrite last_snoc.
  destruct (differs preferences lastKept x).
  - rewrite (IH (S index) (pre ++ [lastKept]) x).
    by rewrite <- app_assoc.
  - apply IH.
Qed.

(** The accumulator is not empty after the first record: the [None]
    branch of [keep_step] is dead code. *)
Lemma reduce_from_nonempty preferences l x :
  exists pre lastKept,
    reduce_from (keep_step preferences) (x :: l) 0 [] = pre ++ [lastKept]
    /\ forall y index, keep_step preferences (pre ++ [lastKept]) y (S index)
         = if differs preferences lastKept y
           then (pre ++ [lastKept]) ++ [y] else pre ++ [lastKept].
Proof.
  simpl. change (keep_step preferences [] x 0) with ([] ++ [x]).
  rewrite reduce_from_keep_after. simpl.
  destruct (exists_last (l := x :: keep_after preferences x l))
    as (pre & lastKept & ->); [done|].
  exists pre, lastKept. split; [done|].
  intros y index. unfold keep_step. simpl. by rewrite last_snoc.
Qed.

Lemma filterDuplicateRecords_keep records preferences :
  filterDuplicateRecords records preferences
  = keep_first_then_differing preferences (sort_by_time records).
Proof.
  unfold filterDuplicateRecords, keep_first_then_differing.
  destruct (sort_by_time records) as [|x l]; simpl; [done|].
  change (keep_step preferences [] x 0) with ([] ++ [x]).
  by rewrite reduce_from_keep_after.
Qed.

Lemma keep_after_sublist preferences l : forall lastKept,
  sublist (keep_after preferences lastKept l) l.
Proof.
  induction l as [|x l IH]; intros lastKept; simpl; [done|].
  destruct (differs preferences lastKept x).
  - by apply sublist_skip.
  - by apply sublist_cons.
Qed.

Lemma keep_first_sublist preferences l :
  sublist (keep_first_then_differing preferences l) l.
Proof.
  destruct l as [|x l]; simpl; [done|].
  apply sublist_skip, keep_after_sublist.
Qed.

Lemma keep_after_idem preferences l : forall lastKept,
  keep_after preferences lastKept (keep_after preferences lastKept l)
  = keep_after preferences lastKept l.
Proof.
  induction l as [|x l IH]; intros lastKept; simpl; [done|].
  destruct (differs preferences lastKept x) eqn:Hd; simpl.
  - by rewrite Hd, IH.
  - apply IH.
Qed.

Lemma StronglySorted_sublist (l k : list AttendanceRecord) :
  sublist k l -> StronglySorted by_time l -> StronglySorted by_time k.
Proof.
  induction 1 as [|x k l Hs IH|x k l Hs IH]; intros Hl.
  - constructor.
  - apply StronglySorted_inv in Hl as [Hl Hx].
    constructor; [by apply IH|].
    rewrite Forall_forall in Hx |- *.
    intros y Hy. apply Hx. eapply elem_of_sublist; eauto.
  - apply StronglySorted_inv in Hl as [Hl _]. by apply IH.
Qed.

Lemma keep_first_idem preferences l :
  keep_first_then_differing preferences
    (keep_first_then_differing preferences l)
  = keep_first_then_differing preferences l.
Proof.
  destruct l as [|x l]; simpl; [done|]. by rewrite keep_after_idem.
Qed.

Lemma filterDuplicateRecords_sorted records preferences :
  StronglySorted by_time (filterDuplicateRecords records preferences).
Proof.
  rewrite filterDuplicateRecords_keep.
  eapply StronglySorted_sublist; [apply keep_first_sublist|].
  apply sort_by_time_sorted.
Qed.

(** C3. The duplicate filter is idempotent, its output is sorted
    ascending by timestamp and is not longer than its input, and it is
    the time-sorted input of which the first (earliest) record is kept
    and every later record is kept iff it differs from the last kept
    record: more than the duplicate window of whole minutes later, or of
    another punch kind, or with another operation tag. *)
Theorem filterDuplicateRecords_properties records preferences :
  let kept := filterDuplicateRecords records preferences in
  filterDuplicateRecords kept preferences = kept
  /\ StronglySorted by_time kept
  /\ (length kept <= length records)%nat
  /\ kept = keep_first_then_differing preferences (sort_by_time records)
  /\ sort_by_time records ≡ₚ records
  /\ StronglySorted by_time (sort_by_time records)
  /\ (forall prev current,
        differs preferences prev current = true <->
        duplicateThresholdMinutes preferences
          < differenceInMinutes (Fecha_Hora current) (Fecha_Hora prev)
        \/ Tipo_de_registro current <> Tipo_de_registro prev
        \/ Operacion current <> Operacion prev).
Proof.
  intros kept. pose proof (filterDuplicateRecords_sorted records preferences)
    as Hsorted. fold kept in Hsorted.
  split; [|split; [done|split; [|split; [|split; [|split]]]]].
  - rewrite filterDuplicateRecords_keep, (sort_by_time_fixed kept Hsorted).
    unfold kept. rewrite filterDuplicateRecords_keep. apply keep_first_idem.
  - unfold kept. rewrite filterDuplicateRecords_keep.
    rewrite <- (Permutation_length (sort_by_time_perm records)).
    apply sublist_length, keep_first_sublist.
  - apply filterDuplicateRecords_keep.
  - apply sort_by_time_perm.
  - apply sort_by_time_sorted.
  - intros prev current. unfold differs.
    rewrite !orb_true_iff, !negb_true_iff, !bool_decide_eq_false, Z.ltb_lt.
    tauto.
Qed.

(** ** Daily evaluator *)

Lemma add_late_credit_eq preferences minutesLate q :
  (add_late_credit preferences minutesLate q
   == q + late_credit preferences minutesLate)%Q.
Proof.
  unfold add_late_credit, late_credit.
  destruct (Z.ltb_spec (halfHour (lateThresholds preferences)) minutesLate),
    (Z.leb_spec minutesLate (fullHour (lateThresholds preferences))),
    (Z.ltb_spec (fullHour (lateThresholds preferences)) minutesLate);
    simpl; repeat case_decide; try lia; ring.
Qed.

Lemma morning_eq arrivalMinutes schedule preferences first :
  minutesOfDay (Fecha_Hora first) = arrivalMinutes ->
  exists lateHours,
    morning arrivalMinutes schedule preferences
    = (early_credit preferences schedule first,
       arrival_late schedule first, lateHours)
    /\ (lateHours == arrival_credit preferences schedule first)%Q.
Proof.
  intros <-. unfold morning, early_credit, arrival_credit, arrival_late,
    early_arrival_credit.
  set (a := minutesOfDay (Fecha_Hora first)).
  destruct (same_object schedule (regularSchedule preferences)); simpl.
  - destruct (Z.ltb_spec a (startTime schedule)).
    + rewrite bool_decide_eq_true_2 by done.
      change (7 * 60 + 5) with 425. change (7 * 60 + 30) with 450.
      destruct (Z.leb_spec a 425), (Z.leb_spec a 450);
        repeat case_decide; try lia;
        (eexists; split; [f_equal; f_equal; lia | reflexivity]).
    + rewrite bool_decide_eq_false_2 by lia.
      destruct (Z.ltb_spec (startTime schedule) a); case_decide; try lia.
      * eexists; split; [f_equal; f_equal; lia|].
        rewrite add_late_credit_eq. ring.
      * eexists; split; [f_equal; f_equal; lia | reflexivity].
  - destruct (Z.ltb_spec (startTime schedule) a); case_decide; try lia.
    + eexists; split; [f_equal; f_equal; lia|].
      rewrite add_late_credit_eq. ring.
    + eexists; split; [f_equal; f_equal; lia | reflexivity].
Qed.

Lemma early_credit_nonneg preferences schedule first :
  (0 <= early_credit preferences schedule first)%Q.
Proof.
  unfold early_credit, early_arrival_credit.
  destruct (_ && _); repeat case_decide; by compute.
Qed.

Lemma evening_eq worked early departure schedule preferences :
  (0 <= early)%Q ->
  (evening worked early departure schedule preferences
   == if decide (480 <= worked)%Z
      then early + evening_credit schedule preferences departure
      else 0)%Q.
Proof.
  intros Hearly. unfold evening, evening_credit.
  destruct (Z.leb_spec 480 worked); case_decide; try lia; [|reflexivity].
  assert ((if negb (Qle_bool early 0) then (0 + early)%Q else 0%Q) == early)%Q
    as Hov.
  { destruct (Qle_bool early 0) eqn:Hle; simpl; [|ring].
    apply Qle_bool_iff in Hle. by apply Qle_antisym. }
  destruct (Z.leb_spec (endTime schedule) departure);
    [destruct (Z.leb_spec
       (endTime schedule + fullHour (overtimeThresholds preferences))
       departure);
     [|destruct (Z.leb_spec
         (endTime schedule + halfHour (overtimeThresholds preferences))
         departure)]|];
    repeat case_decide; try lia; rewrite Hov; ring.
Qed.

Lemma lunch_eq punches preferences lateMinutes lateHours :
  exists lateHours',
    lunch punches preferences lateMinutes lateHours
    = (lateMinutes + lunch_excess preferences punches, lateHours')
    /\ (lateHours' == lateHours + lunch_credit preferences punches)%Q.
Proof.
  unfold lunch, lunch_excess, lunch_credit.
  destruct (breakDuration punches) as [duration|].
  - destruct (Z.ltb_spec (lunchDuration preferences) duration);
      case_decide; try lia.
    + eexists; split; [f_equal; lia|]. apply add_late_credit_eq.
    + eexists; split; [f_equal; lia|]. ring.
  - eexists; split; [f_equal; lia|]. ring.
Qed.

Lemma head_filterDuplicateRecords records preferences :
  head (filterDuplicateRecords records preferences)
  = head (sort_by_time records).
Proof.
  rewrite filterDuplicateRecords_keep.
  by destruct (sort_by_time records).
Qed.

Lemma head_Some_last {A} (l : list A) x :
  head l = Some x -> exists y, last l = Some y.
Proof.
  destruct l as [|a l]; [done|]. intros _.
  destruct (exists_last (l := a :: l)) as (pre & y & ->); [done|].
  exists y. apply last_snoc.
Qed.

Lemma analyzeDayRecords_saturday records schedule preferences first :
  head (filterDuplicateRecords records preferences) = Some first ->
  getDay (Fecha_Hora first) = 6 ->
  analyzeDayRecords records schedule preferences = noLateness.
Proof.
  intros Hhead Hsat. unfold analyzeDayRecords. simpl. rewrite Hhead.
  destruct (head_Some_last _ _ Hhead) as [lastR ->].
  by rewrite Hsat.
Qed.

Lemma analyzeDayRecords_empty records schedule preferences :
  head (filterDuplicateRecords records preferences) = None ->
  analyzeDayRecords records schedule preferences = noLateness.
Proof. intros Hhead. unfold analyzeDayRecords. simpl. by rewrite Hhead. Qed.

(** What the evaluator returns for a day that does not start on a
    Saturday. *)
Lemma analyzeDayRecords_eq records schedule preferences first lastR :
  let punches := filterDuplicateRecords records preferences in
  head punches = Some first ->
  last punches = Some lastR ->
  getDay (Fecha_Hora first) <> 6 ->
  let r := analyzeDayRecords records schedule preferences in
  Day.lateMinutes r
  = arrival_late schedule first + lunch_excess preferences punches
  /\ (Day.lateHours r
      == arrival_credit preferences schedule first
         + lunch_credit preferences punches)%Q
  /\ (Day.overtimeHours r
      == if decide (480 <= workedMinutes first lastR punches)%Z
         then early_credit preferences schedule first
              + evening_credit schedule preferences
                  (minutesOfDay (Fecha_Hora lastR))
         else 0)%Q.
Proof.
  intros punches Hhead Hlast Hday r. subst r. unfold analyzeDayRecords.
  simpl. fold punches. rewrite Hhead, Hlast.
  destruct (Z.eqb_spec (getDay (Fecha_Hora first)) 6) as [|_]; [done|].
  destruct (morning_eq _ schedule preferences first eq_refl)
    as (lh & -> & Hlh).
  destruct (lunch_eq punches preferences (arrival_late schedule first) lh)
    as (lh' & -> & Hlh').
  simpl. split; [done|]. split; [by rewrite Hlh', Hlh|].
  rewrite evening_eq by apply early_credit_nonneg.
  unfold workedMinutes. destruct (breakDuration punches); simpl;
    [reflexivity|].
  rewrite Z.sub_0_r. reflexivity.
Qed.

(** The two [find] calls of the evaluator return the first Break-Out and
    the first Break-In punch. *)
Lemma find_head_filter {A} (f : A -> bool) (l : list A) :
  List.find f l = head (List.filter f l).
Proof.
  induction l as [|x l IH]; [done|]. simpl. by destruct (f x).
Qed.

Lemma find_is_break op punches :
  List.find (is_break op) punches = head (break_punches op punches).
Proof.
  rewrite find_head_filter. unfold break_punches. f_equal.
  apply filter_ext. intros r. unfold is_break.
  apply eq_true_iff_eq.
  rewrite andb_true_iff, !bool_decide_eq_true. tauto.
Qed.

Lemma breakDuration_matched punches :
  breakDuration punches = matched_break punches.
Proof.
  unfold breakDuration, matched_break. rewrite !find_is_break.
  by destruct (break_punches "Out" punches), (break_punches "In" punches).
Qed.

Lemma workedMinutes_net first lastR punches :
  workedMinutes first lastR punches
  = worked_net_of_break first lastR punches.
Proof.
  unfold workedMinutes, worked_net_of_break.
  rewrite breakDuration_matched. by destruct (matched_break punches).
Qed.

Lemma lunch_credit_overrun preferences punches :
  0 <= halfHour (lateThresholds preferences) ->
  0 <= fullHour (lateThresholds preferences) ->
  lunch_credit preferences punches
  = late_credit preferences (lunch_overrun preferences punches).
Proof.
  intros Hhalf Hfull. unfold lunch_credit, lunch_overrun.
  rewrite breakDuration_matched.
  destruct (matched_break punches) as [duration|].
  - case_decide.
    + by rewrite Z.max_r by lia.
    + rewrite Z.max_l by lia. unfold late_credit.
      repeat case_decide; (done || lia).
  - unfold late_credit. repeat case_decide; (done || lia).
Qed.

(** C2, as the code has it.  For a weekday punch set and thresholds
    [0 < halfHour < fullHour], [lateHours] is the value of the arrival
    plus the tier of the lunch overrun: the value of the arrival is 0
    for an arrival [halfHour] minutes after the scheduled start, 0.5 one
    minute later, 0.5 for an arrival [fullHour] minutes after the start
    and 1 one minute later.  These four are the values of [lateHours]
    whenever the lunch overrun is at most [halfHour] minutes (no matched
    break, a break within the lunch duration, or one that exceeds it by
    [halfHour] minutes or less); a larger overrun adds 0.5 or more. *)
Theorem late_threshold_boundaries records schedule preferences first :
  let punches := filterDuplicateRecords records preferences in
  let late := minutesOfDay (Fecha_Hora first) - startTime schedule in
  let overrun := lunch_overrun preferences punches in
  let r := analyzeDayRecords records schedule preferences in
  head punches = Some first ->
  1 <= getDay (Fecha_Hora first) <= 5 ->
  0 < halfHour (lateThresholds preferences)
    < fullHour (lateThresholds preferences) ->
  ((late = halfHour (lateThresholds preferences) ->
      (Day.lateHours r == 0 + late_credit preferences overrun)%Q)
   /\ (late = halfHour (lateThresholds preferences) + 1 ->
         (Day.lateHours r == (1 # 2) + late_credit preferences overrun)%Q)
   /\ (late = fullHour (lateThresholds preferences) ->
         (Day.lateHours r == (1 # 2) + late_credit preferences overrun)%Q)
   /\ (late = fullHour (lateThresholds preferences) + 1 ->
         (Day.lateHours r == 1 + late_credit preferences overrun)%Q))
  /\ (overrun <= halfHour (lateThresholds preferences) ->
      (late = halfHour (lateThresholds preferences) ->
         (Day.lateHours r == 0)%Q)
      /\ (late = halfHour (lateThresholds preferences) + 1 ->
            (Day.lateHours r == 1 # 2)%Q)
      /\ (late = fullHour (lateThresholds preferences) ->
            (Day.lateHours r == 1 # 2)%Q)
      /\ (late = fullHour (lateThresholds preferences) + 1 ->
            (Day.lateHours r == 1)%Q))
  /\ (halfHour (lateThresholds preferences) < overrun ->
      (1 # 2 <= late_credit preferences overrun)%Q).
Proof.
  intros punches late overrun r Hhead Hday Hthr.
  destruct (head_Some_last _ _ Hhead) as [lastR Hlast].
  destruct (analyzeDayRecords_eq records schedule preferences first lastR
              Hhead Hlast) as (_ & Hlh & _); [lia|].
  fold r punches in Hlh.
  rewrite lunch_credit_overrun in Hlh by lia. fold overrun in Hlh.
  unfold arrival_credit in Hlh. fold late in Hlh.
  split_and!.
  - intros Hlate. rewrite Hlh. unfold late_credit at 1.
    repeat case_decide; try lia; ring.
  - intros Hlate. rewrite Hlh. unfold late_credit at 1.
    repeat case_decide; try lia; ring.
  - intros Hlate. rewrite Hlh. unfold late_credit at 1.
    repeat case_decide; try lia; ring.
  - intros Hlate. rewrite Hlh. unfold late_credit at 1.
    repeat case_decide; try lia; ring.
  - intros Hover. unfold late_credit in Hlh.
    split_and!; intros Hlate; rewrite Hlh;
      repeat case_decide; try lia; ring.
  - intros Hover. unfold late_credit.
    repeat case_decide; try lia; by compute.
Qed.

Lemma late_threshold_boundaries_witness :
  (Day.lateHours
     (analyzeDayRecords monday_0806_lunch_63
        (regularSchedule DEFAULT_PREFERENCES) DEFAULT_PREFERENCES)
   == 1 # 2)%Q
  /\ (Day.lateHours
        (analyzeDayRecords monday_0805
           (regularSchedule DEFAULT_PREFERENCES) DEFAULT_PREFERENCES)
      == 0)%Q.
Proof.
  split.
  - refine (proj1 (proj2 (proj1 (proj2
              (late_threshold_boundaries monday_0806_lunch_63
                 (regularSchedule DEFAULT_PREFERENCES) DEFAULT_PREFERENCES
                 (punch "Ana" (at_ 2024 1 8 8 6 0) TIn None)
                 _ _ _)) _)) _).
    + reflexivity.
    + vm_compute. split; discriminate.
    + vm_compute. split; reflexivity.
    + vm_compute. discriminate.
    + reflexivity.
  - refine (proj1 (proj1 (proj2
              (late_threshold_boundaries monday_0805
                 (regularSchedule DEFAULT_PREFERENCES) DEFAULT_PREFERENCES
                 (punch "Ana" (at_ 2024 1 8 8 5 0) TIn None)
                 _ _ _)) _) _).
    + reflexivity.
    + vm_compute. split; discriminate.
    + vm_compute. split; reflexivity.
    + vm_compute. discriminate.
    + reflexivity.
Defined.

(** C2 as stated fails: on Monday 2024-01-08 the arrival at 08:05 is
    exactly [halfHour] minutes after the start of the regular schedule,
    and the lunch overrun of 40 minutes makes [lateHours] 1, not 0. *)
Lemma late_threshold_boundaries_counterexample :
  let r := analyzeDayRecords monday_long_lunch
             (regularSchedule DEFAULT_PREFERENCES) DEFAULT_PREFERENCES in
  exists first,
    head (filterDuplicateRecords monday_long_lunch DEFAULT_PREFERENCES)
    = Some first
    /\ getDay (Fecha_Hora first) = 1
    /\ minutesOfDay (Fecha_Hora first)
       = startTime (regularSchedule DEFAULT_PREFERENCES)
         + halfHour (lateThresholds DEFAULT_PREFERENCES)
    /\ ~ (Day.lateHours r == 0)%Q
    /\ (Day.lateHours r == 1)%Q.
Proof.
  eexists. split; [reflexivity|]. repeat split; try reflexivity.
  vm_compute. discriminate.
Qed.

(** C4, as the code has it.  On a day whose first punch [first] is not
    on a Saturday and whose last punch is [lastR]: under the regular
    schedule and with an arrival before the scheduled start, the credit
    1.0 (arrival up to 07:05), 0.5 (up to 07:30) or 0 is part of
    [overtimeHours], next to the evening credit, exactly when the worked
    minutes (last punch minus first punch, minus the matched break)
    reach 480, and otherwise [overtimeHours] is 0; under the other
    schedule [overtimeHours] never holds more than the evening
    credit. *)
Theorem early_arrival_overtime records schedule preferences first lastR :
  let punches := filterDuplicateRecords records preferences in
  let arrival := minutesOfDay (Fecha_Hora first) in
  let departure := minutesOfDay (Fecha_Hora lastR) in
  let worked := worked_net_of_break first lastR punches in
  let r := analyzeDayRecords records schedule preferences in
  head punches = Some first ->
  last punches = Some lastR ->
  getDay (Fecha_Hora first) <> 6 ->
  (same_object schedule (regularSchedule preferences) = true ->
   arrival < startTime schedule ->
   (Day.overtimeHours r
    == if decide (480 <= worked)%Z
       then early_arrival_credit arrival
            + evening_credit schedule preferences departure
       else 0)%Q)
  /\ (same_object schedule (regularSchedule preferences) = false ->
      (Day.overtimeHours r
       == if decide (480 <= worked)%Z
          then evening_credit schedule preferences departure
          else 0)%Q).
Proof.
  intros punches arrival departure worked r Hhead Hlast Hday.
  destruct (analyzeDayRecords_eq records schedule preferences first lastR
              Hhead Hlast Hday) as (_ & _ & Hov).
  fold r punches departure in Hov.
  rewrite workedMinutes_net in Hov. fold worked in Hov.
  split.
  - intros Hreg Hbefore. rewrite Hov. unfold early_credit. rewrite Hreg.
    fold arrival. rewrite bool_decide_eq_true_2 by done. simpl.
    reflexivity.
  - intros Hearly. rewrite Hov. unfold early_credit. rewrite Hearly. simpl.
    case_decide; ring.
Qed.

Lemma early_arrival_overtime_witness :
  (Day.overtimeHours
     (analyzeDayRecords monday_early_bird_short
        (regularSchedule DEFAULT_PREFERENCES) DEFAULT_PREFERENCES)
   == 0)%Q
  /\ (Day.overtimeHours
        (analyzeDayRecords monday_early_bird_lunch
           (regularSchedule DEFAULT_PREFERENCES) DEFAULT_PREFERENCES)
      == 1 + (1 # 2))%Q
  /\ (Day.overtimeHours
        (analyzeDayRecords monday_early_bird
           (earlySchedule DEFAULT_PREFERENCES) DEFAULT_PREFERENCES)
      == 1)%Q.
Proof.
  split_and!.
  - refine (proj1 (early_arrival_overtime monday_early_bird_short
                     (regularSchedule DEFAULT_PREFERENCES)
                     DEFAULT_PREFERENCES
                     (punch "Ana" (at_ 2024 1 8 6 58 0) TIn None)
                     (punch "Ana" (at_ 2024 1 8 15 30 0) TOut None)
                     _ _ _) _ _).
    + reflexivity.
    + reflexivity.
    + vm_compute. discriminate.
    + reflexivity.
    + reflexivity.
  - refine (proj1 (early_arrival_overtime monday_early_bird_lunch
                     (regularSchedule DEFAULT_PREFERENCES)
                     DEFAULT_PREFERENCES
                     (punch "Ana" (at_ 2024 1 8 6 58 0) TIn None)
                     (punch "Ana" (at_ 2024 1 8 17 30 0) TOut None)
                     _ _ _) _ _).
    + reflexivity.
    + reflexivity.
    + vm_compute. discriminate.
    + reflexivity.
    + reflexivity.
  - refine (proj2 (early_arrival_overtime monday_early_bird
                     (earlySchedule DEFAULT_PREFERENCES)
                     DEFAULT_PREFERENCES
                     (punch "Ana" (at_ 2024 1 8 6 58 0) TIn None)
                     (punch "Ana" (at_ 2024 1 8 17 30 0) TOut None)
                     _ _ _) _).
    + reflexivity.
    + reflexivity.
    + vm_compute. discriminate.
    + reflexivity.
Defined.

(** C4 as stated fails on a Saturday: on 2024-01-06 the employee is on
    the regular schedule, arrives at 06:58, before 07:05 and before the
    scheduled start, and works 632 minutes, yet [overtimeHours] is 0 and
    holds neither the early-arrival credit of 1 nor the evening credit
    of 0.5. *)
Lemma early_arrival_overtime_counterexample :
  let punches :=
    filterDuplicateRecords saturday_early_bird DEFAULT_PREFERENCES in
  let schedule := regularSchedule DEFAULT_PREFERENCES in
  let r := analyzeDayRecords saturday_early_bird schedule
             DEFAULT_PREFERENCES in
  exists first lastR,
    head punches = Some first
    /\ last punches = Some lastR
    /\ getDay (Fecha_Hora first) = 6
    /\ minutesOfDay (Fecha_Hora first) < startTime schedule
    /\ (early_arrival_credit (minutesOfDay (Fecha_Hora first)) == 1)%Q
    /\ worked_net_of_break first lastR punches = 632
    /\ (Day.overtimeHours r == 0)%Q
    /\ ~ (Day.overtimeHours r
          == early_arrival_credit (minutesOfDay (Fecha_Hora first))
             + evening_credit schedule DEFAULT_PREFERENCES
                 (minutesOfDay (Fecha_Hora lastR)))%Q.
Proof.
  do 2 eexists. split; [reflexivity|]. split; [reflexivity|].
  split_and!; try reflexivity. vm_compute. discriminate.
Qed.

(** C7, as the code has it.  On a day whose first punch is not on a
    Saturday, if a Break-Out and a Break-In record exist and the break
    lasts longer than the lunch duration, the excess minutes are added
    to [lateMinutes] and their tier (0.5 if
    [halfHour < excess <= fullHour], 1 if [excess > fullHour], else 0)
    to [lateHours], on top of what the arrival gives.  If either break
    record is absent, on any day, the result holds the lateness of the
    arrival alone. *)
Theorem lunch_overrun_penalty records schedule preferences :
  let punches := filterDuplicateRecords records preferences in
  let r := analyzeDayRecords records schedule preferences in
  (forall first breakOutRecord breakInRecord,
     head punches = Some first ->
     getDay (Fecha_Hora first) <> 6 ->
     List.find (is_break "Out") punches = Some breakOutRecord ->
     List.find (is_break "In") punches = Some breakInRecord ->
     let excess :=
       differenceInMinutes (Fecha_Hora breakInRecord)
                           (Fecha_Hora breakOutRecord)
       - lunchDuration preferences in
     0 < excess ->
     Day.lateMinutes r = arrival_late schedule first + excess
     /\ (Day.lateHours r
         == arrival_credit preferences schedule first
            + late_credit preferences excess)%Q)
  /\ (List.find (is_break "Out") punches = None
      \/ List.find (is_break "In") punches = None ->
      match head punches with
      | Some first =>
          if decide (getDay (Fecha_Hora first) = 6)
          then Day.lateMinutes r = 0 /\ (Day.lateHours r == 0)%Q
          else Day.lateMinutes r = arrival_late schedule first
               /\ (Day.lateHours r
                   == arrival_credit preferences schedule first)%Q
      | None => Day.lateMinutes r = 0 /\ (Day.lateHours r == 0)%Q
      end).
Proof.
  intros punches r. split.
  - intros first breakOutRecord breakInRecord Hhead Hday Hout Hin excess Hex.
    destruct (head_Some_last _ _ Hhead) as [lastR Hlast].
    destruct (analyzeDayRecords_eq records schedule preferences first lastR
                Hhead Hlast Hday) as (Hlm & Hlh & _).
    fold r punches in Hlm, Hlh.
    unfold lunch_excess in Hlm. unfold lunch_credit in Hlh.
    unfold breakDuration in Hlm, Hlh. rewrite Hout, Hin in Hlm, Hlh.
    fold excess in Hlm, Hlh. split; [lia|].
    rewrite Hlh. case_decide; [reflexivity | lia].
  - intros Habsent.
    assert (breakDuration punches = None) as Hnone.
    { unfold breakDuration. destruct Habsent as [-> | ->]; [done|].
      by destruct (List.find (is_break "Out") punches). }
    destruct (head punches) as [first|] eqn:Hhead.
    + case_decide as Hday.
      * subst r.
        by rewrite (analyzeDayRecords_saturday _ schedule _ _ Hhead Hday).
      * destruct (head_Some_last _ _ Hhead) as [lastR Hlast].
        destruct (analyzeDayRecords_eq records schedule preferences first
                    lastR Hhead Hlast Hday) as (Hlm & Hlh & _).
        fold r punches in Hlm, Hlh.
        unfold lunch_excess in Hlm. unfold lunch_credit in Hlh.
        rewrite Hnone in Hlm, Hlh. split; [lia|]. rewrite Hlh. ring.
    + subst r. by rewrite (analyzeDayRecords_empty _ schedule _ Hhead).
Qed.

Lemma lunch_overrun_penalty_witness :
  let r := analyzeDayRecords monday_lunch_75
             (regularSchedule DEFAULT_PREFERENCES) DEFAULT_PREFERENCES in
  Day.lateMinutes r = 0 + 15
  /\ (Day.lateHours r == 0 + (1 # 2))%Q.
Proof.
  refine (proj1 (lunch_overrun_penalty monday_lunch_75
                   (regularSchedule DEFAULT_PREFERENCES) DEFAULT_PREFERENCES)
                (punch "Ana" (at_ 2024 1 8 8 0 0) TIn None)
                (punch "Ana" (at_ 2024 1 8 12 0 0) TBreak (Some "Out"))
                (punch "Ana" (at_ 2024 1 8 13 15 0) TBreak (Some "In"))
                _ _ _ _ _).
  - reflexivity.
  - vm_compute. discriminate.
  - reflexivity.
  - reflexivity.
  - reflexivity.
Defined.

(** C7 as stated fails on a Saturday: both break records exist and the
    break of 75 minutes exceeds the lunch duration of 60, yet nothing is
    added to [lateMinutes] or [lateHours]. *)
Lemma lunch_overrun_penalty_counterexample :
  let punches :=
    filterDuplicateRecords saturday_long_lunch DEFAULT_PREFERENCES in
  let r := analyzeDayRecords saturday_long_lunch
             (regularSchedule DEFAULT_PREFERENCES) DEFAULT_PREFERENCES in
  breakDuration punches = Some 75
  /\ lunchDuration DEFAULT_PREFERENCES < 75
  /\ Day.lateMinutes r = 0
  /\ (Day.lateHours r == 0)%Q.
Proof. repeat split. Qed.

(** ** Schedule classifier *)

Lemma fold_left_sum (times : list Z) : forall acc,
  fold_left (fun sum time => sum + time) times acc
  = acc + foldr Z.add 0 times.
Proof.
  induction times as [|t times IH]; intros acc; simpl; [lia|].
  rewrite IH. lia.
Qed.








(** ** Grouping *)

Section Grouping.
Context {K : Type} `{EqDecision K} (key : AttendanceRecord -> K).

Local Abbreviation step :=
  (fun (acc : list (K * list AttendanceRecord)) r => push_to (key r) r acc).

Lemma push_to_keys (k : K) (v : AttendanceRecord) acc d :
  In d (map fst (push_to k v acc)) <-> In d (map fst acc) \/ d = k.
Proof.
  induction acc as [|[k' vs] acc IH]; simpl.
  - intuition congruence.
  - case_decide; simpl; [subst|rewrite IH]; intuition congruence.
Qed.

Lemma group_keys l : forall acc d,
  In d (map fst (fold_left step l acc))
  <-> In d (map fst acc) \/ exists r, In r l /\ key r = d.
Proof.
  induction l as [|x l IH]; intros acc d; simpl.
  - split; [tauto | intros [?|(? & [] & _)]; done].
  - rewrite IH, push_to_keys. split.
    + intros [[?| ->]|(r & ? & ?)]; eauto.
    + intros [?|(r & [ ->|?] & ?)]; eauto.
Qed.

Lemma push_to_NoDup (k : K) (v : AttendanceRecord) acc :
  NoDup (map fst acc) -> NoDup (map fst (push_to k v acc)).
Proof.
  induction acc as [|[k' vs] acc IH]; simpl; intros Hnd.
  - repeat constructor. by intros ?%elem_of_nil.
  - apply NoDup_cons in Hnd as [Hk' Hnd].
    case_decide; simpl; apply NoDup_cons; split; auto.
    rewrite list_elem_of_In, push_to_keys, <- list_elem_of_In.
    intros [?|?]; congruence.
Qed.

Lemma group_NoDup l : forall acc,
  NoDup (map fst acc) -> NoDup (map fst (fold_left step l acc)).
Proof.
  induction l as [|x l IH]; intros acc Hnd; simpl; [done|].
  apply IH, push_to_NoDup, Hnd.
Qed.

Lemma assoc_push_to (k k' : K) (v : AttendanceRecord) acc :
  assoc k' (push_to k v acc)
  = if decide (k' = k) then Some (default [] (assoc k acc) ++ [v])
    else assoc k' acc.
Proof.
  induction acc as [|[k0 vs] acc IH]; simpl.
  - repeat case_decide; congruence.
  - repeat (case_decide; simpl); try congruence.
Qed.

Lemma assoc_group l : forall acc k,
  assoc k (fold_left step l acc)
  = let new := List.filter (fun r => bool_decide (key r = k)) l in
    match assoc k acc, new with
    | None, [] => None
    | o, _ => Some (default [] o ++ new)
    end.
Proof.
  induction l as [|x l IH]; intros acc k; simpl.
  - destruct (assoc k acc); simpl; [by rewrite app_nil_r | done].
  - rewrite IH, assoc_push_to.
    case_bool_decide as Hk; case_decide; try congruence; simpl.
    + subst k. rewrite <- app_assoc. simpl.
      by destruct (assoc (key x) acc).
    + done.
Qed.

Lemma assoc_In (acc : list (K * list AttendanceRecord)) k rs :
  NoDup (map fst acc) -> In (k, rs) acc -> assoc k acc = Some rs.
Proof.
  induction acc as [|[k0 vs] acc IH]; simpl; [done|].
  intros [Hk0 Hnd]%NoDup_cons [[= -> ->]|Hin].
  - by case_decide.
  - case_decide as Hk; [|by apply IH].
    subst k0. exfalso. apply Hk0, list_elem_of_In, in_map_iff.
    by exists (k, rs).
Qed.

(** Every group holds, in input order, the records with its key. *)
Lemma group_entries l k rs :
  In (k, rs) (fold_left step l [])
  -> rs = List.filter (fun r => bool_decide (key r = k)) l.
Proof.
  intros Hin. apply assoc_In in Hin; [|apply group_NoDup; constructor].
  rewrite assoc_group in Hin. simpl in Hin.
  destruct (List.filter _ l); congruence.
Qed.
End Grouping.

(** ** Workday sets and absences *)

Lemma fold_left_add_if {A} (f : A -> Z) (P : A -> bool) (l : list A) :
  forall (acc : gset Z) d,
    d ∈ fold_left (fun s x => if P x then s ∪ {[ f x ]} else s) l acc
    <-> d ∈ acc \/ exists x, In x l /\ P x = true /\ f x = d.
Proof.
  induction l as [|a l IH]; intros acc d; simpl.
  - split; [tauto | intros [?|(? & [] & _)]; done].
  - rewrite IH. destruct (P a) eqn:HP.
    + rewrite elem_of_union, elem_of_singleton. split.
      * intros [[?| ->]|(x & ? & ? & ?)]; eauto 7.
      * intros [?|(x & [ ->|?] & ? & ?)]; eauto 7.
    + split.
      * intros [?|(x & ? & ? & ?)]; eauto 7.
      * intros [?|(x & [ ->|?] & ? & ?)]; eauto 7. congruence.
Qed.

Lemma elem_of_getCompanyWorkdays allRecords startDate endDate d :
  d ∈ getCompanyWorkdays allRecords startDate endDate
  <-> (exists r, In r allRecords /\ date_key r = d)
      /\ workday_in startDate endDate d.
Proof.
  unfold getCompanyWorkdays, workday_in.
  rewrite (fold_left_add_if date_key
             (fun r => negb (isWeekend (parse_date (date_key r)))
                       && isWithinInterval (parse_date (date_key r))
                            startDate endDate)).
  rewrite elem_of_empty. split.
  - intros [[]|(r & Hin & HP & <-)].
    apply andb_true_iff in HP as [Hw ?]. apply negb_true_iff in Hw. eauto.
  - intros [(r & Hin & <-) [Hw Hi]]. right. exists r.
    by rewrite Hw, Hi.
Qed.

Lemma elem_of_userWorkdaysOf buckets startDate endDate d :
  d ∈ userWorkdaysOf buckets startDate endDate
  <-> In d (map fst buckets) /\ workday_in startDate endDate d.
Proof.
  unfold userWorkdaysOf, workday_in.
  rewrite (fold_left_add_if id
             (fun date => negb (isWeekend (parse_date date))
                          && isWithinInterval (parse_date date)
                               startDate endDate)).
  rewrite elem_of_empty. unfold id. split.
  - intros [[]|(x & Hin & HP & <-)].
    apply andb_true_iff in HP as [Hw ?]. apply negb_true_iff in Hw. eauto.
  - intros [Hin [Hw Hi]]. right. exists d. by rewrite Hw, Hi.
Qed.

Lemma countAbsences_size (companyWorkdays userWorkdays : gset Z) :
  countAbsences companyWorkdays userWorkdays
  = size (companyWorkdays ∖ userWorkdays).
Proof.
  unfold countAbsences.
  apply (set_fold_ind_L (fun n (X : gset Z) => n = size (X ∖ userWorkdays))).
  - by rewrite difference_disjoint_L, size_empty by set_solver.
  - intros x X n Hx ->. case_decide as Hu.
    + f_equal. set_solver.
    + replace (({[x]} ∪ X) ∖ userWorkdays)
        with ({[x]} ∪ X ∖ userWorkdays) by set_solver.
      rewrite (size_union {[x]} (X ∖ userWorkdays)) by set_solver.
      by rewrite size_singleton.
Qed.

(** ** Period aggregator *)

(** The result of an employee in the output, in terms of the input. *)
Lemma analyzeAttendance_In records startDate endDate preferences res :
  In res (analyzeAttendance records startDate endDate preferences) ->
  res = analyzeUser (getCompanyWorkdays records startDate endDate)
          startDate endDate preferences
          (name res, recordsOf (name res) records).
Proof.
  unfold analyzeAttendance. simpl. intros ([n rs] & <- & Hin)%in_map_iff.
  apply (group_entries Nombre) in Hin. subst rs. reflexivity.
Qed.

Lemma elem_of_datesOf l d :
  d ∈ datesOf l <-> exists r, In r l /\ date_key r = d.
Proof.
  unfold datesOf. rewrite elem_of_list_to_set, list_elem_of_In, in_map_iff.
  split; intros (r & ? & ?); eauto.
Qed.

Lemma groupByDay_keys l d :
  In d (map fst (groupByDay l)) <-> d ∈ datesOf l.
Proof.
  unfold groupByDay. rewrite (group_keys date_key), elem_of_datesOf.
  simpl. tauto.
Qed.

Lemma absences_size records startDate endDate preferences res :
  In res (analyzeAttendance records startDate endDate preferences) ->
  absences res
  = size (getCompanyWorkdays records startDate endDate
          ∖ datesOf (filterDuplicateRecords (recordsOf (name res) records)
                       preferences)).
Proof.
  intros Hres. rewrite (analyzeAttendance_In _ _ _ _ _ Hres) at 1.
  simpl. rewrite countAbsences_size. f_equal.
  apply set_eq. intros d. rewrite !elem_of_difference.
  rewrite elem_of_userWorkdaysOf, groupByDay_keys.
  rewrite elem_of_getCompanyWorkdays. tauto.
Qed.

(** The absences of the code.  For every employee in the output of
    [analyzeAttendance] over a valid period: the absences are at most
    the number of company workdays; they are exactly the company
    workdays on which no punch of the employee survives the duplicate
    filter, so a company workday with a surviving punch of the employee
    never counts; and they are 0 when a punch of the employee survives
    the duplicate filter on every company workday. *)
Theorem absences_bounds records startDate endDate preferences res :
  let companyWorkdays := getCompanyWorkdays records startDate endDate in
  let kept :=
    filterDuplicateRecords (recordsOf (name res) records) preferences in
  startDate <= endDate ->
  In res (analyzeAttendance records startDate endDate preferences) ->
  (absences res <= size companyWorkdays)%nat
  /\ absences res = size (companyWorkdays ∖ datesOf kept)
  /\ (forall d r, In r kept -> date_key r = d ->
        d ∉ companyWorkdays ∖ datesOf kept)
  /\ ((forall d, d ∈ companyWorkdays ->
         exists r, In r kept /\ date_key r = d) ->
      absences res = 0%nat).
Proof.
  intros companyWorkdays kept _ Hres.
  pose proof (absences_size _ _ _ _ _ Hres) as Habs.
  fold companyWorkdays kept in Habs.
  split; [|split; [done|split]].
  - rewrite Habs. apply subseteq_size. set_solver.
  - intros d r Hin Hd [_ Hnot]%elem_of_difference.
    apply Hnot, elem_of_datesOf. eauto.
  - intros Hall. rewrite Habs. apply size_empty_iff.
    apply elem_of_equiv_empty. intros d [Hd Hnot]%elem_of_difference.
    apply Hnot, elem_of_datesOf, Hall, Hd.
Qed.

Lemma absences_bounds_witness :
  exists res,
    In res (analyzeAttendance ana_and_beto january_1 january_15
              DEFAULT_PREFERENCES)
    /\ name res = "Beto"
    /\ (absences res <= 2)%nat.
Proof.
  eexists. split; [right; left; reflexivity|]. split; [reflexivity|].
  refine (proj1 (absences_bounds ana_and_beto january_1 january_15
                   DEFAULT_PREFERENCES _ _ _)).
  - by vm_compute.
  - right. left. reflexivity.
Defined.

(** C5 at the failing input.  Ana is the only employee; she punches in
    on Monday 2024-01-08 at 23:58 and on Tuesday 2024-01-09 at 00:01.
    Both days are company workdays, by her punches alone, and she has a
    record on each; the second punch is dropped as a duplicate of the
    first, and she is counted absent once. *)
Theorem false_absence_across_midnight :
  getCompanyWorkdays around_midnight january_1 january_15
  = {[ fecha_de 2024 1 8; fecha_de 2024 1 9 ]}
  /\ map (fun r => (Nombre r, date_key r)) around_midnight
     = [("Ana", fecha_de 2024 1 8); ("Ana", fecha_de 2024 1 9)]
  /\ map (fun res => (name res, absences res))
       (analyzeAttendance around_midnight january_1 january_15
          DEFAULT_PREFERENCES)
     = [("Ana", 1%nat)].
Proof. repeat split. Qed.

(** ** Rounding *)

Lemma round_to_half_nearest x : nearest_half_up x (round_to_half x).
Proof.
  unfold nearest_half_up, multiple_of_half, round_to_half, Math_round.
  set (k := Qfloor (x * 2 + (1 # 2))).
  pose proof (Qfloor_le (x * 2 + (1 # 2))) as Hle.
  pose proof (Qlt_floor (x * 2 + (1 # 2))) as Hlt.
  fold k in Hle, Hlt. rewrite inject_Z_plus in Hlt.
  change (inject_Z 1) with 1%Q in Hlt.
  assert (inject_Z k / 2 == inject_Z k * (1 # 2))%Q as Hk by field.
  split; [by exists k|]. rewrite Hk. split; lra.
Qed.

Lemma saturday_total schedule preferences startDate endDate buckets :
  forall t,
    totalSaturdayHours
      (fold_left (day_step schedule preferences startDate endDate)
                 buckets t)
    = fold_left number_add (weekend_hours startDate endDate buckets)
                (totalSaturdayHours t).
Proof.
  induction buckets as [|[date dayRecords] buckets IH]; intros t; [done|].
  cbn [fold_left weekend_hours flat_map fst snd]. rewrite fold_left_app.
  rewrite IH. f_equal. unfold day_step.
  destruct (isWithinInterval _ _ _); cbn [negb andb]; [|done].
  destruct (isWeekend _); cbn [andb]; [|done].
  destruct (2 <=? length dayRecords)%nat; [|done].
  by destruct (head dayRecords), (last dayRecords).
Qed.

Lemma hour_totals schedule preferences startDate endDate buckets :
  forall t,
    let t' := fold_left (day_step schedule preferences startDate endDate)
                        buckets t in
    let results :=
      weekday_results schedule preferences startDate endDate buckets in
    totalOvertimeHours t'
    = fold_left (fun total r => (total + Day.overtimeHours r)%Q) results
                (totalOvertimeHours t)
    /\ totalLateHours t'
       = fold_left (fun total r => (total + Day.lateHours r)%Q)
                   (List.filter (fun r => 0 <? Day.lateMinutes r) results)
                   (totalLateHours t).
Proof.
  induction buckets as [|[date dayRecords] buckets IH]; intros t; [done|].
  cbv zeta in *. unfold weekday_results in *.
  cbn [fold_left List.filter fst snd].
  destruct (IH (day_step schedule preferences startDate endDate t
                  (date, dayRecords))) as [-> ->].
  unfold day_step.
  destruct (isWithinInterval _ _ _); cbn [negb andb]; [|done].
  destruct (isWeekend _); cbn [negb map List.filter fold_left].
  - destruct (2 <=? length dayRecords)%nat; [|done].
    by destruct (head dayRecords), (last dayRecords).
  - cbn [totalOvertimeHours totalLateHours].
    by destruct (0 <? _); cbn [fold_left].
Qed.

(** [binary64] returns what the Standard Library's specification of
    IEEE 754 arithmetic returns, on the quotients by 60 and the running
    sums of the samples. *)
Example number_div_as_specified :
  Forall (fun m =>
            same_number (number_div (inject_Z m) 60)
              (SpecFloat.SFdiv 53 1024 (of_whole m) (of_whole 60)))
         [1; 9; 65; 244; 245; 246; 270; 590].
Proof. repeat constructor. Qed.

Example number_add_as_specified :
  Forall (fun minutes =>
            same_number
              (fold_left number_add
                 (map (fun m => number_div (inject_Z m) 60) minutes) 0%Q)
              (fold_left (SpecFloat.SFadd 53 1024)
                 (map (fun m => SpecFloat.SFdiv 53 1024 (of_whole m)
                                  (of_whole 60))
                      minutes)
                 (of_whole 0)))
         [[1; 65; 9]; [244; 245; 246]; [270]; [590; 270]].
Proof. repeat constructor. Qed.

(** C9. For every employee in the output of [analyzeAttendance] over a
    valid period, [overtimeHours] and [saturdayHours] are whole numbers
    of half hours: the accumulated totals rounded to the nearest 0.5,
    a tie going up; [totalHours] is the sum of the two rounded values;
    [lateHours] is the accumulated total itself.  The accumulated
    overtime is the sum of the overtime hours of the evaluated days, the
    accumulated late hours that of the late hours of the days with late
    minutes, and the accumulated Saturday total is the running sum, in
    double precision, of the hours of the weekend buckets. *)
Theorem rounded_totals records startDate endDate preferences res :
  let totals :=
    dayTotals (schedule res) preferences startDate endDate
              (dailyRecords res) in
  startDate <= endDate ->
  In res (analyzeAttendance records startDate endDate preferences) ->
  nearest_half_up (totalOvertimeHours totals) (overtimeHours res)
  /\ overtimeHours res = round_to_half (totalOvertimeHours totals)
  /\ nearest_half_up (totalSaturdayHours totals) (saturdayHours res)
  /\ saturdayHours res = round_to_half (totalSaturdayHours totals)
  /\ totalHours res = (overtimeHours res + saturdayHours res)%Q
  /\ lateHours res = totalLateHours totals
  /\ totalOvertimeHours totals
     = overtime_sum (weekday_results (schedule res) preferences
                       startDate endDate (dailyRecords res))
  /\ totalLateHours totals
     = late_sum (weekday_results (schedule res) preferences
                   startDate endDate (dailyRecords res))
  /\ totalSaturdayHours totals
     = fold_left number_add
         (weekend_hours startDate endDate (dailyRecords res)) 0%Q.
Proof.
  intros totals _ Hres. subst totals.
  rewrite (analyzeAttendance_In _ _ _ _ _ Hres). simpl.
  split_and!; try apply round_to_half_nearest; try reflexivity.
  - apply (hour_totals _ _ _ _ _ noTotals).
  - apply (hour_totals _ _ _ _ _ noTotals).
  - apply saturday_total.
Qed.

Lemma rounded_totals_witness :
  exists res,
    In res (analyzeAttendance three_weekend_days january_1 january_15
              DEFAULT_PREFERENCES)
    /\ (saturdayHours res == 1)%Q.
Proof.
  eexists. split; [left; reflexivity|].
  refine (eq_ind_r (fun q => (q == 1)%Q) _
            (proj1 (proj2 (proj2 (proj2
               (rounded_totals three_weekend_days january_1 january_15
                  DEFAULT_PREFERENCES _ _ _)))))).
  - reflexivity.
  - by vm_compute.
  - left. reflexivity.
Defined.

(** The accumulated Saturday total is not the exact sum of the hours:
    1, 65 and 9 minutes are an hour and a quarter, which would be
    rounded to 1.5, and their running sum in double precision lies below
    it and is rounded to 1; likewise 244, 245 and 246 minutes give 12
    and not 12.5. *)
Example saturday_hours_in_double_precision :
  Forall (fun res => (saturdayHours res == 1)%Q)
    (analyzeAttendance three_weekend_days january_1 january_15
       DEFAULT_PREFERENCES)
  /\ (round_to_half (inject_Z (1 + 65 + 9) / 60) == 3 # 2)%Q
  /\ Forall (fun res => (saturdayHours res == 12)%Q)
       (analyzeAttendance three_long_weekend_days january_1 january_15
          DEFAULT_PREFERENCES)
  /\ (round_to_half (inject_Z (244 + 245 + 246) / 60) == 25 # 2)%Q.
Proof. split_and!; try reflexivity; by repeat constructor. Qed.

(** ** Weekend buckets in the aggregation *)

Lemma saturday_isWeekend t : getDay t = 6 -> isWeekend t = true.
Proof. unfold isWeekend. intros ->. reflexivity. Qed.

Lemma day_step_weekend schedule preferences startDate endDate t date
    dayRecords :
  isWeekend (parse_date date) = true ->
  late_part (day_step schedule preferences startDate endDate t
               (date, dayRecords))
  = late_part t.
Proof.
  intros Hw. unfold day_step. rewrite Hw.
  destruct (negb _); [done|].
  destruct (2 <=? length dayRecords)%nat; [|done].
  by destruct (head dayRecords), (last dayRecords).
Qed.

Lemma day_step_weekend_independent schedule schedule' preferences
    preferences' startDate endDate t date dayRecords :
  isWeekend (parse_date date) = true ->
  day_step schedule preferences startDate endDate t (date, dayRecords)
  = day_step schedule' preferences' startDate endDate t (date, dayRecords).
Proof. intros Hw. unfold day_step. by rewrite Hw. Qed.

Lemma day_step_late_part schedule preferences startDate endDate t t' entry :
  late_part t = late_part t' ->
  late_part (day_step schedule preferences startDate endDate t entry)
  = late_part (day_step schedule preferences startDate endDate t' entry).
Proof.
  destruct entry as [date dayRecords]. unfold late_part.
  intros [= Hd Hm Hh Ho]. unfold day_step.
  destruct (negb _); [by rewrite Hd, Hm, Hh, Ho|].
  destruct (isWeekend _).
  - destruct (2 <=? length dayRecords)%nat;
      [destruct (head dayRecords), (last dayRecords)|];
      simpl; by rewrite Hd, Hm, Hh, Ho.
  - simpl. by rewrite Hd, Hm, Hh, Ho.
Qed.

Lemma dayTotals_without_saturdays schedule preferences startDate endDate
    buckets : forall t t',
  late_part t = late_part t' ->
  late_part (fold_left (day_step schedule preferences startDate endDate)
               buckets t)
  = late_part (fold_left (day_step schedule preferences startDate endDate)
                 (without_saturdays buckets) t').
Proof.
  induction buckets as [|[date dayRecords] buckets IH]; intros t t' Ht;
    [done|].
  unfold without_saturdays in *. cbn [fold_left List.filter fst].
  destruct (Z.eqb_spec (getDay (parse_date date)) 6) as [Hsat|Hday];
    cbn [negb fold_left].
  - apply IH. rewrite <- Ht.
    by apply day_step_weekend, saturday_isWeekend.
  - apply IH. by apply day_step_late_part.
Qed.

(** C6. A punch list whose first (earliest) punch is on a Saturday gets
    [lateMinutes = 0], [overtimeHours = 0] and [lateHours = 0] from
    [analyzeDayRecords], whatever else it holds.  In the aggregation a
    weekend bucket is handled without the daily evaluator: the step does
    not depend on the schedule or the preferences and leaves the
    lateness and overtime counters as they are; so the [lateMinutes],
    [lateHours], [lateDays] and [overtimeHours] of every employee in the
    output are those obtained with the Saturday buckets left out. *)
Theorem saturday_exclusion :
  (forall records schedule preferences first,
     head (sort_by_time records) = Some first ->
     getDay (Fecha_Hora first) = 6 ->
     analyzeDayRecords records schedule preferences = noLateness)
  /\ (forall schedule schedule' preferences preferences' startDate endDate
             t date dayRecords,
        isWeekend (parse_date date) = true ->
        day_step schedule preferences startDate endDate t (date, dayRecords)
        = day_step schedule' preferences' startDate endDate t
            (date, dayRecords)
        /\ late_part (day_step schedule preferences startDate endDate t
                        (date, dayRecords))
           = late_part t)
  /\ (forall records startDate endDate preferences res,
        startDate <= endDate ->
        In res (analyzeAttendance records startDate endDate preferences) ->
        let totals :=
          dayTotals (schedule res) preferences startDate endDate
                    (without_saturdays (dailyRecords res)) in
        lateMinutes res = totalLateMinutes totals
        /\ lateHours res = totalLateHours totals
        /\ lateDays res = totalLateDays totals
        /\ overtimeHours res = round_to_half (totalOvertimeHours totals)).
Proof.
  split; [|split].
  - intros records schedule preferences first Hhead Hsat.
    apply (analyzeDayRecords_saturday _ _ _ first); [|done].
    by rewrite head_filterDuplicateRecords.
  - intros. split; [by apply day_step_weekend_independent|].
    by apply day_step_weekend.
  - intros records startDate endDate preferences res _ Hres totals.
    subst totals. rewrite (analyzeAttendance_In _ _ _ _ _ Hres). simpl.
    set (sch := detectSchedule _ _). set (buckets := groupByDay _).
    pose proof (dayTotals_without_saturdays sch preferences startDate
                  endDate buckets noTotals noTotals eq_refl) as Heq.
    unfold late_part in Heq. injection Heq as Hd Hm Hh Ho.
    unfold dayTotals. by rewrite Hd, Hm, Hh, Ho.
Qed.

Lemma saturday_exclusion_witness :
  analyzeDayRecords saturday_long_lunch
    (regularSchedule DEFAULT_PREFERENCES) DEFAULT_PREFERENCES
  = noLateness
  /\ exists res,
       In res (analyzeAttendance friday_and_saturday january_1 january_15
                 DEFAULT_PREFERENCES)
       /\ lateMinutes res = 10.
Proof.
  split.
  - refine (proj1 saturday_exclusion saturday_long_lunch _ _
              (punch "Ana" (at_ 2024 1 6 9 0 0) TIn None) _ _);
      reflexivity.
  - eexists. split; [left; reflexivity|].
    refine (eq_trans
              (proj1 (proj2 (proj2 saturday_exclusion) friday_and_saturday
                        january_1 january_15 DEFAULT_PREFERENCES _ _ _))
              _).
    + by vm_compute.
    + left. reflexivity.
    + reflexivity.
Defined.

(** What the aggregation adds for a weekend bucket inside the period
    that holds two punches or more. *)
Lemma day_step_weekend_hours schedule preferences startDate endDate t date
    dayRecords first lastR :
  isWeekend (parse_date date) = true ->
  isWithinInterval (parse_date date) startDate endDate = true ->
  (2 <= length dayRecords)%nat ->
  head dayRecords = Some first ->
  last dayRecords = Some lastR ->
  totalSaturdayHours
    (day_step schedule preferences startDate endDate t (date, dayRecords))
  = number_add (totalSaturdayHours t)
      (number_div
         (inject_Z (differenceInMinutes (Fecha_Hora lastR)
                                        (Fecha_Hora first)))
         60).
Proof.
  intros Hw Hi Hlen Hhead Hlast. unfold day_step.
  rewrite Hw, Hi, Hhead, Hlast, (proj2 (Nat.leb_le _ _) Hlen).
  reflexivity.
Qed.

(** C1 at the failing input: Ana's only punches are on Sunday
    2024-01-07, 09:00 and 13:30, and her [saturdayHours] are 4.5. *)
Theorem sunday_counted_in_saturdayHours :
  Forall (fun r => getDay (Fecha_Hora r) = 0) sunday_shift
  /\ map saturdayHours
       (analyzeAttendance sunday_shift january_1 january_15
          DEFAULT_PREFERENCES)
     = [(9 # 2)%Q].
Proof. split; [repeat constructor | by vm_compute]. Qed.

(** ** Moving a day's punches to another date *)

Section Shift.
Variable k : Z.

Lemma timeOf_shift r : timeOf (shift_days k r) = timeOf r + k * 86400.
Proof. unfold timeOf, getTime. simpl. lia. Qed.

Lemma minutesOfDay_shift r :
  minutesOfDay (Fecha_Hora (shift_days k r)) = minutesOfDay (Fecha_Hora r).
Proof. reflexivity. Qed.

Lemma differenceInMinutes_shift a b :
  differenceInMinutes (Fecha_Hora (shift_days k a))
                      (Fecha_Hora (shift_days k b))
  = differenceInMinutes (Fecha_Hora a) (Fecha_Hora b).
Proof.
  unfold differenceInMinutes.
  change (getTime (Fecha_Hora ?r)) with (timeOf r).
  rewrite !timeOf_shift. f_equal. lia.
Qed.

Lemma getDay_shift r :
  getDay (Fecha_Hora (shift_days k r)) = (getDay (Fecha_Hora r) + k) mod 7.
Proof.
  unfold getDay. simpl. rewrite Zplus_mod_idemp_l. f_equal. lia.
Qed.

Lemma insert_by_time_shift r l :
  insert_by_time (shift_days k r) (map (shift_days k) l)
  = map (shift_days k) (insert_by_time r l).
Proof.
  induction l as [|x l IH]; simpl; [done|].
  rewrite !timeOf_shift.
  replace (timeOf r + k * 86400 <=? timeOf x + k * 86400)
    with (timeOf r <=? timeOf x)
    by (destruct (Z.leb_spec (timeOf r) (timeOf x));
        symmetry; [apply Z.leb_le | apply Z.leb_gt]; lia).
  destruct (timeOf r <=? timeOf x); simpl; [done | by rewrite IH].
Qed.

Lemma sort_by_time_shift l :
  sort_by_time (map (shift_days k) l) = map (shift_days k) (sort_by_time l).
Proof.
  induction l as [|x l IH]; simpl; [done|].
  by rewrite IH, insert_by_time_shift.
Qed.

Lemma differs_shift preferences a b :
  differs preferences (shift_days k a) (shift_days k b)
  = differs preferences a b.
Proof. unfold differs. by rewrite differenceInMinutes_shift. Qed.

Lemma keep_after_shift preferences l : forall x,
  keep_after preferences (shift_days k x) (map (shift_days k) l)
  = map (shift_days k) (keep_after preferences x l).
Proof.
  induction l as [|y l IH]; intros x; simpl; [done|].
  rewrite differs_shift. destruct (differs preferences x y); simpl;
    by rewrite IH.
Qed.

Lemma filterDuplicateRecords_shift records preferences :
  filterDuplicateRecords (map (shift_days k) records) preferences
  = map (shift_days k) (filterDuplicateRecords records preferences).
Proof.
  rewrite !filterDuplicateRecords_keep, sort_by_time_shift.
  destruct (sort_by_time records) as [|x l]; simpl; [done|].
  by rewrite keep_after_shift.
Qed.

Lemma find_is_break_shift op l :
  List.find (is_break op) (map (shift_days k) l)
  = option_map (shift_days k) (List.find (is_break op) l).
Proof.
  induction l as [|x l IH]; simpl; [done|].
  change (is_break op (shift_days k x)) with (is_break op x).
  by destruct (is_break op x).
Qed.

Lemma breakDuration_shift l :
  breakDuration (map (shift_days k) l) = breakDuration l.
Proof.
  unfold breakDuration. rewrite !find_is_break_shift.
  destruct (List.find (is_break "Out") l), (List.find (is_break "In") l);
    cbn [option_map]; try done.
  by rewrite differenceInMinutes_shift.
Qed.

Lemma head_map_shift l :
  head (map (shift_days k) l) = option_map (shift_days k) (head l).
Proof. by destruct l. Qed.

Lemma last_map_shift l :
  last (map (shift_days k) l) = option_map (shift_days k) (last l).
Proof.
  induction l as [|x l IH]; simpl; [done|].
  destruct l; simpl in *; [done | by rewrite IH].
Qed.

(** The evaluator only looks at the date to see whether the first punch
    is on a Saturday. *)
Lemma analyzeDayRecords_shift records schedule preferences first :
  head (filterDuplicateRecords records preferences) = Some first ->
  getDay (Fecha_Hora first) <> 6 ->
  getDay (Fecha_Hora (shift_days k first)) <> 6 ->
  analyzeDayRecords (map (shift_days k) records) schedule preferences
  = analyzeDayRecords records schedule preferences.
Proof.
  intros Hhead Hday Hday'. unfold analyzeDayRecords. cbv zeta.
  rewrite filterDuplicateRecords_shift, head_map_shift, last_map_shift.
  rewrite Hhead. destruct (head_Some_last _ _ Hhead) as [lastR ->].
  cbn [option_map].
  destruct (Z.eqb_spec (getDay (Fecha_Hora (shift_days k first))) 6);
    [done|].
  destruct (Z.eqb_spec (getDay (Fecha_Hora first)) 6); [done|].
  rewrite breakDuration_shift, differenceInMinutes_shift,
    !minutesOfDay_shift.
  unfold lunch. rewrite breakDuration_shift. reflexivity.
Qed.
End Shift.

(** C10. A punch list whose first (earliest) punch is on a Sunday is
    evaluated by [analyzeDayRecords] exactly as the same punches moved
    to any day from Monday to Friday of the following week: the
    Saturday short-circuit does not apply, and lateness, the 8-hour
    overtime gate and the lunch overrun are computed against the given
    schedule.  A direct caller can so receive nonzero [lateMinutes],
    [lateHours] and [overtimeHours] for a Sunday. *)
Theorem sunday_evaluated_as_weekday :
  (forall records schedule preferences first k,
     head (sort_by_time records) = Some first ->
     getDay (Fecha_Hora first) = 0 ->
     1 <= k <= 5 ->
     analyzeDayRecords records schedule preferences
     = analyzeDayRecords (map (shift_days k) records) schedule preferences)
  /\ (forall first,
        head (sort_by_time sunday_late_and_long) = Some first ->
        getDay (Fecha_Hora first) = 0
        /\ analyzeDayRecords sunday_late_and_long
             (regularSchedule DEFAULT_PREFERENCES) DEFAULT_PREFERENCES
           = {| Day.lateMinutes := 10;
                Day.overtimeHours := (0 + 1)%Q;
                Day.lateHours := (0 + (1 # 2))%Q |}).
Proof.
  split.
  - intros records schedule preferences first k Hhead Hsun Hk.
    rewrite <- head_filterDuplicateRecords with (preferences := preferences)
      in Hhead.
    symmetry. apply (analyzeDayRecords_shift k _ _ _ first Hhead).
    + rewrite Hsun. lia.
    + rewrite getDay_shift, Hsun. rewrite Z.mod_small; lia.
  - intros first [= <-]. split; reflexivity.
Qed.

Lemma sunday_evaluated_as_weekday_witness :
  analyzeDayRecords sunday_late_and_long
    (regularSchedule DEFAULT_PREFERENCES) DEFAULT_PREFERENCES
  = analyzeDayRecords (map (shift_days 1) sunday_late_and_long)
      (regularSchedule DEFAULT_PREFERENCES) DEFAULT_PREFERENCES.
Proof.
  refine (proj1 sunday_evaluated_as_weekday sunday_late_and_long _ _
            (punch "Ana" (at_ 2024 1 7 8 10 0) TIn None) 1 _ _ _).
  - reflexivity.
  - reflexivity.
  - lia.
Defined.

(** ** The scenarios of the specification *)

(** Scenario 1: in at 08:10 on a weekday under the regular schedule. *)
Example scenario_late_arrival :
  let r := analyzeDayRecords [punch "Ana" (at_ 2024 1 8 8 10 0) TIn None]
             (regularSchedule DEFAULT_PREFERENCES) DEFAULT_PREFERENCES in
  Day.lateMinutes r = 10 /\ (Day.lateHours r == 1 # 2)%Q.
Proof. split; reflexivity. Qed.

(** Scenario 3: two punches two minutes apart of the same kind. *)
Example scenario_duplicate :
  filterDuplicateRecords
    [ punch "Ana" (at_ 2024 1 8 8 0 0) TIn None;
      punch "Ana" (at_ 2024 1 8 8 2 0) TIn None ] DEFAULT_PREFERENCES
  = [ punch "Ana" (at_ 2024 1 8 8 0 0) TIn None ].
Proof. reflexivity. Qed.

(** Scenario 4: Beto is absent on Tuesday, Ana is not. *)
Example scenario_absence :
  map (fun res => (name res, absences res))
    (analyzeAttendance ana_and_beto january_1 january_15 DEFAULT_PREFERENCES)
  = [("Ana", 0%nat); ("Beto", 1%nat)].
Proof. reflexivity. Qed.

(** Scenario 6: a Saturday bucket from 09:00 to 13:30. *)
Example scenario_saturday :
  Forall (fun res => (saturdayHours res == 9 # 2)%Q
                     /\ lateMinutes res = 0
                     /\ (lateHours res == 0)%Q
                     /\ (overtimeHours res == 0)%Q)
    (analyzeAttendance
       [ punch "Ana" (at_ 2024 1 6 9 0 0) TIn None;
         punch "Ana" (at_ 2024 1 6 13 30 0) TOut None ]
       january_1 january_15 DEFAULT_PREFERENCES).
Proof. repeat constructor. Qed.

(** * Further properties of the analysis engine *)

(** ** What the duplicate filter keeps and drops *)

Lemma keep_after_chain preferences l : forall x,
  Sorted (differs_from preferences) (x :: keep_after preferences x l).
Proof.
  induction l as [|y l IH]; intros x; simpl.
  - repeat constructor.
  - destruct (differs preferences x y) eqn:Hd; [|apply IH].
    constructor; [apply IH|]. by constructor.
Qed.

Lemma keep_after_covers preferences l : forall x,
  StronglySorted by_time (x :: l) ->
  forall r, In r l ->
    exists k, In k (x :: keep_after preferences x l)
              /\ (k = r \/ duplicate_of preferences k r).
Proof.
  induction l as [|y l IH]; intros x Hs r Hr; [done|].
  apply StronglySorted_inv in Hs as [Hs Hx].
  apply Forall_cons in Hx as [Hxy Hx].
  simpl. destruct (differs preferences x y) eqn:Hd.
  - destruct Hr as [->|Hr].
    + exists r. split; [right; by left | by left].
    + destruct (IH y Hs r Hr) as (k & Hk & Hkr).
      exists k. split; [by right | done].
  - destruct Hr as [->|Hr].
    + exists x. split; [by left|]. right.
      unfold differs in Hd.
      apply orb_false_iff in Hd as [Hd Hop].
      apply orb_false_iff in Hd as [Hdiff Hkind].
      apply negb_false_iff, bool_decide_eq_true in Hop, Hkind.
      apply Z.ltb_ge in Hdiff. by repeat split.
    + apply (IH x); [|done].
      apply StronglySorted_inv in Hs as [Hs _]. by constructor.
Qed.

Lemma filterDuplicateRecords_chain records preferences :
  Sorted (differs_from preferences)
         (filterDuplicateRecords records preferences).
Proof.
  rewrite filterDuplicateRecords_keep.
  destruct (sort_by_time records); simpl;
    [constructor | apply keep_after_chain].
Qed.

Lemma filterDuplicateRecords_In records preferences r :
  In r (filterDuplicateRecords records preferences) -> In r records.
Proof.
  rewrite filterDuplicateRecords_keep.
  intros Hr%list_elem_of_In. apply list_elem_of_In.
  rewrite <- (sort_by_time_perm records).
  eapply elem_of_sublist; [exact Hr | apply keep_first_sublist].
Qed.

(** X1. In the output of the duplicate filter every record differs from
    the one before it (more than the window later, or of another kind
    or operation); every kept record is a record of the input; and every
    record of the input is either kept or repeats a kept record that is
    not later than it. *)
Theorem filterDuplicateRecords_keeps_and_drops records preferences :
  let kept := filterDuplicateRecords records preferences in
  Sorted (differs_from preferences) kept
  /\ (forall r, In r kept -> In r records)
  /\ (forall r, In r records ->
        exists k, In k kept /\ (k = r \/ duplicate_of preferences k r)).
Proof.
  intros kept. subst kept.
  split; [apply filterDuplicateRecords_chain|].
  split; [intros r; apply filterDuplicateRecords_In|].
  rewrite filterDuplicateRecords_keep.
  pose proof (sort_by_time_sorted records) as Hsorted.
  pose proof (sort_by_time_perm records) as Hperm.
  intros r Hr. apply list_elem_of_In in Hr. rewrite <- Hperm in Hr.
  apply list_elem_of_In in Hr.
  destruct (sort_by_time records) as [|x l]; [done|]. simpl.
  destruct Hr as [->|Hr]; [exists r; split; [by left | by left]|].
  by apply keep_after_covers.
Qed.

(** X2. The duplicate filter returns the empty list only for the empty
    list, and its first record is a record of the input with the
    earliest timestamp. *)
Theorem filterDuplicateRecords_first records preferences :
  (filterDuplicateRecords records preferences = [] <-> records = [])
  /\ (forall first,
        head (filterDuplicateRecords records preferences) = Some first ->
        In first records
        /\ forall r, In r records -> timeOf first <= timeOf r).
Proof.
  rewrite filterDuplicateRecords_keep.
  pose proof (sort_by_time_sorted records) as Hsorted.
  pose proof (sort_by_time_perm records) as Hperm.
  destruct (sort_by_time records) as [|x l] eqn:Hsort; simpl.
  - apply Permutation_nil in Hperm. subst. split; [done|]. by intros.
  - split.
    + split; [done|]. intros ->. by apply Permutation_nil_r in Hperm.
    + intros first [= <-]. split.
      * apply list_elem_of_In. rewrite <- Hperm. by left.
      * intros r Hr. apply list_elem_of_In in Hr. rewrite <- Hperm in Hr.
        apply StronglySorted_inv in Hsorted as [_ Hx].
        apply elem_of_cons in Hr as [->|Hr]; [lia|].
        rewrite Forall_forall in Hx. by apply Hx.
Qed.

Lemma filterDuplicateRecords_first_witness :
  In (punch "Ana" (at_ 2024 1 8 8 5 0) TIn None) monday_0805.
Proof.
  refine (proj1 (proj2 (filterDuplicateRecords_first monday_0805
                          DEFAULT_PREFERENCES) _ _)).
  reflexivity.
Defined.

(** ** Independence of the row order *)

Lemma sort_by_time_order records records' :
  records ≡ₚ records' ->
  distinct_times records ->
  sort_by_time records = sort_by_time records'.
Proof.
  intros Hperm Hdistinct.
  apply (StronglySorted_unique_strong by_time).
  - intros a b Ha Hb Hab Hba.
    rewrite sort_by_time_perm in Ha. rewrite sort_by_time_perm in Hb.
    rewrite <- Hperm in Hb.
    apply Hdistinct; [by apply list_elem_of_In..|].
    unfold by_time in *. lia.
  - apply sort_by_time_sorted.
  - apply sort_by_time_sorted.
  - by rewrite !sort_by_time_perm.
Qed.

(** X3. When punches with the same timestamp are identical rows, the
    duplicate filter and the daily evaluator give the same result for
    every order of the rows. *)
Theorem row_order_irrelevant records records' schedule preferences :
  records ≡ₚ records' ->
  distinct_times records ->
  filterDuplicateRecords records preferences
  = filterDuplicateRecords records' preferences
  /\ analyzeDayRecords records schedule preferences
     = analyzeDayRecords records' schedule preferences.
Proof.
  intros Hperm Hdistinct.
  assert (filterDuplicateRecords records preferences
          = filterDuplicateRecords records' preferences) as Heq.
  { rewrite !filterDuplicateRecords_keep.
    by rewrite (sort_by_time_order _ _ Hperm Hdistinct). }
  split; [done|]. unfold analyzeDayRecords. by rewrite Heq.
Qed.

Lemma row_order_irrelevant_witness :
  filterDuplicateRecords monday_0805 DEFAULT_PREFERENCES
  = filterDuplicateRecords (rev monday_0805) DEFAULT_PREFERENCES.
Proof.
  refine (proj1 (row_order_irrelevant monday_0805 (rev monday_0805)
                   (regularSchedule DEFAULT_PREFERENCES)
                   DEFAULT_PREFERENCES _ _)).
  - apply Permutation_swap.
  - intros a b [<-|[<-|[]]] [<-|[<-|[]]]; (reflexivity || discriminate).
Defined.

Lemma filterDuplicateRecords_keeps_and_drops_witness :
  In (punch "Ana" (at_ 2024 1 8 8 5 0) TIn None) monday_0805.
Proof.
  refine (proj1 (proj2 (filterDuplicateRecords_keeps_and_drops monday_0805
                          DEFAULT_PREFERENCES)) _ _).
  left. reflexivity.
Defined.

(** ** Grouping, continued *)

Section GroupingEntries.
Context {K : Type} `{EqDecision K} (key : AttendanceRecord -> K).

Local Abbreviation step :=
  (fun (acc : list (K * list AttendanceRecord)) r => push_to (key r) r acc).

Lemma assoc_Some_In (acc : list (K * list AttendanceRecord)) k rs :
  assoc k acc = Some rs -> In (k, rs) acc.
Proof.
  induction acc as [|[k0 vs] acc IH]; simpl; [done|].
  case_decide; [intros [= ->]; subst; by left | right; by apply IH].
Qed.

Lemma group_entries_nonempty l k rs :
  In (k, rs) (fold_left step l []) -> rs <> [].
Proof.
  intros Hin. apply assoc_In in Hin; [|apply group_NoDup; constructor].
  rewrite assoc_group in Hin. simpl in Hin.
  destruct (List.filter _ l); [done|]. by intros ->.
Qed.

Lemma group_complete l k :
  List.filter (fun r => bool_decide (key r = k)) l <> [] ->
  In (k, List.filter (fun r => bool_decide (key r = k)) l)
     (fold_left step l []).
Proof.
  intros Hne. apply assoc_Some_In. rewrite assoc_group. simpl.
  by destruct (List.filter _ l).
Qed.

Lemma push_to_concat (k : K) (v : AttendanceRecord) acc :
  concat (map snd (push_to k v acc)) ≡ₚ v :: concat (map snd acc).
Proof.
  induction acc as [|[k' vs] acc IH]; simpl; [done|].
  case_decide; simpl.
  - rewrite <- app_assoc. simpl.
    by rewrite <- Permutation_middle.
  - rewrite IH. by rewrite <- Permutation_middle.
Qed.

Lemma group_concat l : forall acc,
  concat (map snd (fold_left step l acc)) ≡ₚ concat (map snd acc) ++ l.
Proof.
  induction l as [|x l IH]; intros acc; simpl.
  - by rewrite app_nil_r.
  - rewrite IH, push_to_concat. by rewrite <- Permutation_middle.
Qed.
End GroupingEntries.

Lemma filter_key_In {K} `{EqDecision K} (key : AttendanceRecord -> K) k l r :
  In r (List.filter (fun r => bool_decide (key r = k)) l)
  <-> In r l /\ key r = k.
Proof. by rewrite filter_In, bool_decide_eq_true. Qed.

Lemma filter_sublist {A} (f : A -> bool) (l : list A) :
  sublist (List.filter f l) l.
Proof.
  induction l as [|x l IH]; simpl; [done|].
  destruct (f x); [by apply sublist_skip | by apply sublist_cons].
Qed.

(** X4. [groupByDay] splits a punch list by calendar date: the dates
    of the buckets are pairwise different, no bucket is empty, a bucket
    holds exactly the punches of its date in their order in the list,
    and the buckets together are a rearrangement of the list. *)
Theorem groupByDay_partition records :
  let buckets := groupByDay records in
  NoDup (map fst buckets)
  /\ (forall d rs, In (d, rs) buckets ->
        rs <> []
        /\ rs = List.filter (fun r => bool_decide (date_key r = d)) records)
  /\ (forall r, In r records ->
        exists rs, In (date_key r, rs) buckets /\ In r rs)
  /\ concat (map snd buckets) ≡ₚ records.
Proof.
  intros buckets. subst buckets. unfold groupByDay.
  split; [apply group_NoDup; constructor|].
  split; [|split].
  - intros d rs Hin. split.
    + by apply (group_entries_nonempty date_key) in Hin.
    + by apply (group_entries date_key) in Hin.
  - intros r Hr.
    assert (In r (List.filter
                    (fun r0 => bool_decide (date_key r0 = date_key r))
                    records)) as Hin
      by (by apply filter_key_In).
    eexists. split; [|exact Hin].
    apply (group_complete date_key). by intros Heq; rewrite Heq in Hin.
  - by rewrite (group_concat date_key).
Qed.

Lemma groupByDay_partition_witness :
  exists rs, In (fecha_de 2024 1 8, rs) (groupByDay monday_0805)
             /\ In (punch "Ana" (at_ 2024 1 8 8 5 0) TIn None) rs.
Proof.
  refine (proj1 (proj2 (proj2 (groupByDay_partition monday_0805)))
            (punch "Ana" (at_ 2024 1 8 8 5 0) TIn None) _).
  left. reflexivity.
Defined.

(** ** Bounds on one day's result *)

Lemma late_credit_cases preferences m :
  late_credit preferences m = 0%Q \/ late_credit preferences m = (1 # 2)%Q
  \/ late_credit preferences m = 1%Q.
Proof. unfold late_credit. repeat case_decide; auto. Qed.

Lemma arrival_credit_bounds preferences schedule first :
  (0 <= arrival_credit preferences schedule first <= 1)%Q
  /\ ((0 < arrival_credit preferences schedule first)%Q ->
      0 < arrival_late schedule first).
Proof.
  unfold arrival_credit, arrival_late. case_decide as Hlate.
  - destruct (late_credit_cases preferences
                (minutesOfDay (Fecha_Hora first) - startTime schedule))
      as [-> | [-> | ->]]; (split; [by compute | intros _; lia]).
  - split; [by compute | by intros ?].
Qed.

Lemma lunch_credit_bounds preferences punches :
  (0 <= lunch_credit preferences punches <= 1)%Q
  /\ ((0 < lunch_credit preferences punches)%Q ->
      0 < lunch_excess preferences punches).
Proof.
  unfold lunch_credit, lunch_excess.
  destruct (breakDuration punches) as [duration|];
    [|split; [by compute | by intros ?]].
  case_decide as Hlate.
  - destruct (late_credit_cases preferences
                (duration - lunchDuration preferences))
      as [-> | [-> | ->]]; (split; [by compute | intros _; lia]).
  - split; [by compute | by intros ?].
Qed.

Lemma early_credit_le_1 preferences schedule first :
  (early_credit preferences schedule first <= 1)%Q.
Proof.
  unfold early_credit, early_arrival_credit.
  destruct (_ && _); repeat case_decide; by compute.
Qed.

Lemma evening_credit_bounds schedule preferences departure :
  (0 <= evening_credit schedule preferences departure <= 1)%Q.
Proof. unfold evening_credit. repeat case_decide; by compute. Qed.

Lemma day_result_range records schedule preferences :
  let r := analyzeDayRecords records schedule preferences in
  0 <= Day.lateMinutes r
  /\ (0 <= Day.lateHours r <= 2)%Q
  /\ (0 <= Day.overtimeHours r <= 2)%Q
  /\ ((0 < Day.lateHours r)%Q -> 0 < Day.lateMinutes r).
Proof.
  intros r. subst r.
  destruct (head (filterDuplicateRecords records preferences))
    as [first|] eqn:Hhead;
    [|rewrite analyzeDayRecords_empty by done; by compute].
  destruct (decide (getDay (Fecha_Hora first) = 6)) as [Hsat|Hday];
    [rewrite (analyzeDayRecords_saturday _ _ _ first) by done;
     by compute|].
  destruct (head_Some_last _ _ Hhead) as [lastR Hlast].
  destruct (analyzeDayRecords_eq records schedule preferences first lastR
              Hhead Hlast Hday) as (Hlm & Hlh & Hov).
  set (punches := filterDuplicateRecords records preferences) in *.
  destruct (arrival_credit_bounds preferences schedule first)
    as [[Ha0 Ha1] Ha].
  destruct (lunch_credit_bounds preferences punches) as [[Hl0 Hl1] Hl].
  pose proof (early_credit_nonneg preferences schedule first) as He0.
  pose proof (early_credit_le_1 preferences schedule first) as He1.
  pose proof (evening_credit_bounds schedule preferences
                (minutesOfDay (Fecha_Hora lastR))) as [Hv0 Hv1].
  assert (0 <= arrival_late schedule first) by (unfold arrival_late; lia).
  assert (0 <= lunch_excess preferences punches)
    by (unfold lunch_excess; destruct (breakDuration punches); lia).
  rewrite Hlm, Hlh, Hov.
  split; [lia|]. split; [split; lra|]. split.
  - case_decide; split; (lra || by compute).
  - intros Hpos.
    destruct (Qlt_le_dec 0 (arrival_credit preferences schedule first))
      as [Hpa|Hza]; [specialize (Ha Hpa); lia|].
    assert (0 < lunch_credit preferences punches)%Q as Hpl by lra.
    specialize (Hl Hpl). lia.
Qed.

(** X5. Whatever the punches, the schedule and the thresholds, one
    day's evaluation gives [lateMinutes >= 0], [lateHours] between 0
    and 2 and [overtimeHours] between 0 and 2; and late hours are only
    credited together with late minutes. *)
Theorem analyzeDayRecords_bounds records schedule preferences :
  let r := analyzeDayRecords records schedule preferences in
  0 <= Day.lateMinutes r
  /\ (0 <= Day.lateHours r <= 2)%Q
  /\ (0 <= Day.overtimeHours r <= 2)%Q
  /\ ((0 < Day.lateHours r)%Q -> 0 < Day.lateMinutes r).
Proof. apply day_result_range. Qed.

Lemma analyzeDayRecords_bounds_witness :
  0 < Day.lateMinutes
        (analyzeDayRecords monday_long_lunch
           (regularSchedule DEFAULT_PREFERENCES) DEFAULT_PREFERENCES).
Proof.
  refine (proj2 (proj2 (proj2 (analyzeDayRecords_bounds monday_long_lunch
            (regularSchedule DEFAULT_PREFERENCES) DEFAULT_PREFERENCES))) _).
  reflexivity.
Defined.

Lemma breakDuration_single only : breakDuration [only] = None.
Proof.
  unfold breakDuration. cbn [List.find].
  destruct (is_break "Out" only) eqn:Hout; [|done].
  destruct (is_break "In" only) eqn:Hin; [|done].
  unfold is_break in Hout, Hin.
  apply andb_true_iff in Hout as [_ Hout], Hin as [_ Hin].
  apply bool_decide_eq_true in Hout, Hin. congruence.
Qed.

(** X6. A day on which the worked minutes (last punch minus first
    punch, minus the break) stay below 480 earns no overtime, however
    early the arrival and however late the departure; so does a day
    with a single punch. *)
Theorem short_day_no_overtime records schedule preferences :
  let punches := filterDuplicateRecords records preferences in
  let r := analyzeDayRecords records schedule preferences in
  (forall first lastR,
     head punches = Some first -> last punches = Some lastR ->
     workedMinutes first lastR punches < 480 ->
     (Day.overtimeHours r == 0)%Q)
  /\ (forall only, punches = [only] -> (Day.overtimeHours r == 0)%Q).
Proof.
  intros punches r.
  assert (forall first lastR,
     head punches = Some first -> last punches = Some lastR ->
     workedMinutes first lastR punches < 480 ->
     (Day.overtimeHours r == 0)%Q) as Hshort.
  { intros first lastR Hhead Hlast Hworked.
    destruct (decide (getDay (Fecha_Hora first) = 6)) as [Hsat|Hday].
    - subst r.
      by rewrite (analyzeDayRecords_saturday _ _ _ first).
    - destruct (analyzeDayRecords_eq records schedule preferences first
                  lastR Hhead Hlast Hday) as (_ & _ & Hov).
      fold r punches in Hov. rewrite Hov.
      case_decide; [lia | reflexivity]. }
  split; [exact Hshort|].
  intros only Hone. apply (Hshort only only).
  - by rewrite Hone.
  - by rewrite Hone.
  - rewrite Hone. unfold workedMinutes, differenceInMinutes.
    rewrite breakDuration_single, Z.sub_diag. by compute.
Qed.

Lemma short_day_no_overtime_witness :
  (Day.overtimeHours
     (analyzeDayRecords [punch "Ana" (at_ 2024 1 8 6 0 0) TIn None]
        (regularSchedule DEFAULT_PREFERENCES) DEFAULT_PREFERENCES) == 0)%Q.
Proof.
  refine (proj2 (short_day_no_overtime
                   [punch "Ana" (at_ 2024 1 8 6 0 0) TIn None]
                   (regularSchedule DEFAULT_PREFERENCES)
                   DEFAULT_PREFERENCES) _ _).
  reflexivity.
Defined.

(** ** The results of the period aggregator *)

Lemma analyzeAttendance_names records startDate endDate preferences :
  map name (analyzeAttendance records startDate endDate preferences)
  = map fst (groupByName records).
Proof.
  unfold analyzeAttendance. cbv zeta. rewrite map_map.
  apply map_ext. by intros [n rs].
Qed.

Lemma analyzeAttendance_complete records startDate endDate preferences n :
  recordsOf n records <> [] ->
  In (analyzeUser (getCompanyWorkdays records startDate endDate)
        startDate endDate preferences (n, recordsOf n records))
     (analyzeAttendance records startDate endDate preferences).
Proof.
  intros Hne. unfold analyzeAttendance. cbv zeta. apply in_map.
  by apply (group_complete Nombre).
Qed.

(** *** The call on arbitrary names *)

Lemma add_record_thrown records message :
  fold_left Js.add_record records (Thrown message) = Thrown message.
Proof. by induction records. Qed.

Lemma reduce_by_name records : forall own,
  Forall (fun k => k ∉ Js.inherited) (map fst own) ->
  fold_left Js.add_record records (Returned own)
  = if decide (Exists (fun r => Nombre r ∈ Js.inherited) records)
    then Thrown Js.not_a_function
    else Returned (fold_left (fun acc r => push_to (Nombre r) r acc)
                             records own).
Proof.
  induction records as [|x records IH]; intros own Hown.
  - cbn [fold_left]. destruct (decide _) as [Hex|]; [inversion Hex | done].
  - cbn [fold_left].
    assert (Nombre x ∉ Js.inherited ->
            Forall (fun k => k ∉ Js.inherited)
                   (map fst (push_to (Nombre x) x own))) as Hkeys.
    { intros Hx. apply Forall_forall. intros k Hk.
      apply list_elem_of_In, (push_to_keys Nombre) in Hk as [Hk| ->];
        [|done].
      rewrite Forall_forall in Hown. by apply Hown, list_elem_of_In. }
    assert (Nombre x ∉ Js.inherited ->
            Js.add_record (Returned own) x
            = Returned (push_to (Nombre x) x own)) as Hstep.
    { intros Hx. unfold Js.add_record.
      destruct (assoc (Nombre x) own); [done|].
      by rewrite (bool_decide_eq_false_2 _ Hx). }
    destruct (decide (Nombre x ∈ Js.inherited)) as [Hx|Hx].
    + assert (assoc (Nombre x) own = None) as Hnone.
      { destruct (assoc (Nombre x) own) as [rs|] eqn:Hrs; [|done].
        apply assoc_Some_In in Hrs. exfalso.
        rewrite Forall_forall in Hown.
        apply (Hown (Nombre x)); [|done].
        apply list_elem_of_In, in_map_iff. by exists (Nombre x, rs). }
      unfold Js.add_record at 2. rewrite Hnone.
      rewrite (bool_decide_eq_true_2 _ Hx), add_record_thrown.
      destruct (decide (Exists _ (x :: records))) as [|Hex]; [done|].
      exfalso. apply Hex. by left.
    + rewrite (Hstep Hx), (IH _ (Hkeys Hx)).
      destruct (decide (Exists _ records)) as [Hex|Hex],
        (decide (Exists _ (x :: records))) as [Hex'|Hex']; try done.
      * exfalso. apply Hex'. by right.
      * exfalso. by apply Exists_cons in Hex' as [?|?].
Qed.

Lemma Js_groupByName records :
  Js.groupByName records
  = if decide (Exists (fun r => Nombre r ∈ Js.inherited) records)
    then Thrown Js.not_a_function
    else Returned (groupByName records).
Proof. apply reduce_by_name. constructor. Qed.

Lemma insert_by_index_perm {V} (x : N * V) l :
  Js.insert_by_index x l ≡ₚ x :: l.
Proof.
  induction l as [|y l IH]; simpl; [done|].
  destruct (_ <=? _)%N; [done|]. by rewrite IH, Permutation_swap.
Qed.

Lemma sort_by_index_perm {V} (l : list (N * V)) : Js.sort_by_index l ≡ₚ l.
Proof.
  induction l as [|x l IH]; simpl; [done|].
  by rewrite insert_by_index_perm, IH.
Qed.

Lemma insert_by_index_sorted {V} (x : N * V) l :
  StronglySorted (fun a b => (fst a <= fst b)%N) l ->
  StronglySorted (fun a b => (fst a <= fst b)%N) (Js.insert_by_index x l).
Proof.
  induction 1 as [|y l Hs IH Hy]; simpl; [repeat constructor|].
  destruct (N.leb_spec (fst x) (fst y)).
  - constructor; [by constructor|]. constructor; [done|].
    eapply Forall_impl; [exact Hy|]. simpl. intros. lia.
  - constructor; [done|]. rewrite insert_by_index_perm.
    constructor; [lia | done].
Qed.

Lemma sort_by_index_sorted {V} (l : list (N * V)) :
  StronglySorted (fun a b => (fst a <= fst b)%N) (Js.sort_by_index l).
Proof.
  induction l; simpl; [constructor | by apply insert_by_index_sorted].
Qed.

Lemma indexed_filter {V} (own : list (string * V)) :
  map snd (Js.indexed own)
  = List.filter (fun entry => Js.is_index (fst entry)) own.
Proof.
  induction own as [|entry own IH]; [done|].
  cbn [Js.indexed List.filter]. unfold Js.is_index at 1.
  destruct (Js.array_index (fst entry)) eqn:Hi.
  - rewrite bool_decide_eq_true_2 by done. cbn [map snd]. by rewrite IH.
  - by rewrite bool_decide_eq_false_2 by (by intros [? ?]).
Qed.

Lemma indexed_index {V} (own : list (string * V)) :
  Forall (fun x => Js.array_index (fst (snd x)) = Some (fst x))
         (Js.indexed own).
Proof.
  induction own as [|entry own IH]; simpl; [constructor|].
  destruct (Js.array_index (fst entry)) eqn:Hi; [by constructor | done].
Qed.

Lemma filter_partition {A} (f : A -> bool) (l : list A) :
  List.filter f l ++ List.filter (fun x => negb (f x)) l ≡ₚ l.
Proof.
  induction l as [|x l IH]; [done|]. simpl. destruct (f x); simpl.
  - by rewrite IH.
  - by rewrite <- Permutation_middle, IH.
Qed.

Lemma Object_entries_perm {V} (own : list (string * V)) :
  Js.Object_entries own ≡ₚ own.
Proof.
  unfold Js.Object_entries.
  rewrite sort_by_index_perm, indexed_filter. apply filter_partition.
Qed.

Lemma Object_entries_ordinary {V} (own : list (string * V)) :
  Forall (fun entry => Js.array_index (fst entry) = None) own ->
  Js.Object_entries own = own.
Proof.
  intros Hown. unfold Js.Object_entries.
  assert (Js.indexed own = []) as ->.
  { induction Hown as [|entry own Hentry _ IH]; [done|]. simpl.
    by rewrite Hentry. }
  simpl. induction Hown as [|entry own Hentry _ IH]; [done|]. simpl.
  unfold Js.is_index at 1. rewrite Hentry.
  rewrite bool_decide_eq_false_2 by (by intros [? ?]). simpl.
  by rewrite IH.
Qed.

Lemma filter_map {A B} (p : B -> bool) (f : A -> B) (l : list A) :
  List.filter p (map f l) = map f (List.filter (fun x => p (f x)) l).
Proof.
  induction l as [|x l IH]; [done|]. simpl.
  destruct (p (f x)); simpl; by rewrite IH.
Qed.

Lemma StronglySorted_map {A B} (R : relation A) (R' : relation B)
    (P : A -> Prop) (g : A -> B) (l : list A) :
  (forall a b, P a -> P b -> R a b -> R' (g a) (g b)) ->
  Forall P l -> StronglySorted R l -> StronglySorted R' (map g l).
Proof.
  intros Hg HP Hs. induction Hs as [|a l Hs IH Ha]; simpl; [constructor|].
  apply Forall_cons in HP as [HPa HP].
  constructor; [by apply IH|].
  rewrite Forall_forall in Ha, HP. apply Forall_forall.
  intros b (x & <- & Hx)%list_elem_of_In%in_map_iff.
  apply list_elem_of_In in Hx. apply Hg; auto.
Qed.

Lemma analyzeUser_name companyWorkdays startDate endDate preferences entry :
  name (analyzeUser companyWorkdays startDate endDate preferences entry)
  = fst entry.
Proof. by destruct entry. Qed.

(** When the call returns, its results are those of the list
    [analyzeAttendance] up to their order; so what is proved of every
    [res] with [In res (analyzeAttendance ...)] holds of every result of
    the call. *)
Lemma returned_results records startDate endDate preferences out :
  Js.analyzeAttendance records startDate endDate preferences = Returned out ->
  out ≡ₚ analyzeAttendance records startDate endDate preferences
  /\ forall res,
       In res out
       <-> In res (analyzeAttendance records startDate endDate preferences).
Proof.
  unfold Js.analyzeAttendance. cbv zeta. rewrite Js_groupByName.
  destruct (decide _); [done|]. intros [= <-].
  assert (map (analyzeUser (getCompanyWorkdays records startDate endDate)
                 startDate endDate preferences)
              (Js.Object_entries (groupByName records))
          ≡ₚ analyzeAttendance records startDate endDate preferences)
    as Hperm by apply Permutation_map, Object_entries_perm.
  split; [done|]. intros res.
  split; apply Permutation_in; [done | by symmetry].
Qed.

(** X7. The call of [analyzeAttendance] throws exactly when the name of
    some row is the name of a property that every object inherits.
    When it returns, it returns one result for each employee name of
    the input and no other: the results are those of the list
    [analyzeAttendance] in some order, their names are pairwise
    different and are the names that occur, and the drill-down map and
    the schedule of a result are computed from the duplicate-filtered
    punches of that name alone.  The results whose names are array
    indices come first, by ascending index, and the others follow in the
    order in which the names first occur; for names that are neither
    inherited nor array indices the call returns the list itself. *)
Theorem one_result_per_employee records startDate endDate preferences :
  let call := Js.analyzeAttendance records startDate endDate preferences in
  let listed := analyzeAttendance records startDate endDate preferences in
  (is_thrown call
   <-> exists r, In r records /\ Nombre r ∈ Js.inherited)
  /\ (forall out, call = Returned out ->
        out ≡ₚ listed
        /\ NoDup (map name out)
        /\ (forall n, In n (map name out)
                      <-> exists r, In r records /\ Nombre r = n)
        /\ (forall res, In res out ->
              let kept :=
                filterDuplicateRecords (recordsOf (name res) records)
                                       preferences in
              dailyRecords res = groupByDay kept
              /\ schedule res = detectSchedule kept preferences)
        /\ exists indices,
             out = indices
                   ++ List.filter
                        (fun res => negb (Js.is_index (name res))) listed
             /\ Forall (fun res => Js.is_index (name res) = true) indices
             /\ StronglySorted index_order indices)
  /\ ((forall r, In r records -> ordinary_name (Nombre r)) ->
      call = Returned listed).
Proof.
  intros call listed. subst call listed.
  unfold Js.analyzeAttendance. cbv zeta. rewrite Js_groupByName.
  set (f := analyzeUser (getCompanyWorkdays records startDate endDate)
              startDate endDate preferences).
  assert (analyzeAttendance records startDate endDate preferences
          = map f (groupByName records)) as Hlisted by done.
  split; [|split].
  - case_decide as Hex.
    + split; [|by eexists]. intros _.
      apply Exists_exists in Hex as (r & Hr & Hin).
      exists r. split; [by apply list_elem_of_In | done].
    + split; [by intros [? ?]|]. intros (r & Hr & Hin). exfalso.
      apply Hex, Exists_exists. exists r.
      split; [by apply list_elem_of_In | done].
  - intros out Hout. case_decide; [done|]. injection Hout as <-.
    assert (map f (Js.Object_entries (groupByName records))
            ≡ₚ analyzeAttendance records startDate endDate preferences)
      as Hperm.
    { rewrite Hlisted. apply Permutation_map, Object_entries_perm. }
    split_and!.
    + exact Hperm.
    + rewrite Hperm, analyzeAttendance_names.
      apply group_NoDup. constructor.
    + intros n.
      assert (In n (map name
                      (map f (Js.Object_entries (groupByName records))))
              <-> In n (map name (analyzeAttendance records startDate
                                    endDate preferences))) as ->.
      { split; apply Permutation_in; [|symmetry];
          by apply Permutation_map. }
      rewrite analyzeAttendance_names. unfold groupByName.
      rewrite (group_keys Nombre). simpl. tauto.
    + intros res Hres.
      apply (Permutation_in _ Hperm) in Hres.
      pose proof (analyzeAttendance_In _ _ _ _ _ Hres) as Heq.
      by rewrite Heq.
    + exists (map f (map snd (Js.sort_by_index
                                (Js.indexed (groupByName records))))).
      split_and!.
      * unfold Js.Object_entries. rewrite map_app. f_equal.
        rewrite Hlisted, filter_map. f_equal.
        apply filter_ext. intros entry. unfold f.
        by rewrite analyzeUser_name.
      * apply Forall_forall.
        intros res (entry & <- & Hentry)%list_elem_of_In%in_map_iff.
        unfold f. rewrite analyzeUser_name.
        assert (In entry (map snd (Js.indexed (groupByName records))))
          as Hin.
        { eapply Permutation_in; [|exact Hentry].
          apply Permutation_map, sort_by_index_perm. }
        rewrite indexed_filter in Hin.
        by apply filter_In in Hin as [_ ?].
      * rewrite map_map.
        apply (StronglySorted_map
                 (fun a b => (fst a <= fst b)%N) index_order
                 (fun x => Js.array_index (fst (snd x)) = Some (fst x))).
        -- intros a b Ha Hb Hab. exists (fst a), (fst b). unfold f.
           by rewrite !analyzeUser_name.
        -- rewrite sort_by_index_perm. apply indexed_index.
        -- apply sort_by_index_sorted.
  - intros Hordinary. case_decide as Hex.
    + exfalso. apply Exists_exists in Hex as (r & Hr & Hin).
      apply list_elem_of_In in Hr. by destruct (Hordinary r Hr).
    + rewrite Object_entries_ordinary; [done|].
      apply Forall_forall. intros [n rs] Hin. simpl.
      assert (In n (map fst (groupByName records))) as Hn.
      { apply in_map_iff. exists (n, rs). split; [done|].
        by apply list_elem_of_In. }
      unfold groupByName in Hn. rewrite (group_keys Nombre) in Hn.
      destruct Hn as [[]|(r & Hr & <-)]. by destruct (Hordinary r Hr).
Qed.

Lemma one_result_per_employee_witness :
  exists out,
    Js.analyzeAttendance numbered_names january_1 january_15
      DEFAULT_PREFERENCES = Returned out
    /\ map name out = ["7"; "10"; "Beto"; "Ana"]
    /\ NoDup (map name out).
Proof.
  eexists. split; [reflexivity|]. split; [reflexivity|].
  exact (proj1 (proj2 (proj1 (proj2
           (one_result_per_employee numbered_names january_1 january_15
              DEFAULT_PREFERENCES)) _ eq_refl))).
Defined.

(** An employee called "constructor" makes the call throw. *)
Example inherited_name_throws :
  Js.analyzeAttendance inherited_name january_1 january_15
    DEFAULT_PREFERENCES
  = Thrown "TypeError: acc[name].push is not a function".
Proof. reflexivity. Qed.

(** X8. The punches of the other employees reach the result of an
    employee through the absences only: two inputs in which the
    employee has the same punches give results that differ at most in
    [absences], and not at all when the company workdays agree. *)
Theorem other_employees_only_change_absences records records'
    startDate endDate preferences res res' :
  In res (analyzeAttendance records startDate endDate preferences) ->
  In res' (analyzeAttendance records' startDate endDate preferences) ->
  name res' = name res ->
  recordsOf (name res) records' = recordsOf (name res) records ->
  res' = with_absences (absences res') res
  /\ (getCompanyWorkdays records' startDate endDate
      = getCompanyWorkdays records startDate endDate -> res' = res).
Proof.
  intros Hres Hres' Hname Hsame.
  rewrite (analyzeAttendance_In _ _ _ _ _ Hres).
  rewrite (analyzeAttendance_In _ _ _ _ _ Hres').
  rewrite Hname, Hsame. split; [reflexivity|]. by intros ->.
Qed.

Lemma other_employees_only_change_absences_witness :
  exists res res',
    In res (analyzeAttendance ana_and_beto january_1 january_15
              DEFAULT_PREFERENCES)
    /\ In res' (analyzeAttendance (recordsOf "Beto" ana_and_beto)
                  january_1 january_15 DEFAULT_PREFERENCES)
    /\ res' = with_absences (absences res') res.
Proof.
  eexists _, _. split; [right; left; reflexivity|].
  split; [left; reflexivity|].
  refine (proj1 (other_employees_only_change_absences ana_and_beto
                   (recordsOf "Beto" ana_and_beto) january_1 january_15
                   DEFAULT_PREFERENCES _ _ _ _ _ _)).
  - right. left. reflexivity.
  - left. reflexivity.
  - reflexivity.
  - reflexivity.
Defined.

Lemma filter_Permutation {A} (f : A -> bool) (l l' : list A) :
  l ≡ₚ l' -> List.filter f l ≡ₚ List.filter f l'.
Proof.
  induction 1 as [|x l l' _ IH|x y l|l l' l'' _ IH _ IH']; simpl.
  - done.
  - destruct (f x); [by constructor | done].
  - destruct (f x), (f y); try done. apply Permutation_swap.
  - by rewrite IH.
Qed.

Lemma getCompanyWorkdays_Permutation records records' startDate endDate :
  records ≡ₚ records' ->
  getCompanyWorkdays records startDate endDate
  = getCompanyWorkdays records' startDate endDate.
Proof.
  intros Hperm. apply set_eq. intros d.
  rewrite !elem_of_getCompanyWorkdays.
  split; intros [(r & Hr & Hd) Hw]; (split; [|done]); exists r;
    (split; [|done]); apply list_elem_of_In; apply list_elem_of_In in Hr.
  - by rewrite <- Hperm.
  - by rewrite Hperm.
Qed.

Lemma analyzeUser_filtered companyWorkdays startDate endDate preferences n
    rs rs' :
  filterDuplicateRecords rs preferences
  = filterDuplicateRecords rs' preferences ->
  analyzeUser companyWorkdays startDate endDate preferences (n, rs)
  = analyzeUser companyWorkdays startDate endDate preferences (n, rs').
Proof. intros Heq. unfold analyzeUser. by rewrite Heq. Qed.

Lemma analyzeAttendance_row_order_1 records records' startDate endDate
    preferences res :
  records ≡ₚ records' ->
  distinct_times_per_employee records ->
  In res (analyzeAttendance records startDate endDate preferences) ->
  In res (analyzeAttendance records' startDate endDate preferences).
Proof.
  intros Hperm Hdistinct Hres.
  pose proof (analyzeAttendance_In _ _ _ _ _ Hres) as Heq.
  set (n := name res) in *.
  assert (recordsOf n records ≡ₚ recordsOf n records') as Hmine
    by (by apply filter_Permutation).
  assert (recordsOf n records <> []) as Hne.
  { unfold analyzeAttendance in Hres. cbv zeta in Hres.
    apply in_map_iff in Hres as ([n' rs] & Hn & Hin).
    assert (n' = n) as -> by (by subst res).
    pose proof (group_entries_nonempty Nombre _ _ _ Hin) as Hrs.
    by rewrite (group_entries Nombre _ _ _ Hin) in Hrs. }
  rewrite Heq, (getCompanyWorkdays_Permutation _ _ _ _ Hperm).
  rewrite (analyzeUser_filtered _ _ _ _ n _ (recordsOf n records')).
  - apply analyzeAttendance_complete. intros Hnil.
    rewrite Hnil in Hmine. by apply Permutation_nil_r in Hmine.
  - rewrite !filterDuplicateRecords_keep.
    rewrite (sort_by_time_order _ _ Hmine); [done|].
    intros a b [Ha Hna]%filter_key_In [Hb Hnb]%filter_key_In.
    apply Hdistinct; congruence.
Qed.

(** X9. When punches of one employee with the same timestamp are
    identical rows, reordering the rows of the input does not change
    the result of any employee: the two outputs hold the same results
    (the order of the employees may differ). *)
Theorem analyzeAttendance_row_order records records' startDate endDate
    preferences :
  records ≡ₚ records' ->
  distinct_times_per_employee records ->
  forall res,
    In res (analyzeAttendance records startDate endDate preferences)
    <-> In res (analyzeAttendance records' startDate endDate preferences).
Proof.
  intros Hperm Hdistinct res. split.
  - by apply analyzeAttendance_row_order_1.
  - apply analyzeAttendance_row_order_1; [done|].
    intros a b Ha%list_elem_of_In Hb%list_elem_of_In.
    rewrite <- Hperm in Ha, Hb. apply Hdistinct; by apply list_elem_of_In.
Qed.

Lemma analyzeAttendance_row_order_witness :
  exists res,
    In res (analyzeAttendance monday_0805 january_1 january_15
              DEFAULT_PREFERENCES)
    /\ In res (analyzeAttendance (rev monday_0805) january_1 january_15
                 DEFAULT_PREFERENCES).
Proof.
  eexists. split; [left; reflexivity|].
  refine (proj1 (analyzeAttendance_row_order monday_0805 (rev monday_0805)
                   january_1 january_15 DEFAULT_PREFERENCES _ _ _) _).
  - apply Permutation_swap.
  - intros a b [<-|[<-|[]]] [<-|[<-|[]]] _;
      (reflexivity || discriminate).
  - left. reflexivity.
Defined.

Lemma dayTotals_outside schedule preferences startDate endDate buckets :
  (forall d, In d (map fst buckets) ->
     isWithinInterval (parse_date d) startDate endDate = false) ->
  forall t,
    fold_left (day_step schedule preferences startDate endDate) buckets t
    = t.
Proof.
  induction buckets as [|[d rs] buckets IH]; intros Hout t; [done|].
  cbn [fold_left]. rewrite IH by (intros; apply Hout; by right).
  unfold day_step. by rewrite (Hout d) by (by left).
Qed.

Lemma filter_none {A} (f : A -> bool) (l : list A) :
  (forall x, In x l -> f x = false) -> List.filter f l = [].
Proof.
  induction l as [|x l IH]; intros Hf; simpl; [done|].
  rewrite (Hf x) by (by left). apply IH. intros; apply Hf; by right.
Qed.

Lemma kept_of_employee records preferences n r :
  In r (filterDuplicateRecords (recordsOf n records) preferences) ->
  In r records /\ Nombre r = n.
Proof.
  intros Hr%filterDuplicateRecords_In. by apply filter_key_In in Hr.
Qed.

(** X10. An employee none of whose punches falls on a date inside the
    period still gets a result: no registered day, no lateness, no
    overtime, no Saturday hours, and an absence for every company
    workday. *)
Theorem no_punch_in_period records startDate endDate preferences res :
  startDate <= endDate ->
  In res (analyzeAttendance records startDate endDate preferences) ->
  (forall r, In r records -> Nombre r = name res ->
     isWithinInterval (parse_date (date_key r)) startDate endDate = false) ->
  daysRegistered res = 0%nat
  /\ lateDays res = 0%nat
  /\ lateMinutes res = 0
  /\ (lateHours res == 0)%Q
  /\ (overtimeHours res == 0)%Q
  /\ (saturdayHours res == 0)%Q
  /\ (totalHours res == 0)%Q
  /\ absences res = size (getCompanyWorkdays records startDate endDate).
Proof.
  intros _ Hres Hout.
  pose proof (absences_size _ _ _ _ _ Hres) as Habs.
  pose proof (analyzeAttendance_In _ _ _ _ _ Hres) as Heq.
  set (n := name res) in *.
  set (kept := filterDuplicateRecords (recordsOf n records) preferences)
    in *.
  assert (forall d, In d (map fst (groupByDay kept)) ->
            isWithinInterval (parse_date d) startDate endDate = false)
    as Hkeys.
  { intros d (r & Hr & <-)%groupByDay_keys%elem_of_datesOf.
    apply kept_of_employee in Hr as [Hr Hn]. by apply Hout. }
  assert (absences res = size (getCompanyWorkdays records startDate endDate))
    as Habs'.
  { rewrite Habs. f_equal. apply set_eq. intros d.
    rewrite elem_of_difference. split; [tauto|]. intros Hd. split; [done|].
    intros Hmine. apply elem_of_getCompanyWorkdays in Hd as [_ [_ Hin]].
    apply groupByDay_keys, Hkeys in Hmine. congruence. }
  rewrite Habs'. rewrite Heq. unfold analyzeUser. fold kept.
  cbv zeta. cbn [daysRegistered lateDays lateMinutes lateHours overtimeHours
                  saturdayHours totalHours].
  unfold dayTotals. rewrite dayTotals_outside by done.
  rewrite filter_none by done.
  repeat split.
Qed.

Lemma no_punch_in_period_witness :
  exists res,
    In res (analyzeAttendance sunday_shift january_15 january_15
              DEFAULT_PREFERENCES)
    /\ daysRegistered res = 0%nat.
Proof.
  eexists. split; [left; reflexivity|].
  refine (proj1 (no_punch_in_period sunday_shift january_15 january_15
                   DEFAULT_PREFERENCES _ _ _ _)).
  - reflexivity.
  - left. reflexivity.
  - intros r [<-|[<-|[]]] _; reflexivity.
Defined.

(** ** Rounding to double precision *)

Lemma ulp_pos x : (0 < ulp x)%Q.
Proof. unfold ulp. by apply Qpower_0_lt. Qed.

Lemma round_half_even_floor x : Qfloor x <= round_half_even x.
Proof.
  unfold round_half_even.
  destruct (_ ?= _)%Q; [destruct (Z.even _)| |]; lia.
Qed.

Lemma round_half_even_nonneg x : (0 <= x)%Q -> 0 <= round_half_even x.
Proof.
  intros Hx. etransitivity; [|apply round_half_even_floor].
  change 0 with (Qfloor 0). by apply Qfloor_resp_le.
Qed.

Lemma binary64_nonneg x : (0 <= x)%Q -> (0 <= binary64 x)%Q.
Proof.
  intros Hx. unfold binary64. destruct (Qeq_bool x 0); [done|].
  apply Qmult_le_0_compat; [|apply Qlt_le_weak, ulp_pos].
  change 0%Q with (inject_Z 0). rewrite <- Zle_Qle.
  apply Z.mul_nonneg_nonneg.
  - apply Z.sgn_nonneg. unfold Qle in Hx. simpl in Hx. lia.
  - apply round_half_even_nonneg, Qle_shift_div_l; [apply ulp_pos|].
    rewrite Qmult_0_l. apply Qabs_nonneg.
Qed.

Lemma number_add_nonneg a b :
  (0 <= a)%Q -> (0 <= b)%Q -> (0 <= number_add a b)%Q.
Proof. intros. apply binary64_nonneg. lra. Qed.

Lemma number_div_nonneg a b :
  (0 <= a)%Q -> (0 < b)%Q -> (0 <= number_div a b)%Q.
Proof.
  intros. apply binary64_nonneg, Qle_shift_div_l; [done|].
  by rewrite Qmult_0_l.
Qed.

Lemma Qdiv_bounds_lt (p q r s : Q) :
  (0 < q -> 0 < s -> 0 <= p -> p < r -> s <= q -> p / q < r / s)%Q.
Proof.
  intros Hq Hs Hp Hpr Hsq.
  apply Qlt_shift_div_r; [done|].
  assert (r / s * q == r * (q / s))%Q as Heq by (field; lra).
  rewrite Heq.
  assert (1 <= q / s)%Q.
  { apply Qle_shift_div_l; [done|]. lra. }
  nra.
Qed.
Lemma Qdiv_bounds_le (p q r s : Q) :
  (0 < q -> 0 < s -> 0 <= r -> r <= p -> q <= s -> r / s <= p / q)%Q.
Proof.
  intros Hq Hs Hr Hrp Hqs.
  apply Qle_shift_div_l; [done|].
  assert (r / s * q == r * (q / s))%Q as Heq by (field; lra).
  rewrite Heq.
  assert (q / s <= 1)%Q.
  { apply Qle_shift_div_r; [done|]. lra. }
  nra.
Qed.

Lemma two_power_pos e : (0 < 2 ^ e)%Q.
Proof. by apply Qpower_0_lt. Qed.

Lemma two_power_inject n : 0 <= n -> (inject_Z (2 ^ n) == 2 ^ n)%Q.
Proof. intros. by rewrite Zpower_Qpower. Qed.

Lemma two_power_le a b : a <= b -> (2 ^ a <= 2 ^ b)%Q.
Proof.
  intros Hab. replace b with (a + (b - a)) by lia.
  rewrite Qpower_plus by done.
  assert (1 <= 2 ^ (b - a))%Q by (apply Qpower_1_le; [done | lia]).
  pose proof (two_power_pos a). nra.
Qed.

Lemma two_power_lt_inv a b : (2 ^ a < 2 ^ b)%Q -> a < b.
Proof.
  intros Hlt. destruct (Z.lt_ge_cases a b) as [|Hge]; [done|].
  apply two_power_le in Hge. lra.
Qed.

Lemma exponent_spec x :
  (0 < x)%Q -> (2 ^ exponent x <= x)%Q /\ (x < 2 ^ (exponent x + 1))%Q.
Proof.
  intros Hx. unfold exponent.
  destruct x as [n d]. cbn [Qnum Qden].
  assert (0 < n) as Hn. { unfold Qlt in Hx. simpl in Hx. lia. }
  set (a := Z.log2 n). set (b := Z.log2 (Z.pos d)).
  destruct (Z.log2_spec n Hn) as [Ha1 Ha2]. fold a in Ha1, Ha2.
  destruct (Z.log2_spec (Z.pos d) ltac:(lia)) as [Hb1 Hb2].
  fold b in Hb1, Hb2.
  assert (0 <= a) by apply Z.log2_nonneg.
  assert (0 <= b) by apply Z.log2_nonneg.
  pose proof (Qmake_Qdiv n d) as Hq.
  assert (0 < inject_Z (Z.pos d))%Q as Hd by done.
  assert (0 < inject_Z n)%Q as Hn'.
  { change 0%Q with (inject_Z 0). by rewrite <- Zlt_Qlt. }
  assert (2 ^ a <= inject_Z n)%Q as Qa1.
  { rewrite <- two_power_inject by lia. by rewrite <- Zle_Qle. }
  assert (inject_Z n < 2 ^ (a + 1))%Q as Qa2.
  { rewrite <- two_power_inject by lia. rewrite <- Zlt_Qlt.
    by rewrite <- Z.add_1_r in Ha2. }
  assert (2 ^ b <= inject_Z (Z.pos d))%Q as Qb1.
  { rewrite <- two_power_inject by lia. by rewrite <- Zle_Qle. }
  assert (inject_Z (Z.pos d) < 2 ^ (b + 1))%Q as Qb2.
  { rewrite <- two_power_inject by lia. rewrite <- Zlt_Qlt.
    by rewrite <- Z.add_1_r in Hb2. }
  pose proof (two_power_pos a). pose proof (two_power_pos b).
  pose proof (two_power_pos (a + 1)). pose proof (two_power_pos (b + 1)).
  destruct (Qle_bool (2 ^ (a - b)) (n # d)) eqn:Hle.
  - apply Qle_bool_iff in Hle. split; [done|].
    replace (a - b + 1) with ((a + 1) - b) by lia.
    pose proof (Qpower_minus 2 (a + 1) b ltac:(done)) as Hpow.
    pose proof (Qdiv_bounds_lt (inject_Z n) (inject_Z (Z.pos d))
                  (2 ^ (a + 1)) (2 ^ b)).
    lra.
  - assert (n # d < 2 ^ (a - b))%Q as Hlt.
    { apply Qnot_le_lt. intros Hle'%Qle_bool_iff. congruence. }
    replace (a - b - 1 + 1) with (a - b) by lia. split; [|done].
    replace (a - b - 1) with (a - (b + 1)) by lia.
    pose proof (Qpower_minus 2 a (b + 1) ltac:(done)) as Hpow.
    pose proof (Qdiv_bounds_le (inject_Z n) (inject_Z (Z.pos d))
                  (2 ^ a) (2 ^ (b + 1))).
    lra.
Qed.

Lemma round_half_even_whole x z : (x == inject_Z z)%Q -> round_half_even x = z.
Proof.
  intros Hx. unfold round_half_even.
  rewrite (Qfloor_comp _ _ Hx), Qfloor_Z.
  destruct (Qcompare_spec (x - inject_Z z) (1 # 2)); [lra | done | lra].
Qed.

(** A number that is a whole multiple of the spacing around it is a
    binary64 value. *)
Lemma binary64_exact x m : (x == inject_Z m * ulp x)%Q -> (binary64 x == x)%Q.
Proof.
  intros Hx. unfold binary64.
  destruct (Qeq_bool x 0) eqn:H0.
  - apply Qeq_bool_iff in H0. by rewrite H0.
  - pose proof (ulp_pos x) as Hulp.
    assert (~ ulp x == 0)%Q as Hulp' by lra.
    assert (Z.sgn (Qnum x) * round_half_even (Qabs x / ulp x) = m) as ->;
      [|by rewrite <- Hx].
    destruct (Qlt_le_dec x 0) as [Hneg|Hpos].
    + assert (m < 0) as Hm.
      { apply Z.nle_gt. intros Hm. rewrite Zle_Qle in Hm.
        change (inject_Z 0) with 0%Q in Hm. nra. }
      assert (Qnum x < 0) as Hnum.
      { unfold Qlt in Hneg. simpl in Hneg. lia. }
      rewrite (round_half_even_whole _ (- m)).
      * rewrite Z.sgn_neg by done. lia.
      * rewrite Qabs_neg by lra. rewrite inject_Z_opp.
        rewrite Hx at 1. field. done.
    + assert (0 <= m) as Hm.
      { apply Z.nlt_ge. intros Hm. rewrite Zlt_Qlt in Hm.
        change (inject_Z 0) with 0%Q in Hm. nra. }
      assert (~ x == 0)%Q as Hne by (by apply Qeq_bool_neq).
      assert (0 < Qnum x) as Hnum.
      { assert (0 < x)%Q as Hx0 by lra.
        unfold Qlt in Hx0. simpl in Hx0. lia. }
      rewrite (round_half_even_whole _ m).
      * rewrite Z.sgn_pos by done. lia.
      * rewrite Qabs_pos by done. rewrite Hx at 1. field. done.
Qed.

(** A whole number of half hours below [2^52] is a binary64 value. *)
Lemma binary64_half_hours q k :
  (q == inject_Z k * (1 # 2))%Q -> Z.abs k < 2 ^ 53 -> (binary64 q == q)%Q.
Proof.
  intros Hq Hk.
  destruct (decide (k = 0)) as [->|Hk0].
  { apply (binary64_exact q 0). change (inject_Z 0) with 0%Q in *.
    rewrite Qmult_0_l in *. done. }
  assert (Qabs q == inject_Z (Z.abs k) * (1 # 2))%Q as Ha.
  { rewrite Hq, Qabs_Qmult. reflexivity. }
  assert (1 <= Z.abs k) as Hk1 by lia.
  rewrite Zle_Qle in Hk1. rewrite Zlt_Qlt in Hk.
  rewrite two_power_inject in Hk by done.
  change (inject_Z 1) with 1%Q in Hk1.
  destruct (exponent_spec (Qabs q)) as [He1 He2]; [lra|].
  set (e := exponent (Qabs q)) in *.
  assert (-1 <= e) as Hlow.
  { assert (2 ^ (-1) < 2 ^ (e + 1))%Q as Hlt.
    { change (2 ^ (-1))%Q with (1 # 2)%Q. lra. }
    apply two_power_lt_inv in Hlt. lia. }
  assert (e < 52) as Hhigh.
  { apply two_power_lt_inv.
    assert (2 ^ 53 == 2 ^ 52 * 2)%Q as H53 by reflexivity. lra. }
  apply (binary64_exact q (k * 2 ^ (51 - e))).
  unfold ulp. fold e. rewrite Z.max_l by lia.
  rewrite inject_Z_mult, two_power_inject by lia.
  rewrite <- Qmult_assoc, <- Qpower_plus by done.
  replace (51 - e + (e - 52)) with (-1) by lia.
  by rewrite Hq.
Qed.

Lemma number_add_half_hours a b :
  multiple_of_half a -> multiple_of_half b ->
  (Qabs (a + b) < 2 ^ 52)%Q -> (number_add a b == a + b)%Q.
Proof.
  intros [i Hi] [j Hj] Hsum. unfold number_add.
  apply (binary64_half_hours _ (i + j)).
  - rewrite Hi, Hj, inject_Z_plus. ring.
  - assert (a + b == inject_Z (i + j) * (1 # 2))%Q as Hab
      by (rewrite Hi, Hj, inject_Z_plus; ring).
    rewrite Hab, Qabs_Qmult in Hsum.
    change (Qabs (inject_Z (i + j)) * Qabs (1 # 2))%Q
      with (inject_Z (Z.abs (i + j)) * (1 # 2))%Q in Hsum.
    rewrite Zlt_Qlt, two_power_inject by done.
    assert (2 ^ 53 == 2 ^ 52 * 2)%Q as H53 by reflexivity. lra.
Qed.

Lemma multiple_of_half_eq a b :
  (a == b)%Q -> multiple_of_half a -> multiple_of_half b.
Proof. intros Hab [k Hk]. exists k. by rewrite <- Hab. Qed.

Lemma multiple_of_half_add a b :
  multiple_of_half a -> multiple_of_half b -> multiple_of_half (a + b).
Proof.
  intros [i Hi] [j Hj]. exists (i + j).
  rewrite Hi, Hj, inject_Z_plus. ring.
Qed.

Lemma multiple_of_half_0 : multiple_of_half 0.
Proof. by exists 0. Qed.

Lemma late_credit_half preferences m :
  multiple_of_half (late_credit preferences m).
Proof.
  unfold late_credit.
  repeat case_decide; [by exists 1 | by exists 2 | by exists 0].
Qed.

(** The hours of a day are whole numbers of half hours. *)
Lemma day_result_half_hours records schedule preferences :
  let r := analyzeDayRecords records schedule preferences in
  multiple_of_half (Day.lateHours r) /\ multiple_of_half (Day.overtimeHours r).
Proof.
  intros r. subst r.
  destruct (head (filterDuplicateRecords records preferences))
    as [first|] eqn:Hhead;
    [|rewrite analyzeDayRecords_empty by done;
      split; apply multiple_of_half_0].
  destruct (decide (getDay (Fecha_Hora first) = 6)) as [Hsat|Hday];
    [rewrite (analyzeDayRecords_saturday _ _ _ first) by done;
     split; apply multiple_of_half_0|].
  destruct (head_Some_last _ _ Hhead) as [lastR Hlast].
  destruct (analyzeDayRecords_eq records schedule preferences first lastR
              Hhead Hlast Hday) as (_ & Hlh & Hov).
  split.
  - eapply multiple_of_half_eq; [symmetry; exact Hlh|]. clear Hlh Hov.
    apply multiple_of_half_add.
    + unfold arrival_credit.
      case_decide; [apply late_credit_half | apply multiple_of_half_0].
    + unfold lunch_credit.
      destruct (breakDuration _); [|apply multiple_of_half_0].
      case_decide; [apply late_credit_half | apply multiple_of_half_0].
  - eapply multiple_of_half_eq; [symmetry; exact Hov|]. clear Hlh Hov.
    case_decide; [|apply multiple_of_half_0].
    apply multiple_of_half_add.
    + unfold early_credit, early_arrival_credit.
      destruct (_ && _); [|apply multiple_of_half_0].
      repeat case_decide; [by exists 2 | by exists 1 | by exists 0].
    + unfold evening_credit.
      repeat case_decide; [by exists 2 | by exists 1 | by exists 0].
Qed.

(** The running totals of late and overtime hours are whole numbers of
    half hours, at most two for each bucket. *)
Lemma day_step_half_hours schedule preferences startDate endDate t entry n :
  multiple_of_half (totalLateHours t) ->
  multiple_of_half (totalOvertimeHours t) ->
  (0 <= totalLateHours t <= 2 * inject_Z n)%Q ->
  (0 <= totalOvertimeHours t <= 2 * inject_Z n)%Q ->
  let t' := day_step schedule preferences startDate endDate t entry in
  multiple_of_half (totalLateHours t')
  /\ multiple_of_half (totalOvertimeHours t')
  /\ (0 <= totalLateHours t' <= 2 * inject_Z (n + 1))%Q
  /\ (0 <= totalOvertimeHours t' <= 2 * inject_Z (n + 1))%Q.
Proof.
  intros Hl Ho Hlb Hob t'. subst t'. destruct entry as [d rs].
  rewrite inject_Z_plus. change (inject_Z 1) with 1%Q.
  unfold day_step.
  destruct (negb _); [split_and!; (done || lra)|].
  destruct (isWeekend _).
  - destruct (2 <=? length rs)%nat; [|split_and!; (done || lra)].
    destruct (head rs), (last rs); cbn [totalLateHours totalOvertimeHours];
      split_and!; (done || lra).
  - destruct (day_result_half_hours rs schedule preferences) as [Hrl Hro].
    destruct (day_result_range rs schedule preferences)
      as (_ & Hlr & Hor & _).
    cbn [totalLateHours totalOvertimeHours].
    destruct (0 <? _); split_and!;
      try (by apply multiple_of_half_add); try done; lra.
Qed.

Lemma dayTotals_half_hours schedule preferences startDate endDate buckets :
  let t := dayTotals schedule preferences startDate endDate buckets in
  multiple_of_half (totalLateHours t)
  /\ multiple_of_half (totalOvertimeHours t)
  /\ (0 <= totalLateHours t
      <= 2 * inject_Z (Z.of_nat (length buckets)))%Q
  /\ (0 <= totalOvertimeHours t
      <= 2 * inject_Z (Z.of_nat (length buckets)))%Q.
Proof.
  unfold dayTotals.
  assert (forall t n,
            multiple_of_half (totalLateHours t) ->
            multiple_of_half (totalOvertimeHours t) ->
            (0 <= totalLateHours t <= 2 * inject_Z n)%Q ->
            (0 <= totalOvertimeHours t <= 2 * inject_Z n)%Q ->
            let t' := fold_left
                        (day_step schedule preferences startDate endDate)
                        buckets t in
            multiple_of_half (totalLateHours t')
            /\ multiple_of_half (totalOvertimeHours t')
            /\ (0 <= totalLateHours t'
                <= 2 * inject_Z (n + Z.of_nat (length buckets)))%Q
            /\ (0 <= totalOvertimeHours t'
                <= 2 * inject_Z (n + Z.of_nat (length buckets)))%Q) as Hfold.
  { induction buckets as [|entry buckets IH]; intros t n Hl Ho Hlb Hob.
    - cbn [fold_left length]. cbv zeta. change (Z.of_nat 0) with 0.
      rewrite Z.add_0_r. tauto.
    - cbn [fold_left length].
      destruct (day_step_half_hours schedule preferences startDate endDate
                  t entry n Hl Ho Hlb Hob) as (Hl' & Ho' & Hlb' & Hob').
      replace (n + Z.of_nat (S (length buckets)))
        with (n + 1 + Z.of_nat (length buckets)) by lia.
      by apply IH. }
  apply (Hfold noTotals 0); simpl;
    first [apply multiple_of_half_0 | split; by compute].
Qed.

(** The additions of late and overtime hours to the running totals are
    exact in double precision, for fewer than [2^50] buckets: the
    embedding writes them as exact sums. *)
Lemma hour_totals_exact schedule preferences startDate endDate buckets rs :
  let t := dayTotals schedule preferences startDate endDate buckets in
  let r := analyzeDayRecords rs schedule preferences in
  Z.of_nat (length buckets) < 2 ^ 50 ->
  (number_add (totalLateHours t) (Day.lateHours r)
   == totalLateHours t + Day.lateHours r)%Q
  /\ (number_add (totalOvertimeHours t) (Day.overtimeHours r)
      == totalOvertimeHours t + Day.overtimeHours r)%Q.
Proof.
  intros t r Hlen.
  destruct (dayTotals_half_hours schedule preferences startDate endDate
              buckets) as (Hl & Ho & Hlb & Hob).
  fold t in Hl, Ho, Hlb, Hob.
  destruct (day_result_half_hours rs schedule preferences) as [Hrl Hro].
  destruct (day_result_range rs schedule preferences)
    as (_ & Hlr & Hor & _).
  fold r in Hrl, Hro, Hlr, Hor.
  rewrite Zlt_Qlt, two_power_inject in Hlen by done.
  assert (2 ^ 52 == 2 ^ 50 * 4)%Q as H52 by reflexivity.
  assert (8 <= 2 ^ 50)%Q as H50 by (by compute).
  split; apply number_add_half_hours; try done;
    apply Qabs_Qlt_condition; lra.
Qed.

(** ** Invariants of the totals *)

Lemma head_last_by_time (l : list AttendanceRecord) first lastR :
  StronglySorted by_time l ->
  head l = Some first -> last l = Some lastR ->
  timeOf first <= timeOf lastR.
Proof.
  intros Hs Hhead Hlast. destruct l as [|x l]; [done|].
  injection Hhead as ->. apply StronglySorted_inv in Hs as [_ Hx].
  apply last_Some_elem_of, elem_of_cons in Hlast as [->|Hin]; [lia|].
  rewrite Forall_forall in Hx. by apply Hx.
Qed.

Lemma differenceInMinutes_nonneg a b :
  getTime b <= getTime a -> 0 <= differenceInMinutes a b.
Proof. intros. unfold differenceInMinutes. apply Z.quot_pos; lia. Qed.

Lemma sound_noTotals : sound_totals noTotals.
Proof.
  unfold sound_totals, noTotals. simpl.
  split_and!; first [lia | lra | done | by compute].
Qed.

Lemma day_step_sound schedule preferences startDate endDate t d rs :
  sound_totals t ->
  StronglySorted by_time rs ->
  sound_totals (day_step schedule preferences startDate endDate t (d, rs)).
Proof.
  intros (Hm & Hdm & Hd0 & Hh0 & Hh2 & Ho & Hs) Hsorted.
  unfold day_step. destruct (negb _); [by split_and!|].
  destruct (isWeekend _).
  - destruct (2 <=? length rs)%nat; [|by split_and!].
    destruct (head rs) as [first|] eqn:Hhead; [|by split_and!].
    destruct (last rs) as [lastR|] eqn:Hlast; [|by split_and!].
    unfold sound_totals. simpl. split_and!; try done.
    pose proof (head_last_by_time rs first lastR Hsorted Hhead Hlast).
    pose proof (differenceInMinutes_nonneg (Fecha_Hora lastR)
                  (Fecha_Hora first) ltac:(done)) as Hdiff.
    apply number_add_nonneg; [done|].
    apply number_div_nonneg; [|by compute].
    change 0%Q with (inject_Z 0). by rewrite <- Zle_Qle.
  - destruct (day_result_range rs schedule preferences)
      as (Hlm & [Hlh0 Hlh2] & [Hov0 _] & _).
    set (r := analyzeDayRecords rs schedule preferences) in *.
    unfold sound_totals. simpl.
    destruct (Z.ltb_spec 0 (Day.lateMinutes r)) as [Hlate|Hnot].
    + rewrite Nat2Z.inj_succ, <- Z.add_1_r, inject_Z_plus.
      change (inject_Z 1) with 1%Q.
      split_and!; try lia; try lra.
    + split_and!; try lia; try lra; done.
Qed.

Lemma dayTotals_sound schedule preferences startDate endDate buckets :
  (forall d rs, In (d, rs) buckets -> StronglySorted by_time rs) ->
  sound_totals (dayTotals schedule preferences startDate endDate buckets).
Proof.
  unfold dayTotals. generalize noTotals, sound_noTotals.
  induction buckets as [|[d rs] buckets IH]; intros t Ht Hsorted; [done|].
  cbn [fold_left]. apply IH.
  - apply day_step_sound; [done|]. apply (Hsorted d). by left.
  - intros d' rs' Hin. apply (Hsorted d'). by right.
Qed.

Lemma day_step_lateDays schedule preferences startDate endDate t d rs :
  (totalLateDays (day_step schedule preferences startDate endDate t (d, rs))
   <= totalLateDays t
      + if isWithinInterval (parse_date d) startDate endDate
        then 1 else 0)%nat.
Proof.
  unfold day_step.
  destruct (isWithinInterval (parse_date d) startDate endDate);
    cbn [negb]; [|lia].
  destruct (isWeekend _).
  - destruct (2 <=? length rs)%nat; [|lia].
    destruct (head rs), (last rs); cbn [totalLateDays]; lia.
  - cbn [totalLateDays]. destruct (0 <? _); lia.
Qed.

Lemma lateDays_le_days schedule preferences startDate endDate buckets :
  forall t,
    (totalLateDays
       (fold_left (day_step schedule preferences startDate endDate)
                  buckets t)
     <= totalLateDays t
        + length (List.filter
                    (fun date => isWithinInterval (parse_date date)
                                                  startDate endDate)
                    (map fst buckets)))%nat.
Proof.
  induction buckets as [|[d rs] buckets IH]; intros t;
    cbn [fold_left map List.filter fst]; [simpl; lia|].
  etransitivity; [apply IH|].
  pose proof (day_step_lateDays schedule preferences startDate endDate
                t d rs) as Hstep.
  destruct (isWithinInterval (parse_date d) startDate endDate);
    simpl length; lia.
Qed.

Lemma round_to_half_nonneg x : (0 <= x)%Q -> (0 <= round_to_half x)%Q.
Proof.
  intros Hx. unfold round_to_half, Math_round.
  apply Qle_shift_div_l; [by compute|]. rewrite Qmult_0_l.
  change 0%Q with (inject_Z 0). rewrite <- Zle_Qle.
  change 0 with (Qfloor 0). apply Qfloor_resp_le. lra.
Qed.

Lemma dailyRecords_sorted records startDate endDate preferences res d rs :
  In res (analyzeAttendance records startDate endDate preferences) ->
  In (d, rs) (dailyRecords res) -> StronglySorted by_time rs.
Proof.
  intros Hres Hin.
  rewrite (analyzeAttendance_In _ _ _ _ _ Hres) in Hin. simpl in Hin.
  apply (group_entries date_key) in Hin. subst rs.
  eapply StronglySorted_sublist; [apply filter_sublist|].
  apply filterDuplicateRecords_sorted.
Qed.

(** X11. For every employee in the output of [analyzeAttendance] over a
    valid period: the late days are at most the registered days; every
    late day carries at least one late minute and at most two late
    hours, so without late days there are no late minutes and no late
    hours; and no hour figure is negative. *)
Theorem result_invariants records startDate endDate preferences res :
  startDate <= endDate ->
  In res (analyzeAttendance records startDate endDate preferences) ->
  (lateDays res <= daysRegistered res)%nat
  /\ Z.of_nat (lateDays res) <= lateMinutes res
  /\ (lateDays res = 0%nat ->
      lateMinutes res = 0 /\ (lateHours res == 0)%Q)
  /\ (0 <= lateHours res)%Q
  /\ (lateHours res <= 2 * inject_Z (Z.of_nat (lateDays res)))%Q
  /\ (0 <= overtimeHours res)%Q
  /\ (0 <= saturdayHours res)%Q
  /\ (0 <= totalHours res)%Q.
Proof.
  intros _ Hres.
  pose proof (fun d rs => dailyRecords_sorted _ _ _ _ _ d rs Hres)
    as Hsorted.
  pose proof (analyzeAttendance_In _ _ _ _ _ Hres) as Heq.
  rewrite Heq in Hsorted |- *. clear Heq Hres. unfold analyzeUser in *.
  cbv zeta in *.
  cbn [dailyRecords daysRegistered lateDays lateMinutes lateHours
       overtimeHours saturdayHours totalHours] in *.
  set (sch := detectSchedule _ _) in *. set (buckets := groupByDay _) in *.
  pose proof (dayTotals_sound sch preferences startDate endDate buckets
                Hsorted) as (Hm & Hdm & Hd0 & Hh0 & Hh2 & Ho & Hs).
  pose proof (lateDays_le_days sch preferences startDate endDate buckets
                noTotals) as Hdays.
  fold (dayTotals sch preferences startDate endDate buckets) in Hdays.
  pose proof (round_to_half_nonneg _ Ho).
  pose proof (round_to_half_nonneg _ Hs).
  split; [exact Hdays|]. split; [done|]. split.
  - intros Hzero. split; [by apply Hd0|].
    rewrite Hzero in Hh2. change (inject_Z (Z.of_nat 0)) with 0%Q in Hh2.
    lra.
  - split_and!; try done. lra.
Qed.

Lemma result_invariants_witness :
  exists res,
    In res (analyzeAttendance friday_and_saturday january_1 january_15
              DEFAULT_PREFERENCES)
    /\ (lateDays res <= daysRegistered res)%nat.
Proof.
  eexists. split; [left; reflexivity|].
  refine (proj1 (result_invariants friday_and_saturday january_1 january_15
                   DEFAULT_PREFERENCES _ _ _)).
  - by vm_compute.
  - left. reflexivity.
Defined.

(** ** The company calendar *)

(** X12. A date is a company workday exactly when some punch of the
    input, of whatever employee, falls on it and it is a weekday inside
    the period; so no Saturday, Sunday or date outside the period is
    ever one.  The calendar of two inputs put together is the union of
    their calendars. *)
Theorem company_workdays_characterised allRecords moreRecords
    startDate endDate :
  (forall d,
     d ∈ getCompanyWorkdays allRecords startDate endDate
     <-> (exists r, In r allRecords /\ date_key r = d)
         /\ isWeekend (parse_date d) = false
         /\ isWithinInterval (parse_date d) startDate endDate = true)
  /\ getCompanyWorkdays (allRecords ++ moreRecords) startDate endDate
     = getCompanyWorkdays allRecords startDate endDate
       ∪ getCompanyWorkdays moreRecords startDate endDate.
Proof.
  split; [intros d; apply elem_of_getCompanyWorkdays|].
  apply set_eq. intros d.
  rewrite elem_of_union, !elem_of_getCompanyWorkdays. split.
  - intros [(r & [Hr|Hr]%in_app_iff & Hd) Hw]; [left | right]; eauto.
  - intros [[(r & Hr & Hd) Hw] | [(r & Hr & Hd) Hw]];
      (split; [|done]); exists r; rewrite in_app_iff; auto.
Qed.

(** ** The day buckets need no second filtering *)

Lemma by_time_by_date a b :
  valid_clock a -> valid_clock b -> by_time a b -> by_date a b.
Proof.
  unfold valid_clock, by_time, by_date, timeOf, getTime, date_key.
  intros (? & ? & ?) (? & ? & ?) Hle. lia.
Qed.

Lemma StronglySorted_by_date l :
  Forall valid_clock l -> StronglySorted by_time l ->
  StronglySorted by_date l.
Proof.
  intros Hvalid Hs. induction Hs as [|x l Hs IH Hx]; [constructor|].
  apply Forall_cons in Hvalid as [Hvx Hvl]. constructor; [by apply IH|].
  rewrite Forall_forall in Hx, Hvl |- *. intros y Hy.
  apply by_time_by_date; auto.
Qed.

(** In a list sorted by date, the punches of one date are next to each
    other: what links neighbours in the list links neighbours in the
    bucket. *)
Lemma Sorted_filter_date (R : relation AttendanceRecord) d l :
  StronglySorted by_date l -> Sorted R l ->
  Sorted R (List.filter (fun r => bool_decide (date_key r = d)) l).
Proof.
  induction l as [|x l IH]; intros Hd Hs; simpl; [constructor|].
  apply StronglySorted_inv in Hd as [Hd Hx].
  apply Sorted_inv in Hs as [Hs Hhd].
  case_bool_decide as Hxd; [|by apply IH].
  constructor; [by apply IH|].
  destruct l as [|y l]; simpl; [constructor|].
  apply HdRel_inv in Hhd.
  case_bool_decide as Hyd; [by constructor|].
  rewrite filter_none; [constructor|].
  intros z Hz. apply bool_decide_eq_false. intros Hzd.
  apply Forall_cons in Hx as [Hxy _].
  apply StronglySorted_inv in Hd as [_ Hy].
  rewrite Forall_forall in Hy. apply list_elem_of_In, Hy in Hz.
  unfold by_date in *. lia.
Qed.

Lemma keep_after_fixed preferences l : forall x,
  Sorted (differs_from preferences) (x :: l) ->
  keep_after preferences x l = l.
Proof.
  induction l as [|y l IH]; intros x Hs; simpl; [done|].
  apply Sorted_inv in Hs as [Hs Hhd]. apply HdRel_inv in Hhd.
  unfold differs_from in Hhd. rewrite Hhd. f_equal. by apply IH.
Qed.

Lemma filterDuplicateRecords_fixed rs preferences :
  StronglySorted by_time rs -> Sorted (differs_from preferences) rs ->
  filterDuplicateRecords rs preferences = rs.
Proof.
  intros Hs Hd. rewrite filterDuplicateRecords_keep, sort_by_time_fixed by done.
  destruct rs as [|x l]; simpl; [done|]. f_equal. by apply keep_after_fixed.
Qed.

(** X13. When the clock fields of the timestamps are within a day, every
    day bucket of a duplicate-filtered punch list is left unchanged by
    the duplicate filter, which the daily evaluator applies once more
    to the bucket it is given. *)
Theorem day_buckets_already_filtered records preferences d rs :
  Forall valid_clock records ->
  In (d, rs) (groupByDay (filterDuplicateRecords records preferences)) ->
  filterDuplicateRecords rs preferences = rs.
Proof.
  intros Hvalid Hin.
  apply (group_entries date_key) in Hin. subst rs.
  set (kept := filterDuplicateRecords records preferences).
  pose proof (filterDuplicateRecords_chain records preferences) as Hchain.
  pose proof (filterDuplicateRecords_sorted records preferences) as Hsorted.
  fold kept in Hchain, Hsorted.
  apply filterDuplicateRecords_fixed.
  - eapply StronglySorted_sublist; [apply filter_sublist | done].
  - apply Sorted_filter_date; [|done].
    apply StronglySorted_by_date; [|done].
    rewrite Forall_forall in Hvalid |- *. intros r Hr.
    apply Hvalid. apply list_elem_of_In.
    apply (filterDuplicateRecords_In records preferences).
    by apply list_elem_of_In.
Qed.

Lemma day_buckets_already_filtered_witness :
  filterDuplicateRecords monday_0805 DEFAULT_PREFERENCES = monday_0805.
Proof.
  refine (day_buckets_already_filtered monday_0805 DEFAULT_PREFERENCES
            (fecha_de 2024 1 8) monday_0805 _ _).
  - repeat constructor; by vm_compute.
  - left. reflexivity.
Defined.

(** ** What the schedule classifier reads *)

Lemma foldr_add_Permutation (l l' : list Z) :
  l ≡ₚ l' -> foldr Z.add 0 l = foldr Z.add 0 l'.
Proof.
  induction 1 as [|x l l' _ IH|x y l|l l' l'' _ IH _ IH']; simpl; lia.
Qed.

Lemma average_Permutation (l l' : list Z) :
  l ≡ₚ l' -> average l = average l'.
Proof.
  intros Hperm. unfold average.
  rewrite !fold_left_sum, (foldr_add_Permutation _ _ Hperm).
  by rewrite (Permutation_length Hperm).
Qed.

Lemma weekday_times_Permutation kind records records' :
  records ≡ₚ records' ->
  weekday_times kind records ≡ₚ weekday_times kind records'.
Proof.
  intros Hperm. unfold weekday_times.
  apply Permutation_map. by apply filter_Permutation.
Qed.

Lemma filter_filter_implies {A} (f g : A -> bool) (l : list A) :
  (forall x, f x = true -> g x = true) ->
  List.filter f (List.filter g l) = List.filter f l.
Proof.
  intros Himp. induction l as [|x l IH]; simpl; [done|].
  destruct (g x) eqn:Hg; simpl.
  - destruct (f x); by rewrite IH.
  - destruct (f x) eqn:Hf; [|done]. apply Himp in Hf. congruence.
Qed.

Lemma weekday_times_classifier_input kind records :
  kind = TIn \/ kind = TOut ->
  weekday_times kind (classifier_input records) = weekday_times kind records.
Proof.
  intros Hkind. unfold weekday_times, classifier_input. f_equal.
  apply filter_filter_implies. intros r [Hw Hk]%andb_true_iff.
  rewrite Hw. simpl. apply bool_decide_eq_true in Hk. rewrite Hk.
  by destruct Hkind as [-> | ->].
Qed.

(** X14. [detectSchedule] returns one of the two schedules of the
    preferences, whatever the punches.  Its result depends only on the
    "In" and "Out" punches of days outside the weekend (Break punches
    and weekend punches can be taken out of its input), and not on the
    order of the punches. *)
Theorem detectSchedule_reads records records' preferences :
  (detectSchedule records preferences = earlySchedule preferences
   \/ detectSchedule records preferences = regularSchedule preferences)
  /\ detectSchedule (classifier_input records) preferences
     = detectSchedule records preferences
  /\ (records ≡ₚ records' ->
      detectSchedule records preferences
      = detectSchedule records' preferences).
Proof.
  split; [|split].
  - unfold detectSchedule. cbv zeta. destruct (_ && _); auto.
  - unfold detectSchedule.
    by rewrite !weekday_times_classifier_input by auto.
  - intros Hperm. unfold detectSchedule.
    by rewrite (average_Permutation _ _
                  (weekday_times_Permutation TIn _ _ Hperm)),
               (average_Permutation _ _
                  (weekday_times_Permutation TOut _ _ Hperm)).
Qed.

Lemma detectSchedule_reads_witness :
  detectSchedule monday_early_shift DEFAULT_PREFERENCES
  = detectSchedule (rev monday_early_shift) DEFAULT_PREFERENCES.
Proof.
  refine (proj2 (proj2 (detectSchedule_reads monday_early_shift
                          (rev monday_early_shift) DEFAULT_PREFERENCES)) _).
  apply Permutation_swap.
Defined.

(** * The helpers around the engine *)

(** ** Period selection *)

Section FortnightFacts.
Import Fortnight.

Lemma daysInMonth_range y m : 28 <= daysInMonth y m <= 31.
Proof.
  unfold daysInMonth.
  destruct (m =? 1); [destruct (isLeap y); lia|].
  destruct (_ || _); lia.
Qed.

Lemma iter_next_day k : forall d,
  dia d + Z.of_nat k <= daysInMonth (anio d) (mes d) ->
  Nat.iter k next_day d
  = {| anio := anio d; mes := mes d; dia := dia d + Z.of_nat k;
       ms := ms d |}.
Proof.
  induction k as [|k IH]; intros d Hk.
  - simpl. destruct d; simpl. f_equal. lia.
  - rewrite Nat.iter_succ, IH by lia. unfold next_day. cbn [anio mes dia ms].
    destruct (Z.ltb_spec (dia d + Z.of_nat k) (daysInMonth (anio d) (mes d)));
      [|lia].
    f_equal. lia.
Qed.

Lemma makeDay_in_month y m day t :
  0 <= m <= 11 -> 1 <= day <= daysInMonth y m ->
  makeDay y m day t = {| anio := y; mes := m; dia := day; ms := t |}.
Proof.
  intros Hm Hday. unfold makeDay.
  rewrite Z.div_small, Z.mod_small, Z.add_0_r by lia.
  destruct (Z.leb_spec 1 day); [|lia].
  rewrite iter_next_day; cbn [anio mes dia ms].
  - f_equal. lia.
  - lia.
Qed.

Lemma setDate_in_month d n :
  valid d -> 1 <= n <= 28 ->
  setDate d n = {| anio := anio d; mes := mes d; dia := n; ms := ms d |}.
Proof.
  intros (Hm & _ & _) Hn. unfold setDate.
  pose proof (daysInMonth_range (anio d) (mes d)).
  apply makeDay_in_month; lia.
Qed.

Lemma endOfMonth_eq d :
  valid d ->
  endOfMonth d
  = {| anio := anio d; mes := mes d;
       dia := daysInMonth (anio d) (mes d); ms := msPerDay - 1 |}.
Proof.
  intros (Hm & _ & _). unfold endOfMonth, makeDay.
  change (1 <=? 0) with false. change (Z.to_nat (1 - 0)) with 1%nat.
  rewrite Nat.iter_succ. change (Nat.iter 0 prev_day ?x) with x.
  unfold prev_day. cbn [anio mes dia ms].
  change (1 <? 1) with false. cbv iota.
  destruct (decide (mes d = 11)) as [->|Hne].
  - change ((11 + 1) / 12) with 1. change ((11 + 1) mod 12) with 0.
    change (0 <? 0) with false. cbv iota. f_equal. lia.
  - rewrite Z.div_small, Z.mod_small, Z.add_0_r by lia.
    destruct (Z.ltb_spec 0 (mes d + 1)); [|lia].
    f_equal; [lia | f_equal; lia].
Qed.

Lemma getTime_ms_day y m k k' t t' :
  getTime_ms {| anio := y; mes := m; dia := k'; ms := t' |}
  - getTime_ms {| anio := y; mes := m; dia := k; ms := t |}
  = (k' - k) * msPerDay + (t' - t).
Proof. unfold getTime_ms, fecha_de, msPerDay. cbn [anio mes dia ms]. lia. Qed.

Lemma within_seconds t start end_ :
  isWithinInterval t (startSeconds start) (endSeconds end_) = true
  <-> getTime_ms start <= getTime t * 1000 <= getTime_ms end_.
Proof.
  unfold isWithinInterval, startSeconds, endSeconds.
  rewrite andb_true_iff, !Z.leb_le.
  generalize (getTime_ms start), (getTime_ms end_), (getTime t).
  intros a b g.
  pose proof (Z.div_mod (- a) 1000 ltac:(lia)).
  pose proof (Z.mod_pos_bound (- a) 1000 ltac:(lia)).
  pose proof (Z.div_mod b 1000 ltac:(lia)).
  pose proof (Z.mod_pos_bound b 1000 ltac:(lia)).
  split; intros [? ?]; split; lia.
Qed.

Lemma fortnight_bounds month half :
  valid month ->
  getFortnightDates month half
  = match half with
    | First =>
        ({| anio := anio month; mes := mes month; dia := 1; ms := ms month |},
         {| anio := anio month; mes := mes month; dia := 15;
            ms := ms month |})
    | Second =>
        ({| anio := anio month; mes := mes month; dia := 16;
            ms := ms month |},
         {| anio := anio month; mes := mes month;
            dia := daysInMonth (anio month) (mes month);
            ms := msPerDay - 1 |})
    end.
Proof.
  intros Hvalid. unfold getFortnightDates. destruct half.
  - by rewrite !setDate_in_month by (done || lia).
  - by rewrite setDate_in_month, endOfMonth_eq by (done || lia).
Qed.
End FortnightFacts.

Section FortnightProperties.
Import Fortnight.

(** X15. For every valid date [month] and either half,
    [getFortnightDates] returns two valid dates of the month of [month]
    with [start] before [end]; taken in whole seconds the interval still
    has its start before its end, which is what the analysis asks of
    its period. *)
Theorem getFortnightDates_valid_interval month half :
  valid month ->
  let '(start, end_) := getFortnightDates month half in
  valid start /\ valid end_
  /\ anio start = anio month /\ mes start = mes month
  /\ anio end_ = anio month /\ mes end_ = mes month
  /\ getTime_ms start < getTime_ms end_
  /\ startSeconds start <= endSeconds end_.
Proof.
  intros Hvalid. rewrite fortnight_bounds by done.
  pose proof Hvalid as (Hm & Hd & Ht).
  pose proof (daysInMonth_range (anio month) (mes month)) as Hdays.
  assert (forall a b, a + 1000 <= b -> - (- a / 1000) <= b / 1000) as Hsec.
  { intros a b Hab.
    pose proof (Z.div_mod (- a) 1000 ltac:(lia)).
    pose proof (Z.mod_pos_bound (- a) 1000 ltac:(lia)).
    pose proof (Z.div_mod b 1000 ltac:(lia)).
    pose proof (Z.mod_pos_bound b 1000 ltac:(lia)). lia. }
  destruct half.
  - pose proof (getTime_ms_day (anio month) (mes month) 1 15
                  (ms month) (ms month)) as Hdiff.
    unfold valid, startSeconds, endSeconds. unfold msPerDay in *.
    cbn [anio mes dia ms].
    split_and!; try done; try lia. apply Hsec. lia.
  - pose proof (getTime_ms_day (anio month) (mes month) 16
                  (daysInMonth (anio month) (mes month))
                  (ms month) (msPerDay - 1)) as Hdiff.
    unfold valid, startSeconds, endSeconds. unfold msPerDay in *.
    cbn [anio mes dia ms].
    split_and!; try done; try lia. apply Hsec. lia.
Qed.

Lemma getFortnightDates_valid_interval_witness :
  let '(start, end_) := getFortnightDates february_1 Second in
  startSeconds start <= endSeconds end_.
Proof.
  pose proof (getFortnightDates_valid_interval february_1 Second) as H.
  destruct (getFortnightDates february_1 Second) as [start end_].
  refine (proj2 (proj2 (proj2 (proj2 (proj2 (proj2 (proj2 (H _)))))))).
  by vm_compute.
Defined.
End FortnightProperties.

Section FortnightDays.
Import Fortnight.

Lemma day_in_fortnight month half k :
  valid month ->
  let '(start, end_) := getFortnightDates month half in
  isWithinInterval (parse_date (dayOfMonth month k))
                   (startSeconds start) (endSeconds end_) = true
  <-> match half with
      | First => (if ms month =? 0 then 1 else 2) <= k <= 15
      | Second => (if ms month =? 0 then 16 else 17) <= k
                  <= daysInMonth (anio month) (mes month)
      end.
Proof.
  intros Hvalid. rewrite fortnight_bounds by done.
  pose proof Hvalid as (Hm & Hd & Ht).
  pose proof (daysInMonth_range (anio month) (mes month)) as Hdays.
  assert (getTime (parse_date (dayOfMonth month k)) * 1000
          = getTime_ms {| anio := anio month; mes := mes month; dia := k;
                          ms := 0 |}) as Hk.
  { unfold getTime, parse_date, getTime_ms, dayOfMonth, msPerDay.
    cbn [fecha horas minutos segundos anio mes dia ms]. lia. }
  destruct half; rewrite within_seconds, Hk.
  - pose proof (getTime_ms_day (anio month) (mes month) 1 k (ms month) 0).
    pose proof (getTime_ms_day (anio month) (mes month) k 15 0 (ms month)).
    unfold msPerDay in *. destruct (Z.eqb_spec (ms month) 0); lia.
  - pose proof (getTime_ms_day (anio month) (mes month) 16 k (ms month) 0).
    pose proof (getTime_ms_day (anio month) (mes month) k
                  (daysInMonth (anio month) (mes month)) 0 (msPerDay - 1)).
    unfold msPerDay in *. destruct (Z.eqb_spec (ms month) 0); lia.
Qed.

(** X16. The day buckets that fall in a fortnight.  With [month] at
    midnight, as the application always has it, the first fortnight
    holds the days 1 to 15 of the month and the second the days 16 to
    the last, so each day of the month is in exactly one of the two.
    With [month] later than midnight the first day of the fortnight
    (1 or 16) is left out, because a bucket is dated at midnight. *)
Theorem fortnight_days month half k :
  valid month ->
  1 <= k <= daysInMonth (anio month) (mes month) ->
  let '(start, end_) := getFortnightDates month half in
  let inside :=
    isWithinInterval (parse_date (dayOfMonth month k))
                     (startSeconds start) (endSeconds end_) in
  (ms month = 0 ->
   inside = true <-> match half with
                     | First => k <= 15
                     | Second => 16 <= k
                     end)
  /\ (0 < ms month ->
      inside = true <-> match half with
                        | First => 2 <= k <= 15
                        | Second => 17 <= k
                        end).
Proof.
  intros Hvalid Hk.
  pose proof (day_in_fortnight month half k Hvalid) as Hin.
  destruct (getFortnightDates month half) as [start end_].
  cbv zeta. rewrite Hin. clear Hin.
  split; intros Hms; destruct half;
    destruct (Z.eqb_spec (ms month) 0); lia.
Qed.

Lemma fortnight_days_witness :
  let '(start, end_) := getFortnightDates february_1 Second in
  isWithinInterval (parse_date (dayOfMonth february_1 29))
                   (startSeconds start) (endSeconds end_) = true.
Proof.
  pose proof (fortnight_days february_1 Second 29) as H.
  destruct (getFortnightDates february_1 Second) as [start end_].
  refine (proj2 (proj1 (H _ _) _) _).
  - by vm_compute.
  - by vm_compute.
  - reflexivity.
  - lia.
Defined.

(** X17. Picking a date in the calendar selects the month of that date,
    at midnight of its first day, and the half in which the date lies:
    the bucket of the picked day is inside the fortnight that
    [getFortnightDates] returns for the selection. *)
Theorem handleDateSelect_contains_date d :
  valid d ->
  let value := handleDateSelect d in
  let '(start, end_) := getFortnightDates (month value) (fortnight value) in
  month value = {| anio := anio d; mes := mes d; dia := 1; ms := 0 |}
  /\ valid (month value)
  /\ isWithinInterval (parse_date (dayOfMonth d (dia d)))
                      (startSeconds start) (endSeconds end_) = true.
Proof.
  intros Hvalid. pose proof Hvalid as (Hm & Hd & Ht).
  pose proof (daysInMonth_range (anio d) (mes d)) as Hdays.
  assert (startOfMonth d
          = {| anio := anio d; mes := mes d; dia := 1; ms := 0 |}) as Hstart
    by (unfold startOfMonth; apply makeDay_in_month; lia).
  assert (valid (startOfMonth d)) as Hvalid'.
  { rewrite Hstart. unfold valid, msPerDay. cbn [anio mes dia ms]. lia. }
  unfold handleDateSelect. cbv zeta. cbn [month fortnight].
  pose proof (day_in_fortnight (startOfMonth d)
                (if getDate d <=? 15 then First else Second) (dia d)
                Hvalid') as Hin.
  destruct (getFortnightDates _ _) as [start end_].
  split; [done|]. split; [done|].
  replace (dayOfMonth d (dia d)) with (dayOfMonth (startOfMonth d) (dia d))
    by (by rewrite Hstart).
  apply Hin. rewrite Hstart. cbn [anio mes dia ms]. unfold getDate.
  change (0 =? 0) with true. cbv iota.
  destruct (Z.leb_spec (dia d) 15); lia.
Qed.

Lemma handleDateSelect_contains_date_witness :
  month (handleDateSelect february_20) = february_1.
Proof.
  pose proof (handleDateSelect_contains_date february_20) as H.
  cbv zeta in H.
  destruct (getFortnightDates _ _) as [start end_].
  refine (proj1 (H _)). by vm_compute.
Defined.

Lemma setMonth_in_month d m :
  valid d -> dia d <= 28 -> 0 <= m <= 11 ->
  setMonth d m = {| anio := anio d; mes := m; dia := dia d; ms := ms d |}.
Proof.
  intros (_ & Hd & _) H28 Hm. unfold setMonth.
  pose proof (daysInMonth_range (anio d) m).
  apply makeDay_in_month; lia.
Qed.

Lemma setMonth_next_year d :
  valid d -> dia d <= 28 ->
  setMonth d 12
  = {| anio := anio d + 1; mes := 0; dia := dia d; ms := ms d |}.
Proof.
  intros (_ & Hd & _) H28. unfold setMonth, makeDay.
  change (12 / 12) with 1. change (12 mod 12) with 0.
  destruct (Z.leb_spec 1 (dia d)); [|lia].
  pose proof (daysInMonth_range (anio d + 1) 0).
  rewrite iter_next_day; cbn [anio mes dia ms]; [f_equal; lia | lia].
Qed.

Lemma setMonth_prev_year d :
  valid d -> dia d <= 28 ->
  setMonth d (-1)
  = {| anio := anio d - 1; mes := 11; dia := dia d; ms := ms d |}.
Proof.
  intros (_ & Hd & _) H28. unfold setMonth, makeDay.
  change (-1 / 12) with (-1). change (-1 mod 12) with 11.
  destruct (Z.leb_spec 1 (dia d)); [|lia].
  pose proof (daysInMonth_range (anio d + -1) 11).
  rewrite iter_next_day; cbn [anio mes dia ms]; [f_equal; lia | lia].
Qed.

(** X18. Stepping through the fortnights.  For a selection whose month
    is a valid date on day 28 or earlier (the application keeps it on
    day 1): the next fortnight of a first half is the second half of
    the same month, the next of a second half is the first half of the
    following month, with December followed by January of the next
    year; and the previous fortnight undoes the next one and the other
    way round. *)
Theorem fortnight_steps value :
  valid (month value) -> dia (month value) <= 28 ->
  let m := month value in
  handleNextFortnight value
  = match fortnight value with
    | First => {| month := m; fortnight := Second |}
    | Second =>
        {| month :=
             {| anio := if mes m =? 11 then anio m + 1 else anio m;
                mes := if mes m =? 11 then 0 else mes m + 1;
                dia := dia m; ms := ms m |};
           fortnight := First |}
    end
  /\ handlePrevFortnight (handleNextFortnight value) = value
  /\ handleNextFortnight (handlePrevFortnight value) = value.
Proof.
  intros Hvalid H28. destruct value as [m half]. cbn [month fortnight] in *.
  pose proof Hvalid as (Hm & Hd & Ht).
  assert (forall y mm, 0 <= mm <= 11 ->
            valid {| anio := y; mes := mm; dia := dia m; ms := ms m |})
    as Hmoved.
  { intros y mm Hmm. pose proof (daysInMonth_range y mm).
    unfold valid. cbn [anio mes dia ms]. lia. }
  assert (forall y mm r,
            dia {| anio := y; mes := mm; dia := dia m; ms := r |} <= 28)
    as Hday by (intros; cbn [dia]; lia).
  unfold handleNextFortnight, handlePrevFortnight, getMonth.
  destruct half; cbn [month fortnight].
  - split; [done|]. split; [done|].
    destruct (decide (mes m = 0)) as [H0|H0].
    + rewrite H0. change (0 - 1) with (-1).
      rewrite setMonth_prev_year by done. cbn [mes].
      change (11 + 1) with 12.
      rewrite setMonth_next_year; [|apply Hmoved; lia|apply Hday].
      cbn [anio mes dia ms]. destruct m; cbn in *. subst.
      repeat f_equal. lia.
    + rewrite (setMonth_in_month m); [|done|done|lia]. cbn [mes].
      rewrite setMonth_in_month; [|apply Hmoved; lia|apply Hday|lia].
      cbn [anio mes dia ms]. destruct m; cbn in *. repeat f_equal. lia.
  - destruct (Z.eqb_spec (mes m) 11) as [H11|H11].
    + rewrite H11. change (11 + 1) with 12.
      rewrite setMonth_next_year by done.
      split; [done|]. split; [|done]. cbn [mes]. change (0 - 1) with (-1).
      rewrite setMonth_prev_year; [|apply Hmoved; lia|apply Hday].
      cbn [anio mes dia ms]. destruct m; cbn in *. subst.
      repeat f_equal. lia.
    + rewrite (setMonth_in_month m); [|done|done|lia].
      split; [done|]. split; [|done]. cbn [mes].
      rewrite setMonth_in_month; [|apply Hmoved; lia|apply Hday|lia].
      cbn [anio mes dia ms]. destruct m; cbn in *. repeat f_equal. lia.
Qed.

Lemma fortnight_steps_witness :
  handlePrevFortnight
    (handleNextFortnight {| month := february_1; fortnight := Second |})
  = {| month := february_1; fortnight := Second |}.
Proof.
  refine (proj1 (proj2 (fortnight_steps
            {| month := february_1; fortnight := Second |} _ _))).
  - by vm_compute.
  - by vm_compute.
Defined.
End FortnightDays.

(** ** Time fields of the preferences dialog *)

(** X19. For a time of day [v >= 0] in minutes, the two fields of
    [TimeInput] show [v] split into hours and minutes below 60;
    retyping what a field shows leaves [v] as it is; typing hours
    [h >= 0] changes the hours to [h] and keeps the minutes; typing
    minutes [m] below 60 changes the minutes to [m] and keeps the
    hours; and a hours field that does not parse counts as 0. *)
Theorem time_input_round_trip v :
  0 <= v ->
  let value := Some v in
  TimeInput.hours value * 60 + TimeInput.minutes value = v
  /\ 0 <= TimeInput.minutes value < 60
  /\ TimeInput.changeHours value (Some (TimeInput.hours value)) = v
  /\ TimeInput.changeMinutes value (Some (TimeInput.minutes value)) = v
  /\ (forall h, 0 <= h ->
        let v' := Some (TimeInput.changeHours value (Some h)) in
        TimeInput.hours v' = h
        /\ TimeInput.minutes v' = TimeInput.minutes value)
  /\ (forall m, 0 <= m < 60 ->
        let v' := Some (TimeInput.changeMinutes value (Some m)) in
        TimeInput.hours v' = TimeInput.hours value
        /\ TimeInput.minutes v' = m)
  /\ TimeInput.changeHours value None = TimeInput.minutes value.
Proof.
  intros Hv value. subst value.
  unfold TimeInput.changeHours, TimeInput.changeMinutes.
  unfold TimeInput.hours, TimeInput.minutes, TimeInput.orZero.
  rewrite !(Z.rem_mod_nonneg v 60) by lia.
  pose proof (Z.div_mod v 60 ltac:(lia)) as Hdm.
  pose proof (Z.mod_pos_bound v 60 ltac:(lia)) as Hmod.
  split_and!; try lia.
  - intros h Hh. cbv zeta.
    rewrite Z.rem_mod_nonneg by lia.
    replace (h * 60 + v mod 60) with (v mod 60 + h * 60) by lia.
    rewrite Z.div_add, Z_mod_plus_full, Z.mod_mod, Z.div_small by lia.
    lia.
  - intros m Hm. cbv zeta.
    rewrite Z.rem_mod_nonneg by (pose proof (Z.div_pos v 60); lia).
    replace (v / 60 * 60 + m) with (m + v / 60 * 60) by lia.
    rewrite Z.div_add, Z_mod_plus_full, Z.div_small, Z.mod_small by lia.
    lia.
Qed.

Lemma time_input_round_trip_witness :
  TimeInput.hours (Some 485) * 60 + TimeInput.minutes (Some 485) = 485.
Proof.
  refine (proj1 (time_input_round_trip 485 _)). lia.
Defined.

(** ** Column visibility *)

(** X20. Toggling a column twice gives back the list of columns;
    toggling keeps the identifiers and labels, in order, flips the
    visibility of the columns with the given identifier and of no
    other; and two toggles can be done in either order. *)
Theorem toggleColumn_involution columns i j :
  Columns.toggleColumn (Columns.toggleColumn columns i) i = columns
  /\ map Columns.id (Columns.toggleColumn columns i) = map Columns.id columns
  /\ map Columns.label (Columns.toggleColumn columns i)
     = map Columns.label columns
  /\ map Columns.visible (Columns.toggleColumn columns i)
     = map (fun col => if bool_decide (Columns.id col = i)
                       then negb (Columns.visible col)
                       else Columns.visible col) columns
  /\ Columns.toggleColumn (Columns.toggleColumn columns i) j
     = Columns.toggleColumn (Columns.toggleColumn columns j) i.
Proof.
  unfold Columns.toggleColumn. rewrite !map_map.
  split_and!.
  - rewrite <- (map_id columns) at 2. apply map_ext. intros [ci cl cv].
    cbn [Columns.id Columns.label Columns.visible].
    destruct (bool_decide (ci = i)) eqn:Hi;
      cbn [Columns.id Columns.label Columns.visible]; rewrite Hi; [|done].
    by rewrite negb_involutive.
  - apply map_ext. intros col. by case_bool_decide.
  - apply map_ext. intros col. by case_bool_decide.
  - apply map_ext. intros col. by case_bool_decide.
  - apply map_ext. intros [ci cl cv].
    cbn [Columns.id Columns.label Columns.visible].
    destruct (bool_decide (ci = i)) eqn:Hi,
      (bool_decide (ci = j)) eqn:Hj;
      cbn [Columns.id Columns.label Columns.visible];
      by rewrite ?Hi, ?Hj.
Qed.

(** ** Keyboard navigation *)

Section NavigationFacts.
Import Navigation.

Lemma at_index_Some {A} (l : list A) i :
  0 <= i < Z.of_nat (length l) -> exists x, at_index l i = Some x /\ In x l.
Proof.
  intros Hi. unfold at_index. destruct (Z.ltb_spec i 0); [lia|].
  destruct (lookup_lt_is_Some_2 l (Z.to_nat i)) as [x Hx]; [lia|].
  exists x. split; [done|]. apply list_elem_of_In.
  by eapply list_elem_of_lookup_2.
Qed.

Lemma at_index_None {A} (l : list A) i :
  i < 0 \/ Z.of_nat (length l) <= i -> at_index l i = None.
Proof.
  intros Hi. unfold at_index. destruct (Z.ltb_spec i 0); [done|].
  apply lookup_ge_None_2. lia.
Qed.

Lemma handleKeyDown_arrow key results markedPeople st :
  navigable results markedPeople <> [] ->
  moves_down key \/ moves_up key ->
  handleKeyDown key results markedPeople st
  = let nav := navigable results markedPeople in
    let i := newIndex key (selectedIndex st) (Z.of_nat (length nav)) in
    match at_index nav i with
    | Some r => Returned {| selectedIndex := i;
                            expandedPerson := Some (name r) |}
    | None => Thrown "TypeError: navigableResults[newIndex] is undefined"
    end.
Proof.
  intros Hnav Hkey. unfold handleKeyDown.
  destruct results as [|r0 results]; [done|].
  destruct (navigable (r0 :: results) markedPeople) as [|n0 nav] eqn:Hn;
    [done|].
  by destruct Hkey as [[-> | ->] | [-> | ->]].
Qed.

(** X21. Keyboard navigation over the rows that are not marked, of
    which there are [n > 0].  From an index [prev >= -1] a down key
    selects an existing row of an unmarked person: [prev + 1], or row 0
    after the last row.  From an index [prev <= n] an up key does the
    same with [prev - 1], or the last row from row 0 or from no
    selection.  From an index above [n], which is left behind when
    people are marked after a row was selected, an up key reads a row
    that does not exist and throws.  On the rows 0 to [n - 1] up and
    down undo each other. *)
Theorem keyboard_navigation key results markedPeople st :
  let nav := navigable results markedPeople in
  let n := Z.of_nat (length nav) in
  let prev := selectedIndex st in
  let i := newIndex key prev n in
  nav <> [] ->
  (moves_down key -> -1 <= prev ->
   0 <= i < n
   /\ i = (if n - 1 <=? prev then 0 else prev + 1)
   /\ selects results markedPeople i
        (handleKeyDown key results markedPeople st))
  /\ (moves_up key -> prev <= n ->
      0 <= i < n
      /\ i = (if prev <=? 0 then n - 1 else prev - 1)
      /\ selects results markedPeople i
           (handleKeyDown key results markedPeople st))
  /\ (moves_up key -> n < prev ->
      is_thrown (handleKeyDown key results markedPeople st))
  /\ (0 <= prev < n ->
      newIndex ArrowUp (newIndex ArrowDown prev n) n = prev
      /\ newIndex ArrowDown (newIndex ArrowUp prev n) n = prev).
Proof.
  intros nav n prev i Hnav.
  assert (0 < n) as Hn by (subst n; destruct nav; simpl in *; [done | lia]).
  assert (forall j, 0 <= j < n ->
            (moves_down key \/ moves_up key) -> j = i ->
            selects results markedPeople j
              (handleKeyDown key results markedPeople st)) as Hsel.
  { intros j Hj Hkey ->.
    rewrite handleKeyDown_arrow by done. cbv zeta. fold nav n prev i.
    destruct (at_index_Some nav i Hj) as (r & Hr & Hin).
    exists r. fold nav. rewrite Hr. split; [done|]. split; [|done].
    apply filter_In in Hin as [_ Hm].
    by apply negb_true_iff, bool_decide_eq_false in Hm. }
  split_and!.
  - intros Hkey Hprev.
    assert (i = if n - 1 <=? prev then 0 else prev + 1) as Hi
      by (subst i; by destruct Hkey as [-> | ->]).
    assert (0 <= i < n)
      by (rewrite Hi; destruct (Z.leb_spec (n - 1) prev); lia).
    split; [done|]. split; [done|]. apply Hsel; auto.
  - intros Hkey Hprev.
    assert (i = if prev <=? 0 then n - 1 else prev - 1) as Hi
      by (subst i; by destruct Hkey as [-> | ->]).
    assert (0 <= i < n)
      by (rewrite Hi; destruct (Z.leb_spec prev 0); lia).
    split; [done|]. split; [done|]. apply Hsel; auto.
  - intros Hkey Hprev.
    rewrite handleKeyDown_arrow by auto. cbv zeta. fold nav n prev i.
    assert (i = prev - 1) as Hi.
    { subst i. destruct Hkey as [-> | ->]; simpl;
        destruct (Z.leb_spec prev 0); lia. }
    rewrite at_index_None by (fold n; lia). by eexists.
  - intros Hprev. unfold newIndex.
    destruct (Z.leb_spec (n - 1) prev), (Z.leb_spec prev 0);
      repeat match goal with
             | |- context [?a <=? ?b] => destruct (Z.leb_spec a b)
             end; lia.
Qed.

Lemma keyboard_navigation_witness :
  selects (analyzeAttendance ana_and_beto january_1 january_15
             DEFAULT_PREFERENCES) ∅ 0
    (handleKeyDown ArrowDown
       (analyzeAttendance ana_and_beto january_1 january_15
          DEFAULT_PREFERENCES) ∅
       {| selectedIndex := -1; expandedPerson := None |}).
Proof.
  refine (proj2 (proj2 (proj1 (keyboard_navigation ArrowDown
            (analyzeAttendance ana_and_beto january_1 january_15
               DEFAULT_PREFERENCES) ∅
            {| selectedIndex := -1; expandedPerson := None |} _) _ _))).
  - discriminate.
  - by left.
  - reflexivity.
Defined.
End NavigationFacts.

(** ** Date cell styles *)

(** X22. [getDateCellStyles] throws exactly when the date is missing.
    Otherwise the weekend comes first: a Sunday cell is the dimmed one
    and a Saturday cell depends on [hasRecords] alone, whatever the
    other flags.  The holiday colour is given exactly on a holiday
    that is not in the weekend, and the colour of missing records
    exactly on a weekday that is no holiday and has records of which
    some are missing. *)
Theorem getDateCellStyles_precedence props :
  let out := DateStyles.getDateCellStyles props in
  (is_thrown out <-> DateStyles.date props = None)
  /\ (forall d, DateStyles.date props = Some d ->
        (getDay d = 0 ->
         out = Returned "p-2 rounded shadow-sm text-sm bg-gray-50 opacity-50")
        /\ (getDay d = 6 ->
            out = Returned (if DateStyles.hasRecords props
                            then "p-2 rounded shadow-sm text-sm bg-blue-50"
                            else "p-2 rounded shadow-sm text-sm bg-gray-100"))
        /\ (out = Returned "p-2 rounded shadow-sm text-sm bg-orange-50"
            <-> getDay d <> 0 /\ getDay d <> 6
                /\ DateStyles.isHoliday props = Some true)
        /\ (out = Returned "p-2 rounded shadow-sm text-sm bg-red-50"
            <-> getDay d <> 0 /\ getDay d <> 6
                /\ DateStyles.isHoliday props <> Some true
                /\ DateStyles.hasRecords props = true
                /\ DateStyles.hasMissingRecords props = true)).
Proof.
  intros out. subst out. unfold DateStyles.getDateCellStyles, is_thrown.
  destruct props as [[d|] rs hr hm hol]; cbn [DateStyles.date
    DateStyles.hasRecords DateStyles.hasMissingRecords DateStyles.isHoliday].
  2: { split; [split; [done | by eexists]|]. by intros. }
  split.
  { split; [|done]. intros [message Hthrown].
    destruct (getDay d =? 0), (getDay d =? 6), (default false hol),
      (negb hr), hm; discriminate. }
  intros d' [= <-].
  destruct (Z.eqb_spec (getDay d) 0) as [H0|H0].
  { split_and!; try done; try (intros; lia).
    - split; [discriminate | intros; lia].
    - split; [discriminate | intros; lia]. }
  destruct (Z.eqb_spec (getDay d) 6) as [H6|H6].
  { split_and!; try done; try (intros; lia).
    - by destruct hr.
    - split; [destruct hr; discriminate | intros; lia].
    - split; [destruct hr; discriminate | intros; lia]. }
  split_and!; try done.
  - destruct hol as [[|]|]; simpl.
    + by split.
    + split; [destruct hr, hm; discriminate | by intros (_ & _ & ?)].
    + split; [destruct hr, hm; discriminate | by intros (_ & _ & ?)].
  - destruct hol as [[|]|]; simpl.
    + split; [discriminate | by intros (_ & _ & ? & _)].
    + destruct hr, hm; simpl; split; try discriminate; try done;
        by intros (_ & _ & _ & ? & ?).
    + destruct hr, hm; simpl; split; try discriminate; try done;
        by intros (_ & _ & _ & ? & ?).
Qed.

Lemma getDateCellStyles_precedence_witness :
  DateStyles.getDateCellStyles monday_cell
  = Returned "p-2 rounded shadow-sm text-sm bg-red-50".
Proof.
  refine (proj2 (proj2 (proj2 (proj2
            (proj2 (getDateCellStyles_precedence monday_cell)
               (at_ 2024 1 8 0 0 0) _)))) _).
  - reflexivity.
  - split_and!; (reflexivity || discriminate || by vm_compute).
Defined.

(** ** Registered days *)

(** X23. For every employee in the output of [analyzeAttendance] over a
    valid period, [daysRegistered] is the number of different dates
    inside the period on which a punch of the employee survives the
    duplicate filter; Saturdays and Sundays count like any other
    date. *)
Theorem daysRegistered_counts_dates records startDate endDate preferences
    res :
  startDate <= endDate ->
  In res (analyzeAttendance records startDate endDate preferences) ->
  daysRegistered res
  = size (datesWithin startDate endDate
            (datesOf (filterDuplicateRecords
                        (recordsOf (name res) records) preferences))).
Proof.
  intros _ Hres. rewrite (analyzeAttendance_In _ _ _ _ _ Hres) at 1.
  cbn [analyzeUser daysRegistered].
  set (kept := filterDuplicateRecords _ _).
  set (keys := map fst (groupByDay kept)).
  set (inside := List.filter _ keys).
  assert (NoDup inside) as Hnd.
  { eapply sublist_NoDup; [|apply filter_sublist].
    apply (group_NoDup date_key). constructor. }
  rewrite <- (size_list_to_set (C := gset Z) inside Hnd). f_equal.
  apply set_eq. intros d. unfold datesWithin.
  rewrite elem_of_list_to_set, elem_of_filter, list_elem_of_In.
  unfold inside. rewrite filter_In. unfold keys.
  rewrite groupByDay_keys. tauto.
Qed.

Lemma daysRegistered_counts_dates_witness :
  exists res,
    In res (analyzeAttendance friday_and_saturday january_1 january_15
              DEFAULT_PREFERENCES)
    /\ daysRegistered res
       = size (datesWithin january_1 january_15
                 (datesOf (filterDuplicateRecords
                             (recordsOf (name res) friday_and_saturday)
                             DEFAULT_PREFERENCES))).
Proof.
  eexists. split; [left; reflexivity|].
  refine (daysRegistered_counts_dates friday_and_saturday january_1
            january_15 DEFAULT_PREFERENCES _ _ _).
  - by vm_compute.
  - left. reflexivity.
Defined.

(** ** Absences and worked days add up *)

(** X24. For every employee in the output of [analyzeAttendance] over a
    valid period, the absences and the company workdays on which a punch
    of the employee survives the duplicate filter add up to the number
    of company workdays. *)
Theorem absences_conservation records startDate endDate preferences res :
  startDate <= endDate ->
  In res (analyzeAttendance records startDate endDate preferences) ->
  let companyWorkdays := getCompanyWorkdays records startDate endDate in
  let worked :=
    companyWorkdays
    ∩ datesOf (filterDuplicateRecords (recordsOf (name res) records)
                 preferences) in
  (absences res + size worked)%nat = size companyWorkdays.
Proof.
  intros _ Hres companyWorkdays worked.
  rewrite (absences_size _ _ _ _ _ Hres). fold companyWorkdays.
  subst worked. rewrite size_difference_alt.
  assert (size (companyWorkdays
                ∩ datesOf (filterDuplicateRecords
                             (recordsOf (name res) records) preferences))
          <= size companyWorkdays)%nat
    by (apply subseteq_size; set_solver).
  lia.
Qed.

Lemma absences_conservation_witness :
  exists res,
    In res (analyzeAttendance ana_and_beto january_1 january_15
              DEFAULT_PREFERENCES)
    /\ (absences res
        + size (getCompanyWorkdays ana_and_beto january_1 january_15
                ∩ datesOf (filterDuplicateRecords
                             (recordsOf (name res) ana_and_beto)
                             DEFAULT_PREFERENCES)))%nat
       = size (getCompanyWorkdays ana_and_beto january_1 january_15).
Proof.
  eexists. split; [right; left; reflexivity|].
  refine (absences_conservation ana_and_beto january_1 january_15
            DEFAULT_PREFERENCES _ _ _).
  - by vm_compute.
  - right. left. reflexivity.
Defined.

(** ** The day cells of the drill-down *)

Lemma some_of_false kind records :
  DayCell.some_of kind records = false
  <-> forall r, In r records -> Tipo_de_registro r <> kind.
Proof.
  unfold DayCell.some_of. split.
  - intros Hnone r Hr Hkind.
    assert (existsb (fun r => bool_decide (Tipo_de_registro r = kind))
                    records = true) as Hsome; [|congruence].
    apply existsb_exists. exists r. by rewrite bool_decide_eq_true.
  - intros Hall. destruct (existsb _ records) eqn:Hsome; [|done].
    apply existsb_exists in Hsome as (r & Hr & Hkind).
    apply bool_decide_eq_true in Hkind. by apply Hall in Hr.
Qed.

Lemma holiday_In d holidays :
  existsb (Z.eqb d) holidays = true <-> In d holidays.
Proof.
  rewrite existsb_exists. split.
  - by intros (x & Hx & ->%Z.eqb_eq).
  - intros Hd. exists d. by rewrite Z.eqb_refl.
Qed.

Lemma missing_flag sch records :
  negb (DayCell.some_of TIn records) || negb (DayCell.some_of TOut records)
  || (startTime sch + 60 <? DayCell.timeOfFirst TIn records)
  || (DayCell.some_of TOut records
      && (DayCell.timeOfFirst TOut records <? endTime sch - 60)) = true
  <-> incomplete_day sch records.
Proof.
  unfold incomplete_day.
  rewrite <- !some_of_false, !orb_true_iff, andb_true_iff,
    !negb_true_iff, !Z.ltb_lt.
  destruct (DayCell.some_of TOut records) eqn:Hout; [tauto|].
  split; [|tauto]. intros _. tauto.
Qed.

(** X25. The cell of a day in the drill-down.  No cell is made for a
    Sunday.  Otherwise the cell shows the punches that the result holds
    for the date, and it has the colour of missing records exactly when
    the date is no Saturday and no holiday and has punches, and an entry
    or an exit punch is missing, or the first entry is more than an hour
    after the scheduled start, or the first exit more than an hour
    before the scheduled end.  A date without punches shows no lateness
    and no overtime and is grey, or orange on a holiday that is not a
    Saturday. *)
Theorem day_cell_flagged dateObj result preferences holidays :
  let records := default [] (assoc (fecha dateObj) (dailyRecords result)) in
  let made := DayCell.dayCell dateObj result preferences holidays in
  (made = None <-> getDay dateObj = 0)
  /\ (forall c, made = Some c ->
        DayCell.records c = records
        /\ (DayCell.className c
            = Returned "p-2 rounded shadow-sm text-sm bg-red-50"
            <-> getDay dateObj <> 6
                /\ ~ In (fecha dateObj) holidays
                /\ records <> []
                /\ incomplete_day (schedule result) records)
        /\ (records = [] ->
            DayCell.lateMinutes c = 0
            /\ DayCell.overtimeHours c = 0%Q
            /\ DayCell.lateHours c = 0%Q
            /\ DayCell.className c
               = Returned
                   (if (getDay dateObj =? 6)
                       || negb (existsb (Z.eqb (fecha dateObj)) holidays)
                    then "p-2 rounded shadow-sm text-sm bg-gray-100"
                    else "p-2 rounded shadow-sm text-sm bg-orange-50"))).
Proof.
  intros records made. subst made. unfold DayCell.dayCell. cbv zeta.
  fold records.
  destruct (Z.eqb_spec (getDay dateObj) 0) as [H0|H0]; [by split|].
  split; [by split|]. intros c [= <-].
  cbn [DayCell.records DayCell.className DayCell.lateMinutes
       DayCell.overtimeHours DayCell.lateHours].
  split; [done|].
  unfold DateStyles.getDateCellStyles.
  cbn [DateStyles.date DateStyles.hasRecords DateStyles.hasMissingRecords
       DateStyles.isHoliday].
  change (default false (Some ?b)) with b.
  destruct (Z.eqb_spec (getDay dateObj) 0) as [|_]; [done|].
  pose proof (holiday_In (fecha dateObj) holidays) as Hhol.
  pose proof (missing_flag (schedule result) records) as Hmiss.
  split.
  - destruct (Z.eqb_spec (getDay dateObj) 6) as [H6|H6].
    { split; [destruct (0 <? length records)%nat; discriminate|].
      by intros [? _]. }
    destruct (existsb (Z.eqb (fecha dateObj)) holidays).
    { split; [discriminate|]. intros (_ & Hnot & _).
      exfalso. by apply Hnot, Hhol. }
    assert (~ In (fecha dateObj) holidays) as Hnot
      by (intros Hin; apply Hhol in Hin; discriminate).
    destruct records as [|r0 rs] eqn:Hrs.
    { split; [discriminate|]. by intros (_ & _ & ? & _). }
    cbn [length Nat.ltb Nat.leb negb andb].
    match goal with
    | |- context [if ?b then _ else _] => destruct b eqn:Hflag
    end.
    + split; [|done]. intros _. split_and!; try done. by apply Hmiss.
    + split; [discriminate|]. intros (_ & _ & _ & Hinc).
      apply Hmiss in Hinc. congruence.
  - intros Hnil. rewrite Hnil.
    split_and!; try reflexivity.
    cbn [length Nat.ltb Nat.leb negb].
    destruct (getDay dateObj =? 6); [done|].
    by destruct (existsb (Z.eqb (fecha dateObj)) holidays).
Qed.

Lemma day_cell_flagged_witness :
  exists c,
    DayCell.dayCell (at_ 2024 1 8 0 0 0) only_in_result
      DEFAULT_PREFERENCES [] = Some c
    /\ DayCell.className c
       = Returned "p-2 rounded shadow-sm text-sm bg-red-50".
Proof.
  eexists. split; [reflexivity|].
  refine (proj2 (proj1 (proj2 (proj2 (day_cell_flagged
            (at_ 2024 1 8 0 0 0) only_in_result DEFAULT_PREFERENCES [])
            _ eq_refl))) _).
  split_and!.
  - by vm_compute.
  - by intros [].
  - discriminate.
  - right. left. intros r [<-|[]]. discriminate.
Defined.

Lemma dailyRecords_lookup records startDate endDate preferences res d rs :
  In res (analyzeAttendance records startDate endDate preferences) ->
  assoc d (dailyRecords res) = Some rs ->
  rs <> [] /\ StronglySorted by_time rs
  /\ forall r, In r rs -> date_key r = d.
Proof.
  intros Hres Hrs%assoc_Some_In.
  split_and!.
  - rewrite (analyzeAttendance_In _ _ _ _ _ Hres) in Hrs. simpl in Hrs.
    by apply (group_entries_nonempty date_key) in Hrs.
  - by eapply dailyRecords_sorted.
  - rewrite (analyzeAttendance_In _ _ _ _ _ Hres) in Hrs. simpl in Hrs.
    apply (group_entries date_key) in Hrs. subst rs.
    by intros r [_ ?]%filter_key_In.
Qed.

(** X26. The drill-down cell of a Saturday, for a result of
    [analyzeAttendance] and whatever preferences the drill-down is
    given: the cell shows no late minutes, no late hours and no
    overtime, it is never marked as incomplete, it is blue with punches
    and grey without, and its Saturday hours are a whole number of half
    hours that is not negative. *)
Theorem day_cell_saturday records startDate endDate analysed res dateObj
    preferences holidays :
  In res (analyzeAttendance records startDate endDate analysed) ->
  getDay dateObj = 6 ->
  exists c,
    DayCell.dayCell dateObj res preferences holidays = Some c
    /\ DayCell.lateMinutes c = 0
    /\ DayCell.lateHours c = 0%Q
    /\ DayCell.overtimeHours c = 0%Q
    /\ DayCell.hasMissingRecords c = false
    /\ DayCell.className c
       = Returned (if DayCell.records c
                   is [] then "p-2 rounded shadow-sm text-sm bg-gray-100"
                   else "p-2 rounded shadow-sm text-sm bg-blue-50")
    /\ multiple_of_half (DayCell.saturdayHours c)
    /\ (0 <= DayCell.saturdayHours c)%Q.
Proof.
  intros Hres Hsat. unfold DayCell.dayCell. cbv zeta. rewrite Hsat.
  change (6 =? 0) with false. change (6 =? 6) with true. cbv iota.
  eexists. split; [reflexivity|].
  cbn [DayCell.records DayCell.className DayCell.lateMinutes
       DayCell.overtimeHours DayCell.lateHours DayCell.hasMissingRecords
       DayCell.saturdayHours negb andb].
  set (rs := default [] (assoc (fecha dateObj) (dailyRecords res))).
  assert (rs = [] \/
          (rs <> [] /\ StronglySorted by_time rs
           /\ forall r, In r rs -> date_key r = fecha dateObj)) as Hrs.
  { subst rs. destruct (assoc _ _) as [l|] eqn:Hl; [right | by left].
    by eapply dailyRecords_lookup. }
  assert (analyzeDayRecords rs (schedule res) preferences = noLateness)
    as ->.
  { destruct (head (filterDuplicateRecords rs preferences))
      as [first|] eqn:Hhead; [|by apply analyzeDayRecords_empty].
    apply (analyzeDayRecords_saturday _ _ _ first Hhead).
    destruct Hrs as [Hnil | (_ & _ & Hdate)];
      [by rewrite Hnil in Hhead|].
    assert (In first rs) as Hin.
    { apply (filterDuplicateRecords_In rs preferences).
      apply list_elem_of_In. by apply head_Some_elem_of. }
    apply Hdate in Hin. unfold getDay, date_key in *. by rewrite Hin. }
  split_and!; try reflexivity.
  - unfold DateStyles.getDateCellStyles.
    cbn [DateStyles.date DateStyles.hasRecords]. rewrite Hsat.
    change (6 =? 0) with false. change (6 =? 6) with true. cbv iota.
    by destruct rs.
  - destruct (2 <=? length rs)%nat; [|by exists 0].
    destruct (head rs), (last rs); try (by exists 0).
    apply round_to_half_nearest.
  - destruct (2 <=? length rs)%nat; [|done].
    destruct (head rs) as [first|] eqn:Hhead; [|done].
    destruct (last rs) as [lastR|] eqn:Hlast; [|done].
    apply round_to_half_nonneg.
    destruct Hrs as [Hnil | (_ & Hsorted & _)];
      [by rewrite Hnil in Hhead|].
    pose proof (head_last_by_time rs first lastR Hsorted Hhead Hlast).
    pose proof (differenceInMinutes_nonneg (Fecha_Hora lastR)
                  (Fecha_Hora first) ltac:(done)) as Hdiff.
    apply number_div_nonneg; [|by compute].
    change 0%Q with (inject_Z 0). by rewrite <- Zle_Qle.
Qed.

Lemma day_cell_saturday_witness :
  exists c,
    DayCell.dayCell (at_ 2024 1 6 0 0 0)
      (analyzeUser ∅ january_1 january_15 DEFAULT_PREFERENCES
         ("Ana", friday_and_saturday))
      DEFAULT_PREFERENCES [] = Some c
    /\ DayCell.lateMinutes c = 0.
Proof.
  destruct (day_cell_saturday (recordsOf "Ana" friday_and_saturday)
              january_1 january_15 DEFAULT_PREFERENCES
              (analyzeUser ∅ january_1 january_15 DEFAULT_PREFERENCES
                 ("Ana", friday_and_saturday))
              (at_ 2024 1 6 0 0 0) DEFAULT_PREFERENCES [])
    as (c & Hc & Hlate & _).
  - left. reflexivity.
  - reflexivity.
  - exists c. by split.
Defined.
